(** * Launchpad: the bonding-curve trading engine

    A shallow embedding of the trading, storage and graduation code of the
    Launchpad server and client libraries, and the properties of the
    engine's specification checked against it.

    Conventions of the embedding.

    - A JavaScript [number] is an IEEE-754 binary64 value.  The arithmetic
      the sources use is collected in the interface [JsNumber]; every
      function of the sources is written once, over that interface.  Two
      instances are given: [float] (Rocq's primitive binary64 numbers,
      the arithmetic the program runs) and [Q] (exact rationals, the
      arithmetic the curve formulas are written for).
    - A [text]/[decimal] column that holds the decimal rendering of a
      number is kept as the number itself ([parseFloat] after [toString]
      is the identity on doubles).
    - A JavaScript [Map] is an association list in insertion order.
    - [Date] values are their millisecond time stamps.
    - Calls that leave the process (Solana RPC, wallet, HTTP) appear as
      the outcome they return, supplied by the caller of the model. *)

From Stdlib Require Import ZArith QArith Qround Qabs Qreduction Lqa.
From Stdlib Require Import Bool List Ascii String DecimalString Lia.
From Stdlib Require Import Permutation Sorted.
From Stdlib Require Import Floats.PrimFloat.
Import ListNotations.

Set Implicit Arguments.

(** ** JavaScript numbers *)

Declare Scope js_scope.
Delimit Scope js_scope with js.

Class JsNumber (num : Type) : Type := {
  (** the decimal literal [m * 10^(-e)] *)
  lit   : Z -> nat -> num;
  add   : num -> num -> num;
  sub   : num -> num -> num;
  mul   : num -> num -> num;
  div   : num -> num -> num;
  (** [a < b] and [a <= b] *)
  ltb   : num -> num -> bool;
  leb   : num -> num -> bool;
  (** [Math.abs], [Math.floor], [Math.min] *)
  abs   : num -> num;
  floor : num -> num;
  min   : num -> num -> num;
  (** ToBoolean: false at zero and NaN *)
  truthy : num -> bool
}.

Infix "+" := add : js_scope.
Infix "-" := sub : js_scope.
Infix "*" := mul : js_scope.
Infix "/" := div : js_scope.
Notation "a >=? b" := (leb b a) (at level 70) : js_scope.
Notation "a <=? b" := (leb a b) (at level 70) : js_scope.
Notation "a >? b" := (ltb b a) (at level 70) : js_scope.
Notation "a <? b" := (ltb a b) (at level 70) : js_scope.

(** An integer literal. *)
Definition int {num} `{JsNumber num} (z : Z) : num := lit z 0.

(** Whether an optional value is there. *)
Definition isSome {X} (o : option X) : bool :=
  match o with Some _ => true | None => false end.

(** [a || b] on numbers. *)
Definition orElse {num} `{JsNumber num} (a b : num) : num :=
  if truthy a then a else b.

(** *** Binary64 *)

Module Float64.

Fixpoint of_pos (p : positive) : float :=
  match p with
  | xH => 1
  | xO p' => 2 * of_pos p'
  | xI p' => 2 * of_pos p' + 1
  end%float.

(** Exact for [|z| < 2^53]. *)
Definition of_Z (z : Z) : float :=
  match z with
  | Z0 => 0
  | Zpos p => of_pos p
  | Zneg p => - of_pos p
  end%float.

(** A decimal literal is the double nearest to its value; the quotient
    of two exactly represented integers is rounded the same way. *)
Definition lit (m : Z) (e : nat) : float :=
  match e with
  | O => of_Z m
  | _ => (of_Z m / of_Z (10 ^ Z.of_nat e))%float
  end.

Definition two52 : float := 4503599627370496%float.

(** [Math.floor]: below [2^52] in magnitude, adding and removing [2^52]
    rounds to the nearest integer, which is then corrected downwards. *)
Definition floor (x : float) : float :=
  if is_zero x then x
  else if (PrimFloat.abs x <? two52)%float then
    let r := if (0 <=? x)%float then ((x + two52) - two52)%float
             else ((x - two52) + two52)%float in
    if (x <? r)%float then (r - 1)%float else r
  else x.

Definition min (a b : float) : float :=
  if is_nan a then a
  else if is_nan b then b
  else if (a <? b)%float then a
  else if (b <? a)%float then b
  else if get_sign a then a else b.

Definition truthy (x : float) : bool := negb (is_zero x || is_nan x).

End Float64.

#[export] Instance float_JsNumber : JsNumber float := {
  lit := Float64.lit;
  add := PrimFloat.add;
  sub := PrimFloat.sub;
  mul := PrimFloat.mul;
  div := PrimFloat.div;
  ltb := PrimFloat.ltb;
  leb := PrimFloat.leb;
  abs := PrimFloat.abs;
  floor := Float64.floor;
  min := Float64.min;
  truthy := Float64.truthy
}.

(** *** Exact rationals

    Every result is reduced, so that equal rationals are the same term.
    [x / 0] is [0] here, where a double gives an infinity or NaN: the
    statements over [Q] keep their denominators away from zero. *)

Module Exact.

Definition lit (m : Z) (e : nat) : Q :=
  Qred (inject_Z m / inject_Z (10 ^ Z.of_nat e)).

Definition add (a b : Q) : Q := Qred (a + b).
Definition sub (a b : Q) : Q := Qred (a - b).
Definition mul (a b : Q) : Q := Qred (a * b).
Definition div (a b : Q) : Q := Qred (a / b).

Definition ltb (a b : Q) : bool := negb (Qle_bool b a).

Definition floor (a : Q) : Q := inject_Z (Qfloor a).

Definition min (a b : Q) : Q := if Qle_bool a b then a else b.

Definition truthy (a : Q) : bool := negb (Qeq_bool a 0).

End Exact.

Arguments Exact.lit _ _ : simpl never.
Arguments Exact.add _ _ : simpl never.
Arguments Exact.sub _ _ : simpl never.
Arguments Exact.mul _ _ : simpl never.
Arguments Exact.div _ _ : simpl never.

#[export] Instance Q_JsNumber : JsNumber Q := {
  lit := Exact.lit;
  add := Exact.add;
  sub := Exact.sub;
  mul := Exact.mul;
  div := Exact.div;
  ltb := Exact.ltb;
  leb := Qle_bool;
  abs := Qabs;
  floor := Exact.floor;
  min := Exact.min;
  truthy := Exact.truthy
}.

(** ** src/server/solana-integration.ts: ServerSolanaService *)

Module ServerSolanaService.

Section WithNumber.
Context {num : Type} `{JsNumber num}.
Local Open Scope js_scope.

(** [LAMPORTS_PER_SOL] of @solana/web3.js, and the two keys the function
    writes out: the program id and the treasury wallet. *)
Definition LAMPORTS_PER_SOL : num := int 1000000000.
Definition BONDING_CURVE_PROGRAM_ID : string := "11111111111111111111111111111111".
Definition treasuryWallet : string := "9WzDXwBbmkg8ZTbNMqUxvQRAyrZzDsGYdLVL9zYtAWWM".

(** The instruction [executeTokenTrade] adds to its transaction: the
    SOL transfer of a buy, or the sell instruction with its accounts and
    the two amounts of its data. *)
Inductive Instruction : Type :=
| Transfer (fromPubkey toPubkey : string) (lamports : num)
| SellInstruction (wallet userTokenAccount bondingCurvePool tokenMint : string)
                  (amountIn amountOut : num).

Record Transaction : Type := {
  recentBlockhash : string;
  feePayer : string;
  instructions : list Instruction
}.

(** What the Solana library and the cluster answer.  Neither is part of
    the sources: each call is an outcome supplied for its arguments, and
    any of them can throw. *)
Record SolanaEnv : Type := {
  (** [new PublicKey(text)] returns a key; it throws on any other text *)
  publicKey : string -> bool;
  (** [PublicKey.isOnCurve] of the key of a text *)
  isOnCurve : string -> bool;
  (** [connection.getLatestBlockhash], [None] when it throws *)
  latestBlockhash : option string;
  (** [PublicKey.findProgramAddressSync] for the pool of a mint *)
  findProgramAddress : string -> option string;
  (** [SystemProgram.transfer] encodes that number of lamports *)
  transfer : num -> bool;
  (** [getAssociatedTokenAddress] of a mint and an owner *)
  getAssociatedTokenAddress : string -> string -> option string;
  (** [transaction.serialize(...).toString('base64')] *)
  serialize : Transaction -> option string;
  (** the [Date.now()]/[Math.random()] stamp of the signature *)
  stamp : string
}.

Definition TOTAL_SUPPLY : num := int 1000000000.
Definition GRADUATION_THRESHOLD : num := int 69000.
Definition INITIAL_VIRTUAL_SOL : num := int 30.
Definition INITIAL_VIRTUAL_TOKENS : num := int 1073000000.

Record TokenTrade : Type := {
  signature : string;
  amountOut : num;
  priceImpact : num;
  newPrice : num;
  success : bool;
  marketCap : num;
  isGraduated : bool;
  transactionBuffer : string
}.

(** The locals of the "Bonding curve calculations" block. *)
Record Curve : Type := {
  c_amountOut : num;
  c_newSolReserves : num;
  c_newTokenReserves : num;
  c_newPrice : num;
  c_priceImpact : num;
  c_marketCap : num;
  c_isGraduated : bool
}.

(** Lines 235-260, as a function of the block's pool state. *)
Definition bondingCurve (currentSolReserves currentTokenReserves : num)
           (amountIn : num) (isBuy : bool) : Curve :=
  let k := currentSolReserves * currentTokenReserves in
  let '(newSolReserves, newTokenReserves, amountOut) :=
    if isBuy then
      let newSolReserves := currentSolReserves + amountIn in
      let newTokenReserves := k / newSolReserves in
      (newSolReserves, newTokenReserves,
       currentTokenReserves - newTokenReserves)
    else
      let newTokenReserves := currentTokenReserves + amountIn in
      let newSolReserves := k / newTokenReserves in
      (newSolReserves, newTokenReserves,
       currentSolReserves - newSolReserves) in
  let circulating := TOTAL_SUPPLY - newTokenReserves in
  let newPrice := newSolReserves / circulating in
  let oldPrice := currentSolReserves / (TOTAL_SUPPLY - currentTokenReserves) in
  let priceImpact := abs ((newPrice - oldPrice) / oldPrice) * int 100 in
  let marketCap := newSolReserves in
  {| c_amountOut := amountOut;
     c_newSolReserves := newSolReserves;
     c_newTokenReserves := newTokenReserves;
     c_newPrice := newPrice;
     c_priceImpact := priceImpact;
     c_marketCap := marketCap;
     c_isGraduated := marketCap >=? GRADUATION_THRESHOLD |}.

Definition failed : TokenTrade :=
  {| signature := EmptyString; amountOut := int 0; priceImpact := int 0;
     newPrice := int 0; success := false; marketCap := int 0;
     isGraduated := false; transactionBuffer := EmptyString |}.

(** The pool state is not fetched: every call starts from the initial
    virtual reserves.  Any exception ends in the [catch] result. *)
Definition executeTokenTrade (env : SolanaEnv) (tokenMint : string)
           (amountIn : num) (isBuy : bool) (walletAddress : string) : TokenTrade :=
  if negb (publicKey env walletAddress) then failed else
  if negb (isOnCurve env walletAddress) then failed else
  let currentSolReserves := INITIAL_VIRTUAL_SOL in
  let currentTokenReserves := INITIAL_VIRTUAL_TOKENS in
  let c := bondingCurve currentSolReserves currentTokenReserves amountIn isBuy in
  match latestBlockhash env with
  | None => failed
  | Some blockhash =>
      if negb (publicKey env BONDING_CURVE_PROGRAM_ID) then failed else
      if negb (publicKey env tokenMint) then failed else
      match findProgramAddress env tokenMint with
      | None => failed
      | Some bondingCurvePool =>
          let instruction :=
            if isBuy then
              let lamports := floor (amountIn * LAMPORTS_PER_SOL) in
              if publicKey env treasuryWallet && transfer env lamports
              then Some (Transfer walletAddress treasuryWallet lamports)
              else None
            else
              match getAssociatedTokenAddress env tokenMint walletAddress with
              | Some userTokenAccount =>
                  Some (SellInstruction walletAddress userTokenAccount
                          bondingCurvePool tokenMint amountIn (c_amountOut c))
              | None => None
              end in
          match instruction with
          | None => failed
          | Some added =>
              match serialize env {| recentBlockhash := blockhash;
                                     feePayer := walletAddress;
                                     instructions := [added] |} with
              | None => failed
              | Some buffer =>
                  {| signature := stamp env ++ substring 0 8 tokenMint;
                     amountOut := c_amountOut c;
                     priceImpact := c_priceImpact c;
                     newPrice := c_newPrice c;
                     success := true;
                     marketCap := c_marketCap c;
                     isGraduated := c_isGraduated c;
                     transactionBuffer := buffer |}
              end
          end
      end
  end.

End WithNumber.

End ServerSolanaService.

(** ** src/unnamed/part_012: RaydiumTradingService (client) *)

Module RaydiumTradingService.

Section WithNumber.
Context {num : Type} `{JsNumber num}.
Local Open Scope js_scope.

Record PoolInfo : Type := {
  tokenMint : string;
  baseMint : string;
  quoteMint : string;
  baseReserve : num;
  quoteReserve : num;
  currentPrice : num;
  marketCap : num;
  volume24h : num
}.

Record TradeParams : Type := {
  p_tokenMint : string;
  p_amountIn : num;
  p_amountOut : num;
  p_isBuy : bool;
  p_slippage : num
}.

Record TradeResult : Type := {
  signature : string;
  success : bool;
  error : option string;
  amountIn : num;
  amountOut : num;
  priceImpact : num
}.

(** The body posted to [/api/pools/update]. *)
Record PoolUpdate : Type := {
  u_tokenMint : string;
  u_amountIn : num;
  u_amountOut : num;
  u_isBuy : bool
}.

(** What the wallet, the pool lookup and the cluster return. *)
Record TradeEnv : Type := {
  walletConnected : bool;
  (** [getPoolInfo], which answers [null] on any error *)
  poolInfo : option PoolInfo;
  (** sign, send and confirm: the signature, or the message thrown *)
  confirmed : string + string
}.

Definition calculatePriceImpact (amountIn reserveIn reserveOut : num)
           (isBuy : bool) : num :=
  if isBuy then (amountIn / (reserveIn + amountIn)) * int 100
  else (amountIn / (reserveOut + amountIn)) * int 100.

(** The "Calculate output amount" block shared by [executeTrade] and
    [getTradeQuote]. *)
Definition outputAmount (pool : PoolInfo) (amountIn : num) (isBuy : bool) : num :=
  if isBuy then
    let k := baseReserve pool * quoteReserve pool in
    let newQuoteReserve := quoteReserve pool + amountIn in
    let newBaseReserve := k / newQuoteReserve in
    baseReserve pool - newBaseReserve
  else
    let k := baseReserve pool * quoteReserve pool in
    let newBaseReserve := baseReserve pool + amountIn in
    let newQuoteReserve := k / newBaseReserve in
    quoteReserve pool - newQuoteReserve.

(** The locals [newBaseReserve] and [newQuoteReserve] of that block: the
    reserves it computes for the pool after the trade. *)
Definition newReserves (pool : PoolInfo) (amountIn : num) (isBuy : bool) : num * num :=
  if isBuy then
    let k := baseReserve pool * quoteReserve pool in
    let newQuoteReserve := quoteReserve pool + amountIn in
    let newBaseReserve := k / newQuoteReserve in
    (newBaseReserve, newQuoteReserve)
  else
    let k := baseReserve pool * quoteReserve pool in
    let newBaseReserve := baseReserve pool + amountIn in
    let newQuoteReserve := k / newBaseReserve in
    (newBaseReserve, newQuoteReserve).

Definition failure (params : TradeParams) (message : string) : TradeResult :=
  {| signature := EmptyString; success := false; error := Some message;
     amountIn := p_amountIn params; amountOut := int 0;
     priceImpact := int 0 |}.

(** The result, and the reserve updates posted to the server. *)
Definition executeTrade (env : TradeEnv) (params : TradeParams)
  : TradeResult * list PoolUpdate :=
  if negb (walletConnected env) then (failure params "Wallet not connected", [])
  else
    match poolInfo env with
    | None => (failure params "Pool not found", [])
    | Some pool =>
        let amountIn := p_amountIn params in
        let isBuy := p_isBuy params in
        let priceImpact :=
          calculatePriceImpact amountIn
            (if isBuy then quoteReserve pool else baseReserve pool)
            (if isBuy then baseReserve pool else quoteReserve pool)
            isBuy in
        let amountOut := outputAmount pool amountIn isBuy in
        let minAmountOut := amountOut * (int 1 - p_slippage params / int 100) in
        match confirmed env with
        | inr message => (failure params message, [])
        | inl sig =>
            ({| signature := sig; success := true; error := None;
                amountIn := amountIn; amountOut := minAmountOut;
                priceImpact := priceImpact |},
             [ {| u_tokenMint := p_tokenMint params; u_amountIn := amountIn;
                  u_amountOut := amountOut; u_isBuy := isBuy |} ])
        end
    end.

Record Quote : Type := {
  q_amountOut : num;
  q_priceImpact : num;
  q_price : num
}.

Definition getTradeQuote (pool : option PoolInfo) (amountIn : num)
           (isBuy : bool) : option Quote :=
  match pool with
  | None => None
  | Some pool =>
      let priceImpact :=
        calculatePriceImpact amountIn
          (if isBuy then quoteReserve pool else baseReserve pool)
          (if isBuy then baseReserve pool else quoteReserve pool)
          isBuy in
      Some {| q_amountOut := outputAmount pool amountIn isBuy;
              q_priceImpact := priceImpact;
              q_price := currentPrice pool |}
  end.

End WithNumber.

End RaydiumTradingService.

(** ** src/unnamed/part_013: PumpTradingEngine (client) *)

Module PumpTradingEngine.

Section WithNumber.
Context {num : Type} `{JsNumber num}.
Local Open Scope js_scope.

(** The JSON answered by [/api/tokens/pool/:mint]. *)
Record PoolInfo : Type := {
  baseReserve : num;
  quoteReserve : num;
  currentPrice : num;
  marketCap : num;
  graduationProgress : num
}.

Record Quote : Type := {
  amountOut : num;
  priceImpact : num;
  newPrice : num;
  q_currentPrice : num;
  q_marketCap : num;
  q_graduationProgress : num
}.

(** [response] is [None] when the fetch fails or is not [ok]. *)
Definition getTradeQuote (response : option PoolInfo) (amountIn : num)
           (isBuy : bool) : option Quote :=
  match response with
  | None => None
  | Some poolInfo =>
      let baseReserve := baseReserve poolInfo in
      let quoteReserve := quoteReserve poolInfo in
      let k := baseReserve * quoteReserve in
      let '(amountOut, priceImpact) :=
        if isBuy then
          let newQuoteReserve := quoteReserve + amountIn in
          let newBaseReserve := k / newQuoteReserve in
          (baseReserve - newBaseReserve, (amountIn / quoteReserve) * int 100)
        else
          let newBaseReserve := baseReserve + amountIn in
          let newQuoteReserve := k / newBaseReserve in
          (quoteReserve - newQuoteReserve, (amountIn / baseReserve) * int 100) in
      let newPrice :=
        if isBuy then (quoteReserve + amountIn) / (baseReserve - amountOut)
        else (quoteReserve - amountOut) / (baseReserve + amountIn) in
      Some {| amountOut := amountOut; priceImpact := priceImpact;
              newPrice := newPrice;
              q_currentPrice := currentPrice poolInfo;
              q_marketCap := marketCap poolInfo;
              q_graduationProgress := graduationProgress poolInfo |}
  end.

(** The reserves [getTradeQuote] prices the pool at after the trade, in
    its [newPrice]. *)
Definition reservesAfter (poolInfo : PoolInfo) (amountIn : num) (isBuy : bool)
           (amountOut : num) : num * num :=
  if isBuy then (baseReserve poolInfo - amountOut, quoteReserve poolInfo + amountIn)
  else (baseReserve poolInfo + amountIn, quoteReserve poolInfo - amountOut).

End WithNumber.

End PumpTradingEngine.

(** ** A buy followed by the sale of the tokens received

    The server code that stores the reserves after a trade is not among
    the sources; the pool after a trade has the reserves the trade's own
    code computes for it. *)

Module RoundTrip.

Section WithNumber.
Context {num : Type} `{JsNumber num}.
Local Open Scope js_scope.

Definition withReserves (pool : @RaydiumTradingService.PoolInfo num)
           (base quote : num) : @RaydiumTradingService.PoolInfo num :=
  {| RaydiumTradingService.tokenMint := RaydiumTradingService.tokenMint pool;
     RaydiumTradingService.baseMint := RaydiumTradingService.baseMint pool;
     RaydiumTradingService.quoteMint := RaydiumTradingService.quoteMint pool;
     RaydiumTradingService.baseReserve := base;
     RaydiumTradingService.quoteReserve := quote;
     RaydiumTradingService.currentPrice := RaydiumTradingService.currentPrice pool;
     RaydiumTradingService.marketCap := RaydiumTradingService.marketCap pool;
     RaydiumTradingService.volume24h := RaydiumTradingService.volume24h pool |}.

(** A buy of [x] priced by [RaydiumTradingService], and the sale of the
    tokens received priced on the reserves after the buy. *)
Definition buyThenSell (pool : @RaydiumTradingService.PoolInfo num) (x : num) : num :=
  let received := RaydiumTradingService.outputAmount pool x true in
  let '(base, quote) := RaydiumTradingService.newReserves pool x true in
  RaydiumTradingService.outputAmount (withReserves pool base quote) received false.

(** The same round trip priced by [PumpTradingEngine.getTradeQuote]. *)
Definition quotedBuyThenSell (pool : @PumpTradingEngine.PoolInfo num) (x : num)
  : option num :=
  match PumpTradingEngine.getTradeQuote (Some pool) x true with
  | None => None
  | Some buy =>
      let received := PumpTradingEngine.amountOut buy in
      let '(base, quote) := PumpTradingEngine.reservesAfter pool x true received in
      match PumpTradingEngine.getTradeQuote
              (Some {| PumpTradingEngine.baseReserve := base;
                       PumpTradingEngine.quoteReserve := quote;
                       PumpTradingEngine.currentPrice :=
                         PumpTradingEngine.currentPrice pool;
                       PumpTradingEngine.marketCap := PumpTradingEngine.marketCap pool;
                       PumpTradingEngine.graduationProgress :=
                         PumpTradingEngine.graduationProgress pool |})
              received false with
      | None => None
      | Some sell => Some (PumpTradingEngine.amountOut sell)
      end
  end.

End WithNumber.

End RoundTrip.

(** ** src/unnamed/part_005 (./bonding-curve-new): NewBondingCurveService *)

(** The result type shared by the bonding-curve services. *)
Record BondingCurveResult (num : Type) : Type := {
  bc_success : bool;
  bc_tokensAmount : num;
  bc_newPrice : num;
  bc_priceImpact : num;
  bc_solCollected : num;
  bc_isGraduated : bool;
  bc_transactionBuffer : option string;
  bc_error : option string
}.

Record BondingCurveParams (num : Type) : Type := {
  bc_tokenMint : string;
  bc_amountIn : num;
  bc_isBuy : bool;
  bc_walletAddress : string
}.

Section BondingCurveFailure.
Context {num : Type} `{JsNumber num}.

(** The [catch] branch: [error.message || fallback]. *)
Definition bondingCurveFailure (message : string) : BondingCurveResult num :=
  {| bc_success := false; bc_tokensAmount := int 0; bc_newPrice := int 0;
     bc_priceImpact := int 0; bc_solCollected := int 0;
     bc_isGraduated := false; bc_transactionBuffer := None;
     bc_error := Some (if String.eqb message EmptyString then
                         "Failed to execute bonding curve trade"%string
                       else message) |}.
End BondingCurveFailure.

Module NewBondingCurveService.

Section WithNumber.
Context {num : Type} `{JsNumber num}.
Local Open Scope js_scope.

Definition GRADUATION_THRESHOLD : num := int 69.
Definition INITIAL_SUPPLY : num := int 1000000000.
Definition CURVE_CONSTANT : num := lit 1 6.

Definition calculatePrice (currentSupply : num) : num :=
  let soldTokens := INITIAL_SUPPLY - currentSupply in
  CURVE_CONSTANT * soldTokens.

(** The [while] loop of [calculateTokensForSOL]; [None] when the fuel
    is used up before the loop condition fails. *)
Fixpoint tokensLoop (fuel : nat) (remainingSol tokensReceived supply : num)
  : option num :=
  match fuel with
  | O => None
  | S fuel' =>
      if (remainingSol >? int 0) && (supply >? int 0) then
        let currentPrice := calculatePrice supply in
        let tokensAtPrice := min (int 1000) supply in
        let costForTokens := currentPrice * tokensAtPrice in
        if costForTokens <=? remainingSol then
          tokensLoop fuel' (remainingSol - costForTokens)
                     (tokensReceived + tokensAtPrice)
                     (supply - tokensAtPrice)
        else
          let tokensBuyable := floor (remainingSol / currentPrice) in
          tokensLoop fuel' (int 0) (tokensReceived + tokensBuyable) supply
      else Some tokensReceived
  end.

Definition calculateTokensForSOL (fuel : nat) (solAmount currentSupply : num)
  : option (num * num) :=
  match tokensLoop fuel solAmount (int 0) currentSupply with
  | None => None
  | Some tokensReceived =>
      let avgPrice :=
        if solAmount >? int 0 then solAmount / tokensReceived
        else calculatePrice currentSupply in
      Some (tokensReceived, avgPrice)
  end.

(** [transfer] is what [createSOLTransfer] gives: the serialised
    transaction, or the message of the error it throws.  The supply
    shrinks by a chunk of 1000 in every round of the loop but the
    last two, so 800002 rounds are enough from 800M tokens. *)
Definition executeBondingCurveTrade (transfer : string + string)
           (params : BondingCurveParams num) : option (BondingCurveResult num) :=
  let amountIn := bc_amountIn params in
  if negb (bc_isBuy params) then
    Some (bondingCurveFailure "Sell functionality not implemented yet")
  else
    let currentSupply := int 800000000 in
    let solCollected := lit 155 1 in
    match calculateTokensForSOL (Z.to_nat 800002) amountIn currentSupply with
    | None => None
    | Some (tokensOut, avgPrice) =>
        let newSolCollected := solCollected + amountIn in
        let isGraduated := newSolCollected >=? GRADUATION_THRESHOLD in
        match transfer with
        | inr message => Some (bondingCurveFailure message)
        | inl transactionBuffer =>
            Some {| bc_success := true;
                    bc_tokensAmount := tokensOut;
                    bc_newPrice := calculatePrice (currentSupply - tokensOut);
                    bc_priceImpact :=
                      ((avgPrice - calculatePrice currentSupply)
                       / calculatePrice currentSupply) * int 100;
                    bc_solCollected := newSolCollected;
                    bc_isGraduated := isGraduated;
                    bc_transactionBuffer := Some transactionBuffer;
                    bc_error := None |}
        end
    end.

End WithNumber.

End NewBondingCurveService.

(** ** src/unnamed/part_006 (./bonding-curve): BondingCurveService *)

Module BondingCurveService.

Section WithNumber.
Context {num : Type} `{JsNumber num}.

(** A sell throws at once.  On a buy the figures of the trade are
    computed and logged only; the function then ends in
    [return result], a name it never declares, and the ReferenceError
    is caught by the same [catch] as every other error. *)
Definition executeBondingCurveTrade (transfer : string + string)
           (params : BondingCurveParams num) : BondingCurveResult num :=
  if negb (bc_isBuy params) then
    bondingCurveFailure "Sell functionality not implemented yet"
  else
    match transfer with
    | inr message => bondingCurveFailure message
    | inl _ => bondingCurveFailure "result is not defined"
    end.

End WithNumber.

End BondingCurveService.

(** ** src/unnamed/part_005, second file: SimpleRaydiumTrading *)

Module SimpleRaydiumTrading.

Section WithNumber.
Context {num : Type} `{JsNumber num}.
Local Open Scope js_scope.

Record SimpleRaydiumTrade : Type := {
  tokenMint : string;
  amountIn : num;
  walletAddress : string
}.

Record SimpleRaydiumResult : Type := {
  success : bool;
  tokensOut : num;
  solTransferred : num;
  priceImpact : num;
  transactionBuffer : string;
  error : option string
}.

Definition calculateTokensOut (solAmount : num) : num :=
  let baseRate := int 25 in
  let currentSolCollected := lit 155 1 in
  let totalWithNew := currentSolCollected + solAmount in
  let priceMultiplier := int 1 + (totalWithNew / int 69) * lit 5 1 in
  let effectiveRate := baseRate / priceMultiplier in
  floor (solAmount * effectiveRate).

Definition calculatePriceImpact (solAmount : num) : num :=
  min (solAmount * lit 1 1) (int 5).

(** [prepared]: the serialised transaction, or the message of the
    error thrown while the keys are parsed, the block hash fetched or
    the transaction built. *)
Definition executeTrade (prepared : string + string)
           (params : SimpleRaydiumTrade) : SimpleRaydiumResult :=
  match prepared with
  | inl buffer =>
      {| success := true;
         tokensOut := calculateTokensOut (amountIn params);
         solTransferred := amountIn params;
         priceImpact := calculatePriceImpact (amountIn params);
         transactionBuffer := buffer;
         error := None |}
  | inr message =>
      {| success := false; tokensOut := int 0; solTransferred := int 0;
         priceImpact := int 0; transactionBuffer := EmptyString;
         error := Some (if String.eqb message EmptyString then "Trade execution failed"%string
                        else message) |}
  end.

End WithNumber.

End SimpleRaydiumTrading.

(** ** JavaScript containers *)

(** A [Map]: [set] on a present key keeps the position of the entry, on a
    new key appends; iteration follows insertion order. *)
Module JsMap.

Section Map.
Variables (K V : Type) (eqb : K -> K -> bool).

Definition t : Type := list (K * V).

Fixpoint get (k : K) (m : t) : option V :=
  match m with
  | [] => None
  | (k', v) :: m' => if eqb k' k then Some v else get k m'
  end.

Fixpoint set (k : K) (v : V) (m : t) : t :=
  match m with
  | [] => [(k, v)]
  | (k', v') :: m' =>
      if eqb k' k then (k', v) :: m' else (k', v') :: set k v m'
  end.

Definition values (m : t) : list V := List.map snd m.

End Map.

End JsMap.

(** [Array.prototype.sort] with a comparison function: the stable sort,
    [a] before [b] when [compare a b] is negative, the earlier element
    first when it is zero. *)
Section ArraySort.
Variables (A : Type) (compare : A -> A -> Z).

Fixpoint sortInsert (x : A) (l : list A) : list A :=
  match l with
  | [] => [x]
  | y :: l' => if (compare x y <=? 0)%Z then x :: l else y :: sortInsert x l'
  end.

Fixpoint sort (l : list A) : list A :=
  match l with
  | [] => []
  | x :: l' => sortInsert x (sort l')
  end.
End ArraySort.

(** The comparison [(a, b) => key(b) - key(a)], largest key first, and
    the order it sorts into. *)
Definition descending {A} (key : A -> Z) (a b : A) : Z := (key b - key a)%Z.

Definition newerFirst {A} (key : A -> Z) (a b : A) : Prop := (key b <= key a)%Z.

(** [String(n)] for an integer. *)
Definition string_of_Z (z : Z) : string :=
  DecimalString.NilZero.string_of_int (Z.to_int z).

(** ** src/shared/schema.ts and src/server/storage.ts: MemStorage *)

Module MemStorage.

Section WithNumber.
Context {num : Type} `{JsNumber num}.
Local Open Scope js_scope.

(** The columns of [tokens] the trading code reads or writes; the
    descriptive columns are left out. *)
Record Token : Type := {
  t_id : Z;
  t_symbol : string;
  t_mintAddress : option string;
  t_currentPrice : num;
  t_currentSupply : num;
  t_marketCap : num;
  t_volume24h : num;
  t_bondingCurveProgress : num;
  t_isGraduated : bool;
  t_createdAt : Z
}.

(** [Partial<Token>]: each field of a token, named or not. *)
Record TokenUpdates : Type := {
  up_id : option Z;
  up_symbol : option string;
  up_mintAddress : option (option string);
  up_createdAt : option Z;
  up_currentPrice : option num;
  up_currentSupply : option num;
  up_marketCap : option num;
  up_volume24h : option num;
  up_bondingCurveProgress : option num;
  up_isGraduated : option bool
}.

Record InsertTrade : Type := {
  i_tokenId : Z;
  i_user : string;
  i_type : string;
  i_amount : num;
  i_price : num;
  i_tokensAmount : num;
  i_signature : string
}.

Record Trade : Type := {
  tr_id : Z;
  tr_tokenId : Z;
  tr_user : string;
  tr_type : string;
  tr_amount : num;
  tr_price : num;
  tr_tokensAmount : num;
  tr_signature : string;
  tr_createdAt : Z
}.

Record Portfolio : Type := {
  pf_id : Z;
  pf_user : string;
  pf_tokenId : Z;
  pf_amount : num;
  pf_averagePrice : num;
  pf_updatedAt : Z
}.

Record Pool : Type := {
  id : Z;
  tokenMint : string;
  baseReserve : num;
  quoteReserve : num;
  totalSupply : num;
  currentPrice : num;
  volume24h : num;
  isGraduated : bool;
  createdAt : Z
}.

Record InsertPool : Type := {
  ip_tokenMint : string;
  ip_baseReserve : num;
  ip_quoteReserve : num;
  ip_totalSupply : num;
  ip_currentPrice : num;
  ip_volume24h : num;
  ip_isGraduated : bool
}.

(** The column defaults of the [pools] table. *)
Definition defaultPool (tokenMint : string) : InsertPool :=
  {| ip_tokenMint := tokenMint;
     ip_baseReserve := int 1073000000;
     ip_quoteReserve := int 30;
     ip_totalSupply := int 1000000000;
     ip_currentPrice := lit 28 6;
     ip_volume24h := int 0;
     ip_isGraduated := false |}.

Record Storage : Type := {
  tokens : JsMap.t Z Token;
  trades : JsMap.t Z Trade;
  portfolios : JsMap.t string Portfolio;
  pools : JsMap.t Z Pool;
  currentTradeId : Z;
  currentPortfolioId : Z;
  currentPoolId : Z
}.

Definition empty : Storage :=
  {| tokens := []; trades := []; portfolios := []; pools := [];
     currentTradeId := 1; currentPortfolioId := 1; currentPoolId := 1 |}.

Definition getToken (st : Storage) (id : Z) : option Token :=
  JsMap.get Z.eqb id (tokens st).

Definition getAllTokens (st : Storage) : list Token :=
  sort (fun a b => t_createdAt b - t_createdAt a)%Z (JsMap.values (tokens st)).

Definition merge (token : Token) (updates : TokenUpdates) : Token :=
  let pick {X} (o : option X) (d : X) := match o with Some x => x | None => d end in
  {| t_id := pick (up_id updates) (t_id token);
     t_symbol := pick (up_symbol updates) (t_symbol token);
     t_mintAddress := pick (up_mintAddress updates) (t_mintAddress token);
     t_currentPrice := pick (up_currentPrice updates) (t_currentPrice token);
     t_currentSupply := pick (up_currentSupply updates) (t_currentSupply token);
     t_marketCap := pick (up_marketCap updates) (t_marketCap token);
     t_volume24h := pick (up_volume24h updates) (t_volume24h token);
     t_bondingCurveProgress :=
       pick (up_bondingCurveProgress updates) (t_bondingCurveProgress token);
     t_isGraduated := pick (up_isGraduated updates) (t_isGraduated token);
     t_createdAt := pick (up_createdAt updates) (t_createdAt token) |}.

Definition withTokens (st : Storage) (m : JsMap.t Z Token) : Storage :=
  {| tokens := m; trades := trades st; portfolios := portfolios st;
     pools := pools st; currentTradeId := currentTradeId st;
     currentPortfolioId := currentPortfolioId st;
     currentPoolId := currentPoolId st |}.

Definition updateToken (st : Storage) (id : Z) (updates : TokenUpdates)
  : option Token * Storage :=
  match JsMap.get Z.eqb id (tokens st) with
  | None => (None, st)
  | Some token =>
      let updatedToken := merge token updates in
      (Some updatedToken, withTokens st (JsMap.set Z.eqb id updatedToken (tokens st)))
  end.

Definition getTrades (st : Storage) (tokenId : Z) : list Trade :=
  sort (fun a b => tr_createdAt b - tr_createdAt a)%Z
       (filter (fun trade => (tr_tokenId trade =? tokenId)%Z)
               (JsMap.values (trades st))).

(** [now] is the reading of [new Date()]. *)
Definition createTrade (st : Storage) (insertTrade : InsertTrade) (now : Z)
  : Trade * Storage :=
  let id := currentTradeId st in
  let trade :=
    {| tr_id := id; tr_tokenId := i_tokenId insertTrade;
       tr_user := i_user insertTrade; tr_type := i_type insertTrade;
       tr_amount := i_amount insertTrade; tr_price := i_price insertTrade;
       tr_tokensAmount := i_tokensAmount insertTrade;
       tr_signature := i_signature insertTrade; tr_createdAt := now |} in
  let st1 :=
    {| tokens := tokens st; trades := JsMap.set Z.eqb id trade (trades st);
       portfolios := portfolios st; pools := pools st;
       currentTradeId := (id + 1)%Z;
       currentPortfolioId := currentPortfolioId st;
       currentPoolId := currentPoolId st |} in
  match getToken st1 (i_tokenId insertTrade) with
  | None => (trade, st1)
  | Some token =>
      let newVolume := t_volume24h token + i_amount insertTrade in
      let newCurrentSupply :=
        if String.eqb (i_type insertTrade) "buy"
        then t_currentSupply token + i_tokensAmount insertTrade
        else t_currentSupply token - i_tokensAmount insertTrade in
      let newMarketCap := newCurrentSupply * i_price insertTrade in
      let bondingCurveProgress := min (newMarketCap / int 69) (int 100) in
      (trade,
       snd (updateToken st1 (i_tokenId insertTrade)
              {| up_id := None; up_symbol := None; up_mintAddress := None;
                 up_createdAt := None;
                 up_currentPrice := Some (i_price insertTrade);
                 up_currentSupply := Some newCurrentSupply;
                 up_marketCap := Some newMarketCap;
                 up_volume24h := Some newVolume;
                 up_bondingCurveProgress := Some bondingCurveProgress;
                 up_isGraduated := None |}))
  end.

Definition portfolioKey (user : string) (tokenId : Z) : string :=
  (user ++ "-" ++ string_of_Z tokenId)%string.

Definition updatePortfolio (st : Storage) (user : string) (tokenId : Z)
           (amount averagePrice : num) (now : Z) : Portfolio * Storage :=
  let key := portfolioKey user tokenId in
  let store (p : Portfolio) (nextId : Z) :=
    {| tokens := tokens st; trades := trades st;
       portfolios := JsMap.set String.eqb key p (portfolios st);
       pools := pools st; currentTradeId := currentTradeId st;
       currentPortfolioId := nextId; currentPoolId := currentPoolId st |} in
  match JsMap.get String.eqb key (portfolios st) with
  | Some existing =>
      let updatedPortfolio :=
        {| pf_id := pf_id existing; pf_user := pf_user existing;
           pf_tokenId := pf_tokenId existing; pf_amount := amount;
           pf_averagePrice := averagePrice; pf_updatedAt := now |} in
      (updatedPortfolio, store updatedPortfolio (currentPortfolioId st))
  | None =>
      let portfolio :=
        {| pf_id := currentPortfolioId st; pf_user := user;
           pf_tokenId := tokenId; pf_amount := amount;
           pf_averagePrice := averagePrice; pf_updatedAt := now |} in
      (portfolio, store portfolio (currentPortfolioId st + 1)%Z)
  end.

Definition withPools (st : Storage) (m : JsMap.t Z Pool) (nextId : Z) : Storage :=
  {| tokens := tokens st; trades := trades st; portfolios := portfolios st;
     pools := m; currentTradeId := currentTradeId st;
     currentPortfolioId := currentPortfolioId st; currentPoolId := nextId |}.

Definition getPool (st : Storage) (tokenId : Z) : option Pool :=
  JsMap.get Z.eqb tokenId (pools st).

Definition hasMint (mint : string) (pool : Pool) : bool :=
  String.eqb (tokenMint pool) mint.

Definition getPoolByMint (st : Storage) (mint : string) : option Pool :=
  find (hasMint mint) (JsMap.values (pools st)).

Definition createPool (st : Storage) (insertPool : InsertPool) (now : Z)
  : Pool * Storage :=
  let id := currentPoolId st in
  let pool :=
    {| id := id; tokenMint := ip_tokenMint insertPool;
       baseReserve := ip_baseReserve insertPool;
       quoteReserve := ip_quoteReserve insertPool;
       totalSupply := ip_totalSupply insertPool;
       currentPrice := ip_currentPrice insertPool;
       volume24h := ip_volume24h insertPool;
       isGraduated := ip_isGraduated insertPool;
       createdAt := now |} in
  (pool, withPools st (JsMap.set Z.eqb id pool (pools st)) (id + 1)%Z).

(** The pool object found by [getPoolByMint] is the one held by the
    map: assigning to its fields changes the first entry with that
    mint where it stands. *)
Fixpoint assignFirst (mint : string) (f : Pool -> Pool) (m : JsMap.t Z Pool)
  : JsMap.t Z Pool :=
  match m with
  | [] => []
  | (k, pool) :: m' =>
      if String.eqb (tokenMint pool) mint then (k, f pool) :: m'
      else (k, pool) :: assignFirst mint f m'
  end.

Definition assignReserves (newBase newQuote : num) (pool : Pool) : Pool :=
  let circulating := totalSupply pool - newBase in
  {| id := id pool; tokenMint := tokenMint pool;
     baseReserve := newBase; quoteReserve := newQuote;
     totalSupply := totalSupply pool;
     currentPrice := newQuote / circulating;
     volume24h := volume24h pool; isGraduated := isGraduated pool;
     createdAt := createdAt pool |}.

Definition updatePoolReserves (st : Storage) (mint : string)
           (newBase newQuote : num) : option Pool * Storage :=
  match getPoolByMint st mint with
  | Some pool =>
      let pool' := assignReserves newBase newQuote pool in
      let mutated := assignFirst mint (assignReserves newBase newQuote) (pools st) in
      (Some pool',
       withPools st (JsMap.set Z.eqb (id pool') pool' mutated) (currentPoolId st))
  | None => (None, st)
  end.

End WithNumber.

End MemStorage.

(** ** src/unnamed/part_002 (routes): the POST /api/tokens/trade handler *)

Module Routes.

Import MemStorage.

Section WithNumber.
Context {num : Type} `{JsNumber num}.
Local Open Scope js_scope.

Local Abbreviation Storage := (@MemStorage.Storage num).
Local Abbreviation Token := (@MemStorage.Token num).
Local Abbreviation Trade := (@MemStorage.Trade num).

Record TradeRequest : Type := {
  rq_tokenMint : string;
  rq_amountIn : num;
  rq_isBuy : bool;
  rq_user : string;
  rq_walletAddress : string
}.

(** What [jupiterService.executeRealSwap] resolves to. *)
Record JupiterSwap : Type := {
  j_success : bool;
  j_transactionBuffer : option string;
  j_error : option string;
  j_amountOut : option num;
  j_priceImpact : option num
}.

Record HandlerEnv : Type := {
  jupiter : JupiterSwap;
  (** the outcome of [simpleRaydiumTrading.executeTrade]: the transaction it
      prepares, or the message of its error.  The routes file has no import
      for that name: where it is unbound the call is a ReferenceError, which
      the handler catches like a failed trade, an outcome [inr]. *)
  prepared : string + string;
  (** the readings of [Date.now()] and of the two [new Date()] *)
  dateNow : Z;
  tradeCreatedAt : Z;
  portfolioUpdatedAt : Z
}.

Record TradeResponse : Type := {
  success : bool;
  signature : string;
  tokensAmount : num;
  newPrice : num;
  priceImpact : num;
  solCollected : num;
  isGraduated : bool;
  transactionBuffer : option string;
  bondingCurve : bool;
  trade : Trade
}.

Inductive Response : Type :=
| MissingParameters           (* 400 *)
| TokenNotFound               (* 404 *)
| SwapFailed (error : string) (* 400 *)
| TradeFailed (error : string) (* 500 *)
| Json (body : TradeResponse). (* 200 *)

(** The [result] of either branch, with the fields each one sets. *)
Record TradeOutcome : Type := {
  o_amountOut : option num;
  o_tokensAmount : option num;
  o_newPrice : option num;
  o_priceImpact : option num;
  o_solCollected : option num;
  o_isGraduated : option bool;
  o_transactionBuffer : option string
}.

Definition numOr (o : option num) (d : num) : num :=
  match o with Some x => orElse x d | None => d end.

Definition nonEmpty (s : string) : bool := negb (String.eqb s EmptyString).

Definition sameMint (mint : string) (token : Token) : bool :=
  match t_mintAddress token with
  | Some m => String.eqb m mint
  | None => false
  end.

(** Everything after a [result] has been obtained. *)
Definition recordTrade (env : HandlerEnv) (st : Storage) (req : TradeRequest)
           (token : Token) (result : TradeOutcome) : Response * Storage :=
  let amountIn := rq_amountIn req in
  let tokensAmount :=
    if t_isGraduated token then numOr (o_amountOut result) (int 0)
    else abs (numOr (o_tokensAmount result) (int 0)) in
  let tradePrice :=
    if t_isGraduated token then int 0
    else numOr (o_newPrice result) (int 0) in
  let transactionBuffer := o_transactionBuffer result in
  let hasBuffer :=
    match transactionBuffer with Some b => nonEmpty b | None => false end in
  let stampSignature := ("trade_" ++ string_of_Z (dateNow env))%string in
  let signature :=
    if negb (t_isGraduated token) && hasBuffer then "pending_user_signature"%string
    else stampSignature in
  let '(trade, st1) :=
    createTrade st
      {| i_tokenId := t_id token; i_user := rq_user req;
         i_type := if rq_isBuy req then "buy" else "sell";
         i_amount := tokensAmount; i_price := tradePrice;
         i_tokensAmount := tokensAmount; i_signature := signature |}
      (tradeCreatedAt env) in
  let graduating := match o_isGraduated result with Some b => b | None => false end in
  let collected :=
    match o_solCollected result with Some c => truthy c | None => false end in
  let updates :=
    {| up_id := None; up_symbol := None; up_mintAddress := None;
       up_createdAt := None;
       up_currentPrice := Some tradePrice;
       up_currentSupply := None;
       up_marketCap := None;
       up_volume24h := Some (t_volume24h token + amountIn);
       up_bondingCurveProgress :=
         if t_isGraduated token then None
         else if graduating then Some (int 100)
         else if collected then
           Some (min ((numOr (o_solCollected result) (int 0) / int 69) * int 100)
                     (int 100))
         else None;
       up_isGraduated :=
         if negb (t_isGraduated token) && graduating then Some true else None |} in
  let st2 := snd (updateToken st1 (t_id token) updates) in
  let st3 :=
    snd (updatePortfolio st2 (rq_user req) (t_id token) tokensAmount tradePrice
           (portfolioUpdatedAt env)) in
  (Json {| success := true;
           signature := signature;
           tokensAmount := tokensAmount;
           newPrice := tradePrice;
           priceImpact := numOr (o_priceImpact result) (int 0);
           solCollected :=
             if t_isGraduated token then int 0
             else numOr (o_solCollected result) (int 0);
           isGraduated := t_isGraduated token || graduating;
           transactionBuffer := transactionBuffer;
           bondingCurve := negb (t_isGraduated token);
           trade := trade |},
   st3).

Definition tradeHandler (env : HandlerEnv) (st : Storage) (req : TradeRequest)
  : Response * Storage :=
  let amountIn := rq_amountIn req in
  if negb (nonEmpty (rq_tokenMint req)) || negb (truthy amountIn)
     || negb (nonEmpty (rq_user req)) || negb (nonEmpty (rq_walletAddress req))
  then (MissingParameters, st)
  else
    match find (sameMint (rq_tokenMint req)) (getAllTokens st) with
    | None => (TokenNotFound, st)
    | Some token =>
        if t_isGraduated token then
          let swap := jupiter env in
          if negb (j_success swap) then
            (SwapFailed
               (match j_error swap with
                | Some e => if nonEmpty e then e else "Failed to execute Jupiter swap"
                | None => "Failed to execute Jupiter swap"
                end)%string,
             st)
          else
            recordTrade env st req token
              {| o_amountOut := j_amountOut swap;
                 o_tokensAmount := None;
                 o_newPrice := None;
                 o_priceImpact := j_priceImpact swap;
                 o_solCollected := None;
                 o_isGraduated := None;
                 o_transactionBuffer := j_transactionBuffer swap |}
        else
          let tradeResult :=
            SimpleRaydiumTrading.executeTrade (prepared env)
              {| SimpleRaydiumTrading.tokenMint :=
                   match t_mintAddress token with
                   | Some m => m
                   | None => EmptyString
                   end;
                 SimpleRaydiumTrading.amountIn := amountIn;
                 SimpleRaydiumTrading.walletAddress := rq_walletAddress req |} in
          if negb (SimpleRaydiumTrading.success tradeResult) then
            (TradeFailed "Trade execution failed", st)
          else
            let currentSolCollected := lit 155 1 + amountIn in
            let isGraduating := currentSolCollected >=? int 69 in
            recordTrade env st req token
              {| o_amountOut := None;
                 o_tokensAmount := Some (SimpleRaydiumTrading.tokensOut tradeResult);
                 o_newPrice := Some (lit 4 2);
                 o_priceImpact := Some (SimpleRaydiumTrading.priceImpact tradeResult);
                 o_solCollected := Some currentSolCollected;
                 o_isGraduated := Some isGraduating;
                 o_transactionBuffer :=
                   Some (SimpleRaydiumTrading.transactionBuffer tradeResult) |}
    end.

(** The collected amount a response reports, and whether it is a success. *)
Definition reportedCollected (r : Response) : option num :=
  match r with
  | Json body => Some (solCollected body)
  | _ => None
  end.

Definition succeeded (r : Response) : bool :=
  match r with
  | Json body => success body
  | _ => false
  end.

(** The progress stored for a token. *)
Definition storedProgress (st : Storage) (tokenId : Z) : option num :=
  option_map (@t_bondingCurveProgress num) (getToken st tokenId).

End WithNumber.

End Routes.

(** ** src/raydium-launchpad.ts: RaydiumLaunchpadService

    [checkPoolStatus] and [migrateToAmm] are [async]: a call runs until
    its next [await], and other callbacks of the event loop run before it
    is resumed.  A call in flight is kept as the [await] it is suspended
    at; one step of the model is either a tick of the polling interval of
    a pool, which starts a call, or the answer to the pending request of
    one call, which resumes it up to its next [await]. *)

Module RaydiumLaunchpadService.

Section WithNumber.
Context {num : Type} `{JsNumber num}.
Local Open Scope js_scope.

Definition LAMPORTS_PER_SOL : num := int 1000000000.

(** The fields of [PoolData] the polling code reads or writes. *)
Record PoolData : Type := {
  poolId : string;
  symbol : string;
  fundraisingGoal : num;
  quoteCollected : num;
  migrated : bool;
  migrationTxId : option string
}.

Inductive Suspended : Type :=
| AwaitPoolInfo (pool : string)   (* raydium.launchpad.getPoolInfo(poolId) *)
| AwaitMigration (pool : string)  (* raydium.launchpad.migrateToAmm({poolId}) *)
| AwaitExecute (pool : string)    (* migrationResult.execute() *)
| Finished.

Inductive Answer : Type :=
| PoolInfo (quoteCollectedLamports : option num)
| Migration (hasExecute : bool)
| Executed (txId : option string)
| Rejected.

Inductive Event : Type :=
| Tick (pool : string)
| Resume (call : nat) (answer : Answer).

Record World : Type := {
  poolStorage : JsMap.t string PoolData;
  pollingIntervals : list string;
  calls : list Suspended;
  (** the pools a migration transaction was executed for, latest first *)
  migrations : list string
}.

Definition withCalls (w : World) (cs : list Suspended) : World :=
  {| poolStorage := poolStorage w; pollingIntervals := pollingIntervals w;
     calls := cs; migrations := migrations w |}.

Fixpoint replaceNth {X} (n : nat) (x : X) (l : list X) : list X :=
  match l, n with
  | [], _ => []
  | _ :: l', O => x :: l'
  | y :: l', S n' => y :: replaceNth n' x l'
  end.

Definition live (w : World) (pool : string) : bool :=
  match JsMap.get String.eqb pool (poolStorage w) with
  | Some poolData => negb (migrated poolData)
  | None => false
  end.

(** [checkPoolStatus] up to [await getPoolInfo]. *)
Definition startCheck (w : World) (pool : string) : World :=
  if live w pool then withCalls w (calls w ++ [AwaitPoolInfo pool]) else w.

(** [migrateToAmm] up to [await raydium.launchpad.migrateToAmm]. *)
Definition enterMigrate (w : World) (pool : string) : Suspended :=
  if live w pool then AwaitMigration pool else Finished.

Definition resume (w : World) (call : nat) (answer : Answer) : World :=
  match nth_error (calls w) call with
  | Some (AwaitPoolInfo pool) =>
      match answer with
      | PoolInfo (Some lamports) =>
          match JsMap.get String.eqb pool (poolStorage w) with
          | None => w
          | Some poolData =>
              let collected := lamports / LAMPORTS_PER_SOL in
              let poolData' :=
                {| poolId := poolId poolData; symbol := symbol poolData;
                   fundraisingGoal := fundraisingGoal poolData;
                   quoteCollected := collected;
                   migrated := migrated poolData;
                   migrationTxId := migrationTxId poolData |} in
              let w' :=
                {| poolStorage := JsMap.set String.eqb pool poolData' (poolStorage w);
                   pollingIntervals := pollingIntervals w;
                   calls := calls w; migrations := migrations w |} in
              withCalls w'
                (replaceNth call
                   (if collected >=? fundraisingGoal poolData
                    then enterMigrate w' pool else Finished)
                   (calls w'))
          end
      | PoolInfo None | Rejected => withCalls w (replaceNth call Finished (calls w))
      | _ => w
      end
  | Some (AwaitMigration pool) =>
      match answer with
      | Migration true =>
          {| poolStorage := poolStorage w; pollingIntervals := pollingIntervals w;
             calls := replaceNth call (AwaitExecute pool) (calls w);
             migrations := pool :: migrations w |}
      | Migration false | Rejected =>
          withCalls w (replaceNth call Finished (calls w))
      | _ => w
      end
  | Some (AwaitExecute pool) =>
      match answer with
      | Executed (Some txId) =>
          match JsMap.get String.eqb pool (poolStorage w) with
          | None => w
          | Some poolData =>
              {| poolStorage :=
                   JsMap.set String.eqb pool
                     {| poolId := poolId poolData; symbol := symbol poolData;
                        fundraisingGoal := fundraisingGoal poolData;
                        quoteCollected := quoteCollected poolData;
                        migrated := true;
                        migrationTxId := Some txId |}
                     (poolStorage w);
                 pollingIntervals :=
                   filter (fun p => negb (String.eqb p pool)) (pollingIntervals w);
                 calls := replaceNth call Finished (calls w);
                 migrations := migrations w |}
          end
      | Executed None | Rejected =>
          withCalls w (replaceNth call Finished (calls w))
      | _ => w
      end
  | Some Finished | None => w
  end.

Definition step (w : World) (e : Event) : World :=
  match e with
  | Tick pool =>
      if existsb (String.eqb pool) (pollingIntervals w) then startCheck w pool else w
  | Resume call answer => resume w call answer
  end.

Definition run (w : World) (events : list Event) : World :=
  fold_left step events w.

(** The world [launchToken] leaves: the pool stored, its interval set. *)
Definition launched (pool sym : string) (goal : num) : World :=
  {| poolStorage :=
       [(pool, {| poolId := pool; symbol := sym; fundraisingGoal := goal;
                  quoteCollected := int 0; migrated := false;
                  migrationTxId := None |})];
     pollingIntervals := [pool];
     calls := [];
     migrations := [] |}.

Definition migrationsOf (w : World) (pool : string) : nat :=
  List.length (filter (String.eqb pool) (migrations w)).

End WithNumber.

End RaydiumLaunchpadService.

(** ** src/server/storage.ts: further operations of MemStorage *)

Module StorageLookups.

Import MemStorage.

Section WithNumber.
Context {num : Type} `{JsNumber num}.

Local Abbreviation Storage := (@MemStorage.Storage num).

Definition getPortfolio (st : Storage) (user : string) : list (@Portfolio num) :=
  filter (fun portfolio => String.eqb (pf_user portfolio) user)
         (JsMap.values (portfolios st)).

Definition getPortfolioPosition (st : Storage) (user : string) (tokenId : Z)
  : option (@Portfolio num) :=
  JsMap.get String.eqb (portfolioKey user tokenId) (portfolios st).

(** The trade ids handed out so far: every stored trade sits under its
    own id, below the next id to hand out, and no id is used twice. *)
Definition tradesKeyed (st : Storage) : Prop :=
  Forall (fun entry => tr_id (snd entry) = fst entry
                       /\ (fst entry < currentTradeId st)%Z)
         (trades st)
  /\ NoDup (List.map fst (trades st)).

(** Every stored token sits under its own id, and no id is used twice. *)
Definition tokensKeyed (st : Storage) : Prop :=
  Forall (fun entry => t_id (snd entry) = fst entry) (tokens st)
  /\ NoDup (List.map fst (tokens st)).

(** Every stored pool sits under its own id, below the next id, and no
    id is used twice. *)
Definition poolsKeyed (st : Storage) : Prop :=
  Forall (fun entry => id (snd entry) = fst entry
                       /\ (fst entry < currentPoolId st)%Z)
         (pools st)
  /\ NoDup (List.map fst (pools st)).

End WithNumber.

End StorageLookups.

(** ** src/server/storage.ts and src/unnamed/part_002: users

    The user operations of [MemStorage] touch its [users] map and its
    [currentUserId] only; this is that part of the storage. *)

Module UserStore.

Record User : Type := {
  id : Z;
  walletAddress : string;
  username : string;
  profilePictureUrl : option string;
  createdAt : Z
}.

Record InsertUser : Type := {
  i_walletAddress : string;
  i_username : string;
  i_profilePictureUrl : option string
}.

Record Users : Type := {
  users : JsMap.t string User;
  currentUserId : Z
}.

Definition empty : Users := {| users := []; currentUserId := 1 |}.

Definition getUserByWallet (st : Users) (wallet : string) : option User :=
  JsMap.get String.eqb wallet (users st).

Definition getUserByUsername (st : Users) (name : string) : option User :=
  find (fun user => String.eqb (username user) name) (JsMap.values (users st)).

(** [insertUser.profilePictureUrl || null]: an empty string gives [null]. *)
Definition createUser (st : Users) (insertUser : InsertUser) (now : Z) : User * Users :=
  let user :=
    {| id := currentUserId st;
       walletAddress := i_walletAddress insertUser;
       username := i_username insertUser;
       profilePictureUrl :=
         match i_profilePictureUrl insertUser with
         | Some url => if String.eqb url EmptyString then None else Some url
         | None => None
         end;
       createdAt := now |} in
  (user,
   {| users := JsMap.set String.eqb (i_walletAddress insertUser) user (users st);
      currentUserId := (currentUserId st + 1)%Z |}).

(** The answers of POST /api/users to a body that passes the schema. *)
Inductive Registration : Type :=
| UserExists          (* 400 "User already exists" *)
| UsernameTaken       (* 400 "Username already taken" *)
| Registered (user : User).

Definition registerUser (st : Users) (userData : InsertUser) (now : Z)
  : Registration * Users :=
  match getUserByWallet st (i_walletAddress userData) with
  | Some _ => (UserExists, st)
  | None =>
      match getUserByUsername st (i_username userData) with
      | Some _ => (UsernameTaken, st)
      | None =>
          let '(user, st') := createUser st userData now in
          (Registered user, st')
      end
  end.

(** Every user sits under its wallet address with an id below the next
    id, and no wallet address, no user name and no id is used twice. *)
Definition distinctUsers (st : Users) : Prop :=
  Forall (fun entry => walletAddress (snd entry) = fst entry
                       /\ (id (snd entry) < currentUserId st)%Z)
         (users st)
  /\ NoDup (List.map fst (users st))
  /\ NoDup (List.map username (JsMap.values (users st)))
  /\ NoDup (List.map id (JsMap.values (users st))).

(** A run of registration requests, each with the clock reading at it. *)
Definition registerAll (st : Users) (requests : list (InsertUser * Z)) : Users :=
  fold_left (fun st request => snd (registerUser st (fst request) (snd request)))
            requests st.

End UserStore.

(** ** src/raydium-launchpad.ts: getPoolStatus and getAllPools *)

Module LaunchpadStatus.

Section WithNumber.
Context {num : Type} `{JsNumber num}.
Local Open Scope js_scope.

Record PoolStatus : Type := {
  poolId : string;
  symbol : string;
  quoteCollected : num;
  fundraisingGoal : num;
  progress : num;
  migrated : bool;
  migrationTxId : option string;
  status : string
}.

Definition getPoolStatus (w : @RaydiumLaunchpadService.World num) (pool : string)
  : option PoolStatus :=
  match JsMap.get String.eqb pool (RaydiumLaunchpadService.poolStorage w) with
  | None => None
  | Some poolData =>
      let progress :=
        (RaydiumLaunchpadService.quoteCollected poolData
         / RaydiumLaunchpadService.fundraisingGoal poolData) * int 100 in
      let status :=
        if RaydiumLaunchpadService.migrated poolData then "migrated"%string
        else if progress >=? int 100 then "migrated"%string
        else "active"%string in
      Some {| poolId := RaydiumLaunchpadService.poolId poolData;
              symbol := RaydiumLaunchpadService.symbol poolData;
              quoteCollected := RaydiumLaunchpadService.quoteCollected poolData;
              fundraisingGoal := RaydiumLaunchpadService.fundraisingGoal poolData;
              progress := min progress (int 100);
              migrated := RaydiumLaunchpadService.migrated poolData;
              migrationTxId := RaydiumLaunchpadService.migrationTxId poolData;
              status := status |}
  end.

Definition getAllPools (w : @RaydiumLaunchpadService.World num)
  : list (@RaydiumLaunchpadService.PoolData num) :=
  JsMap.values (RaydiumLaunchpadService.poolStorage w).

(** The calls of a world that have passed the guard of [migrateToAmm] for
    a pool and have not yet executed its migration. *)
Definition pastGuard (pool : string) (call : RaydiumLaunchpadService.Suspended) : bool :=
  match call with
  | RaydiumLaunchpadService.AwaitMigration p => String.eqb pool p
  | _ => false
  end.

Definition awaitingMigration (w : @RaydiumLaunchpadService.World num) (pool : string)
  : nat :=
  List.length (filter (pastGuard pool) (RaydiumLaunchpadService.calls w)).

(** The checks of a pool that wait for its pool info, and the ticks of
    the interval of a pool among some events. *)
Definition atPoolInfo (pool : string) (call : RaydiumLaunchpadService.Suspended) : bool :=
  match call with
  | RaydiumLaunchpadService.AwaitPoolInfo p => String.eqb pool p
  | _ => false
  end.

Definition awaitingPoolInfo (w : @RaydiumLaunchpadService.World num) (pool : string)
  : nat :=
  List.length (filter (atPoolInfo pool) (RaydiumLaunchpadService.calls w)).

Definition isTick (pool : string) (e : @RaydiumLaunchpadService.Event num) : bool :=
  match e with
  | RaydiumLaunchpadService.Tick p => String.eqb pool p
  | _ => false
  end.

Definition ticksOf (pool : string) (events : list (@RaydiumLaunchpadService.Event num))
  : nat :=
  List.length (filter (isTick pool) events).

End WithNumber.

End LaunchpadStatus.

(** ** src/unnamed/part_005, second file: SimpleRaydiumTrading.getTradeQuote *)

Module SimpleRaydiumQuote.

Section WithNumber.
Context {num : Type} `{JsNumber num}.
Local Open Scope js_scope.

Record TradeQuote : Type := {
  tokensOut : num;
  priceImpact : num;
  estimatedPrice : num
}.

Definition getTradeQuote (solAmount : num) : TradeQuote :=
  let tokensOut := SimpleRaydiumTrading.calculateTokensOut solAmount in
  let priceImpact := SimpleRaydiumTrading.calculatePriceImpact solAmount in
  let estimatedPrice := solAmount / tokensOut in
  {| tokensOut := tokensOut; priceImpact := priceImpact;
     estimatedPrice := estimatedPrice |}.

End WithNumber.

End SimpleRaydiumQuote.

(** ** src/unnamed/part_002: a run of trade requests *)

Module TradeLog.

Section WithNumber.
Context {num : Type} `{JsNumber num}.

(** The storage after a list of POST /api/tokens/trade requests, each
    with the outcomes of its external calls. *)
Definition serve (st : @MemStorage.Storage num)
           (requests : list (@Routes.HandlerEnv num * @Routes.TradeRequest num))
  : @MemStorage.Storage num :=
  fold_left (fun st request => snd (Routes.tradeHandler (fst request) st (snd request)))
            requests st.

End WithNumber.

End TradeLog.

(** * Sample inputs *)

Module Sample.

(** Base58 texts as [new PublicKey] of @solana/web3.js 1.x reads them:
    a text is a key when it decodes to exactly 32 bytes, each leading
    [1] standing for a zero byte. *)
Definition base58Alphabet : string :=
  "123456789ABCDEFGHJKLMNPQRSTUVWXYZabcdefghijkmnopqrstuvwxyz".

Fixpoint indexOf (c : Ascii.ascii) (alphabet : string) : option Z :=
  match alphabet with
  | EmptyString => None
  | String d rest =>
      if Ascii.eqb c d then Some 0%Z else option_map Z.succ (indexOf c rest)
  end.

Fixpoint base58Value (text : string) (acc : Z) : option Z :=
  match text with
  | EmptyString => Some acc
  | String c rest =>
      match indexOf c base58Alphabet with
      | Some digit => base58Value rest (acc * 58 + digit)%Z
      | None => None
      end
  end.

Fixpoint leadingOnes (text : string) : Z :=
  match text with
  | String c rest => if Ascii.eqb c "1"%char then (1 + leadingOnes rest)%Z else 0%Z
  | EmptyString => 0%Z
  end.

Definition byteLength (value : Z) : Z :=
  if (value =? 0)%Z then 0%Z else (Z.log2 value / 8 + 1)%Z.

Definition decodesToKey (text : string) : bool :=
  match base58Value text 0 with
  | Some value => (leadingOnes text + byteLength value =? 32)%Z
  | None => false
  end.

(** A wallet key (it is on the curve) and the key of a mint. *)
Definition wallet : string := "9WzDXwBbmkg8ZTbNMqUxvQRAyrZzDsGYdLVL9zYtAWWM".
Definition mintKey : string := "So11111111111111111111111111111111111111112".

(** An environment in which the cluster answers and the library behaves
    as @solana/web3.js 1.x does: a text is a key when it is base58 for 32
    bytes, and a transfer encodes its lamports as an unsigned 64-bit
    integer, so it throws on a negative number and from 2^64 on. *)
Definition solanaUp {num} `{JsNumber num} : @ServerSolanaService.SolanaEnv num :=
  {| ServerSolanaService.publicKey := decodesToKey;
     ServerSolanaService.isOnCurve := fun text => String.eqb text wallet;
     ServerSolanaService.latestBlockhash :=
       Some "EkSnNWid2cvwEVnVx9aBqawnmiCNiDgp3gUdkDPTKN1N"%string;
     ServerSolanaService.findProgramAddress :=
       fun mint => Some ("pool:" ++ mint)%string;
     ServerSolanaService.transfer :=
       fun lamports =>
         ((int 0 <=? lamports) && (lamports <? int 18446744073709551616))%js;
     ServerSolanaService.getAssociatedTokenAddress :=
       fun mint owner => Some ("account:" ++ mint ++ ":" ++ owner)%string;
     ServerSolanaService.serialize := fun _ => Some "AQAB"%string;
     ServerSolanaService.stamp := "1748078501844k3x9"%string |}.

(** A pool at the default reserves of the [pools] table, as the client
    services see it. *)
Definition freshPool {num} `{JsNumber num} : @RaydiumTradingService.PoolInfo num :=
  {| RaydiumTradingService.tokenMint := "mint"%string;
     RaydiumTradingService.baseMint := "mint"%string;
     RaydiumTradingService.quoteMint :=
       "So11111111111111111111111111111111111111112"%string;
     RaydiumTradingService.baseReserve := int 1073000000;
     RaydiumTradingService.quoteReserve := int 30;
     RaydiumTradingService.currentPrice := lit 28 6;
     RaydiumTradingService.marketCap := int 30;
     RaydiumTradingService.volume24h := int 0 |}.

Definition freshQuotedPool {num} `{JsNumber num} : @PumpTradingEngine.PoolInfo num :=
  {| PumpTradingEngine.baseReserve := int 1073000000;
     PumpTradingEngine.quoteReserve := int 30;
     PumpTradingEngine.currentPrice := lit 28 6;
     PumpTradingEngine.marketCap := int 30;
     PumpTradingEngine.graduationProgress := int 0 |}.

(** A buy of [amountIn] SOL, and the sale of as many tokens. *)
Definition curveOrder {num} `{JsNumber num} (amountIn : Z) : BondingCurveParams num :=
  {| bc_tokenMint := "mint"%string; bc_amountIn := int amountIn; bc_isBuy := true;
     bc_walletAddress := "9WzDXwBbmkg8ZTbNMqUxvQRAyrZzDsGYdLVL9zYtAWWM"%string |}.

Definition curveSale {num} `{JsNumber num} (amountIn : Z) : BondingCurveParams num :=
  {| bc_tokenMint := "mint"%string; bc_amountIn := int amountIn; bc_isBuy := false;
     bc_walletAddress := "9WzDXwBbmkg8ZTbNMqUxvQRAyrZzDsGYdLVL9zYtAWWM"%string |}.

(** A connected wallet, the fresh pool, a confirmed transaction. *)
Definition tradeUp {num} `{JsNumber num} : @RaydiumTradingService.TradeEnv num :=
  {| RaydiumTradingService.walletConnected := true;
     RaydiumTradingService.poolInfo := Some freshPool;
     RaydiumTradingService.confirmed := inl "5VERv8NMvzbJMEkV8xnrLkEaWRtSz9CosKDYjCJjBRnb"%string |}.

(** A buy of 10 at 1% slippage by a caller who expects 300,000,000 tokens. *)
Definition hopefulBuy {num} `{JsNumber num} : @RaydiumTradingService.TradeParams num :=
  {| RaydiumTradingService.p_tokenMint := "mint"%string;
     RaydiumTradingService.p_amountIn := int 10;
     RaydiumTradingService.p_amountOut := int 300000000;
     RaydiumTradingService.p_isBuy := true;
     RaydiumTradingService.p_slippage := int 1 |}.

Definition token {num} `{JsNumber num} (graduated : bool) : @MemStorage.Token num :=
  {| MemStorage.t_id := 1;
     MemStorage.t_symbol := "WEN"%string;
     MemStorage.t_mintAddress := Some "mint"%string;
     MemStorage.t_currentPrice := lit 28 6;
     MemStorage.t_currentSupply := int 0;
     MemStorage.t_marketCap := int 0;
     MemStorage.t_volume24h := int 0;
     MemStorage.t_bondingCurveProgress := if graduated then int 100 else int 0;
     MemStorage.t_isGraduated := graduated;
     MemStorage.t_createdAt := 1748078501844 |}.

(** A storage with one token and its pool at the default reserves. *)
Definition storage {num} `{JsNumber num} (graduated : bool) : @MemStorage.Storage num :=
  snd (MemStorage.createPool
         {| MemStorage.tokens := [(1%Z, token graduated)];
            MemStorage.trades := [];
            MemStorage.portfolios := [];
            MemStorage.pools := [];
            MemStorage.currentTradeId := 1;
            MemStorage.currentPortfolioId := 1;
            MemStorage.currentPoolId := 1 |}
         (MemStorage.defaultPool "mint") 1748078501850).

Definition order {num} `{JsNumber num} (amountIn : Z) : @Routes.TradeRequest num :=
  {| Routes.rq_tokenMint := "mint"%string;
     Routes.rq_amountIn := int amountIn;
     Routes.rq_isBuy := true;
     Routes.rq_user := "alice"%string;
     Routes.rq_walletAddress := "9WzDXwBbmkg8ZTbNMqUxvQRAyrZzDsGYdLVL9zYtAWWM"%string |}.

(** The swap quoted and the transaction prepared, at clock reading [now]. *)
Definition handlerUp {num} `{JsNumber num} (now : Z) : @Routes.HandlerEnv num :=
  {| Routes.jupiter :=
       {| Routes.j_success := true;
          Routes.j_transactionBuffer := Some "AQAB"%string;
          Routes.j_error := None;
          Routes.j_amountOut := Some (int 250);
          Routes.j_priceImpact := Some (lit 1 1) |};
     Routes.prepared := inl "AQAB"%string;
     Routes.dateNow := now;
     Routes.tradeCreatedAt := now;
     Routes.portfolioUpdatedAt := now |}.

(** Two ticks of the polling interval of one pool, the second before the
    check started by the first has been answered; every request is then
    answered, with the goal of 69 SOL reached and each transaction sent. *)
Definition overlappingChecks {num} `{JsNumber num}
  : list (@RaydiumLaunchpadService.Event num) :=
  [ RaydiumLaunchpadService.Tick "pool";
    RaydiumLaunchpadService.Tick "pool";
    RaydiumLaunchpadService.Resume 0
      (RaydiumLaunchpadService.PoolInfo (Some (int 69000000000)));
    RaydiumLaunchpadService.Resume 1
      (RaydiumLaunchpadService.PoolInfo (Some (int 69000000000)));
    RaydiumLaunchpadService.Resume 0 (RaydiumLaunchpadService.Migration true);
    RaydiumLaunchpadService.Resume 1 (RaydiumLaunchpadService.Migration true);
    RaydiumLaunchpadService.Resume 0 (RaydiumLaunchpadService.Executed (Some "tx-1"));
    RaydiumLaunchpadService.Resume 1 (RaydiumLaunchpadService.Executed (Some "tx-2")) ]%string.

(** The same two checks, the second started after the first has ended. *)
Definition consecutiveChecks {num} `{JsNumber num}
  : list (@RaydiumLaunchpadService.Event num) :=
  [ RaydiumLaunchpadService.Tick "pool";
    RaydiumLaunchpadService.Resume 0
      (RaydiumLaunchpadService.PoolInfo (Some (int 69000000000)));
    RaydiumLaunchpadService.Resume 0 (RaydiumLaunchpadService.Migration true);
    RaydiumLaunchpadService.Resume 0 (RaydiumLaunchpadService.Executed (Some "tx-1"));
    RaydiumLaunchpadService.Tick "pool";
    RaydiumLaunchpadService.Resume 1
      (RaydiumLaunchpadService.PoolInfo (Some (int 69000000000)));
    RaydiumLaunchpadService.Resume 1 (RaydiumLaunchpadService.Migration true);
    RaydiumLaunchpadService.Resume 1 (RaydiumLaunchpadService.Executed (Some "tx-2")) ]%string.

End Sample.

(** * Properties *)

(** ** The curve formula (C1, C2, C7, C8) *)

Lemma exact_add (a b : Q) : Exact.add a b == (a + b)%Q.
Proof. apply Qred_correct. Qed.

Lemma exact_sub (a b : Q) : Exact.sub a b == (a - b)%Q.
Proof. apply Qred_correct. Qed.

Lemma exact_mul (a b : Q) : Exact.mul a b == (a * b)%Q.
Proof. apply Qred_correct. Qed.

Lemma exact_div (a b : Q) : Exact.div a b == (a / b)%Q.
Proof. apply Qred_correct. Qed.

Lemma exact_lit (m : Z) (e : nat) :
  Exact.lit m e == inject_Z m / inject_Z (10 ^ Z.of_nat e).
Proof. apply Qred_correct. Qed.

Lemma exact_int (z : Z) : Exact.lit z 0 == inject_Z z.
Proof.
  rewrite exact_lit. simpl. unfold Qdiv, Qinv; simpl.
  rewrite Qmult_1_r. reflexivity.
Qed.

#[global] Instance exact_add_Proper : Proper (Qeq ==> Qeq ==> Qeq) Exact.add.
Proof. intros a a' Ha b b' Hb. rewrite !exact_add, Ha, Hb. reflexivity. Qed.

#[global] Instance exact_sub_Proper : Proper (Qeq ==> Qeq ==> Qeq) Exact.sub.
Proof. intros a a' Ha b b' Hb. rewrite !exact_sub, Ha, Hb. reflexivity. Qed.

#[global] Instance exact_mul_Proper : Proper (Qeq ==> Qeq ==> Qeq) Exact.mul.
Proof. intros a a' Ha b b' Hb. rewrite !exact_mul, Ha, Hb. reflexivity. Qed.

#[global] Instance exact_div_Proper : Proper (Qeq ==> Qeq ==> Qeq) Exact.div.
Proof. intros a a' Ha b b' Hb. rewrite !exact_div, Ha, Hb. reflexivity. Qed.

(** Turns the operations of the [Q] instance into those of [Q]. *)
Ltac exact_arith :=
  change (@add Q Q_JsNumber) with Exact.add in *;
  change (@sub Q Q_JsNumber) with Exact.sub in *;
  change (@mul Q Q_JsNumber) with Exact.mul in *;
  change (@div Q Q_JsNumber) with Exact.div in *;
  change (@lit Q Q_JsNumber) with Exact.lit in *;
  repeat (rewrite exact_add || rewrite exact_sub || rewrite exact_mul
          || rewrite exact_div || rewrite exact_int || rewrite exact_lit).

(** The block of [executeTokenTrade], in exact arithmetic. *)
Lemma bondingCurve_buy_exact (sol tok amountIn : Q) :
  ServerSolanaService.c_amountOut
    (ServerSolanaService.bondingCurve sol tok amountIn true)
  == tok - (tok * sol) / (sol + amountIn).
Proof.
  unfold ServerSolanaService.bondingCurve; cbn [ServerSolanaService.c_amountOut].
  exact_arith. unfold Qdiv. rewrite (Qmult_comm sol tok). reflexivity.
Qed.

Lemma bondingCurve_sell_exact (sol tok amountIn : Q) :
  ServerSolanaService.c_amountOut
    (ServerSolanaService.bondingCurve sol tok amountIn false)
  == sol - (tok * sol) / (tok + amountIn).
Proof.
  unfold ServerSolanaService.bondingCurve; cbn [ServerSolanaService.c_amountOut].
  exact_arith. unfold Qdiv. rewrite (Qmult_comm sol tok). reflexivity.
Qed.

(** What [executeTokenTrade] returns: the one record of its [catch], or
    a success that carries the figures of the curve block at the initial
    virtual reserves, after every call of the library has gone through. *)
Lemma executeTokenTrade_outcome (num : Type) (N : JsNumber num)
      (env : @ServerSolanaService.SolanaEnv num) (mint : string) (amountIn : num)
      (isBuy : bool) (wallet : string) :
  let r := ServerSolanaService.executeTokenTrade env mint amountIn isBuy wallet in
  let c := ServerSolanaService.bondingCurve ServerSolanaService.INITIAL_VIRTUAL_SOL
             ServerSolanaService.INITIAL_VIRTUAL_TOKENS amountIn isBuy in
  r = ServerSolanaService.failed
  \/ (ServerSolanaService.success r = true
      /\ ServerSolanaService.amountOut r = ServerSolanaService.c_amountOut c
      /\ ServerSolanaService.marketCap r = ServerSolanaService.c_marketCap c
      /\ ServerSolanaService.newPrice r = ServerSolanaService.c_newPrice c
      /\ ServerSolanaService.isGraduated r = ServerSolanaService.c_isGraduated c
      /\ ServerSolanaService.publicKey env wallet = true
      /\ ServerSolanaService.isOnCurve env wallet = true
      /\ ServerSolanaService.publicKey env mint = true
      /\ isSome (ServerSolanaService.latestBlockhash env) = true
      /\ (isBuy = true ->
          ServerSolanaService.transfer env
            (floor (amountIn * ServerSolanaService.LAMPORTS_PER_SOL)%js) = true)).
Proof.
  cbv zeta. unfold ServerSolanaService.executeTokenTrade.
  destruct (ServerSolanaService.publicKey env wallet); cbn [negb]; [|left; reflexivity].
  destruct (ServerSolanaService.isOnCurve env wallet); cbn [negb]; [|left; reflexivity].
  destruct (ServerSolanaService.latestBlockhash env) as [blockhash|]; [|left; reflexivity].
  destruct (ServerSolanaService.publicKey env ServerSolanaService.BONDING_CURVE_PROGRAM_ID);
    cbn [negb]; [|left; reflexivity].
  destruct (ServerSolanaService.publicKey env mint); cbn [negb]; [|left; reflexivity].
  destruct (ServerSolanaService.findProgramAddress env mint) as [pool|];
    [|left; reflexivity].
  destruct isBuy.
  - destruct (ServerSolanaService.publicKey env ServerSolanaService.treasuryWallet);
      cbn [andb]; [|left; reflexivity].
    destruct (ServerSolanaService.transfer env _) eqn:Hlamports; [|left; reflexivity].
    destruct (ServerSolanaService.serialize env _); [|left; reflexivity].
    right. cbn. repeat (split; [reflexivity|]). intros _. reflexivity.
  - destruct (ServerSolanaService.getAssociatedTokenAddress env mint wallet);
      [|left; reflexivity].
    destruct (ServerSolanaService.serialize env _); [|left; reflexivity].
    right. cbn. repeat (split; [reflexivity|]). discriminate.
Qed.

(** The figures of a trade that went through. *)
Lemma executeTokenTrade_figures (num : Type) (N : JsNumber num)
      (env : @ServerSolanaService.SolanaEnv num) (mint : string) (amountIn : num)
      (isBuy : bool) (wallet : string) :
  let r := ServerSolanaService.executeTokenTrade env mint amountIn isBuy wallet in
  let c := ServerSolanaService.bondingCurve ServerSolanaService.INITIAL_VIRTUAL_SOL
             ServerSolanaService.INITIAL_VIRTUAL_TOKENS amountIn isBuy in
  ServerSolanaService.success r = true ->
  ServerSolanaService.amountOut r = ServerSolanaService.c_amountOut c
  /\ ServerSolanaService.marketCap r = ServerSolanaService.c_marketCap c
  /\ ServerSolanaService.newPrice r = ServerSolanaService.c_newPrice c
  /\ ServerSolanaService.isGraduated r = ServerSolanaService.c_isGraduated c
  /\ (isBuy = true ->
      ServerSolanaService.transfer env
        (floor (amountIn * ServerSolanaService.LAMPORTS_PER_SOL)%js) = true).
Proof.
  intros r c Hok.
  destruct (@executeTokenTrade_outcome _ _ env mint amountIn isBuy wallet)
    as [Hfailed|(_ & Hout & Hcap & Hprice & Hgrad & _ & _ & _ & _ & Hlamports)].
  - fold r in Hfailed. rewrite Hfailed in Hok. discriminate.
  - repeat (split; [assumption|]). exact Hlamports.
Qed.

(** C1 fails on the code: [executeTokenTrade] reads no pool.  Once the
    pool of a mint has moved to the reserves a first buy of 10 leaves,
    804,750,000 and 40, a buy of 10 through [executeTokenTrade] still
    returns the 268,250,000 of the initial reserves, where the formula at
    the reserves of the pool gives 160,950,000. *)
Lemma C1_traded_pool_is_not_read :
  let created :=
    snd (MemStorage.createPool (@MemStorage.empty float)
           (MemStorage.defaultPool Sample.mintKey) 1748078501850) in
  let st :=
    snd (MemStorage.updatePoolReserves created Sample.mintKey
           804750000%float 40%float) in
  let r := @ServerSolanaService.executeTokenTrade float _ Sample.solanaUp
             Sample.mintKey 10%float true Sample.wallet in
  option_map (fun pool => (MemStorage.baseReserve pool, MemStorage.quoteReserve pool))
             (MemStorage.getPoolByMint st Sample.mintKey)
  = Some (804750000%float, 40%float)
  /\ ServerSolanaService.success r = true
  /\ ServerSolanaService.amountOut r = 268250000%float
  /\ option_map
       (fun pool =>
          (MemStorage.baseReserve pool
           - (MemStorage.baseReserve pool * MemStorage.quoteReserve pool)
             / (MemStorage.quoteReserve pool + 10%float))%js)
       (MemStorage.getPoolByMint st Sample.mintKey)
     = Some 160950000%float.
Proof. vm_compute. repeat split. Qed.

(** C1, amended.  A buy through [executeTokenTrade] that succeeds returns
    [amountOut = B - (S * B) / (S + amountIn)] and the market cap
    [S + amountIn] for every [amountIn], in any arithmetic, where [B] and
    [S] are the constants 1,073,000,000 and 30 the function starts from
    on every call, not the reserves of a pool, and the transfer it carries
    is for [floor (amountIn * 10^9)] lamports; a sell returns
    [S - (S * B) / (B + amountIn)].  These constants are the default
    reserves of the [pools] table, so for a pool at its default reserves a
    buy of 10 gives exactly 268,250,000, in exact and in binary64
    arithmetic, and a market cap of 40.  [RaydiumTradingService.executeTrade]
    reports to the server, for every pool it fetched, the output of the
    formula at the reserves of that pool. *)
Theorem C1_buy_amount_out :
  (forall (num : Type) (N : JsNumber num) (env : @ServerSolanaService.SolanaEnv num)
          (mint wallet : string) (amountIn : num),
      let B := ServerSolanaService.INITIAL_VIRTUAL_TOKENS in
      let S := ServerSolanaService.INITIAL_VIRTUAL_SOL in
      let buy := ServerSolanaService.executeTokenTrade env mint amountIn true wallet in
      let sell := ServerSolanaService.executeTokenTrade env mint amountIn false wallet in
      (ServerSolanaService.success buy = true ->
       ServerSolanaService.amountOut buy = (B - (S * B) / (S + amountIn))%js
       /\ ServerSolanaService.marketCap buy = (S + amountIn)%js
       /\ ServerSolanaService.transfer env
            (floor (amountIn * ServerSolanaService.LAMPORTS_PER_SOL)%js) = true)
      /\ (ServerSolanaService.success sell = true ->
          ServerSolanaService.amountOut sell = (S - (S * B) / (B + amountIn))%js))
  /\ (forall (env : @ServerSolanaService.SolanaEnv Q) (mint wallet : string)
             (amountIn : Q),
         let buy := ServerSolanaService.executeTokenTrade env mint amountIn true wallet in
         ServerSolanaService.success buy = true ->
         ServerSolanaService.amountOut buy
         == 1073000000 - (1073000000 * 30) / (30 + amountIn)
         /\ ServerSolanaService.marketCap buy == 30 + amountIn)
  /\ (forall (num : Type) (N : JsNumber num) (mint : string),
         MemStorage.ip_baseReserve (@MemStorage.defaultPool num _ mint)
         = ServerSolanaService.INITIAL_VIRTUAL_TOKENS
         /\ MemStorage.ip_quoteReserve (@MemStorage.defaultPool num _ mint)
            = ServerSolanaService.INITIAL_VIRTUAL_SOL)
  /\ (forall (env : @ServerSolanaService.SolanaEnv float) (mint wallet : string),
         let r := ServerSolanaService.executeTokenTrade env mint 10%float true wallet in
         ServerSolanaService.success r = true ->
         ServerSolanaService.amountOut r = 268250000%float
         /\ ServerSolanaService.marketCap r = 40%float)
  /\ (forall (env : @ServerSolanaService.SolanaEnv Q) (mint wallet : string),
         let r := ServerSolanaService.executeTokenTrade env mint 10%Q true wallet in
         ServerSolanaService.success r = true ->
         ServerSolanaService.amountOut r = 268250000%Q
         /\ ServerSolanaService.marketCap r = 40%Q)
  /\ (forall (num : Type) (N : JsNumber num)
             (env : @RaydiumTradingService.TradeEnv num)
             (params : @RaydiumTradingService.TradeParams num)
             (pool : @RaydiumTradingService.PoolInfo num) (sig : string),
         RaydiumTradingService.walletConnected env = true ->
         RaydiumTradingService.poolInfo env = Some pool ->
         RaydiumTradingService.confirmed env = inl sig ->
         RaydiumTradingService.p_isBuy params = true ->
         List.map (@RaydiumTradingService.u_amountOut num)
                  (snd (RaydiumTradingService.executeTrade env params))
         = [ (RaydiumTradingService.baseReserve pool
              - (RaydiumTradingService.baseReserve pool
                 * RaydiumTradingService.quoteReserve pool)
                / (RaydiumTradingService.quoteReserve pool
                   + RaydiumTradingService.p_amountIn params))%js ]).
Proof.
  split.
  { intros num N env mint wallet amountIn B S buy sell. split.
    - intros Hok.
      destruct (@executeTokenTrade_figures _ _ env mint amountIn true wallet Hok)
        as (Hout & Hcap & _ & _ & Hlamports).
      fold buy in Hout, Hcap. rewrite Hout, Hcap.
      split; [reflexivity|]. split; [reflexivity|exact (Hlamports eq_refl)].
    - intros Hok.
      destruct (@executeTokenTrade_figures _ _ env mint amountIn false wallet Hok)
        as (Hout & _).
      fold sell in Hout. rewrite Hout. reflexivity. }
  split.
  { intros env mint wallet amountIn buy Hok.
    destruct (@executeTokenTrade_figures _ _ env mint amountIn true wallet Hok)
      as (Hout & Hcap & _).
    fold buy in Hout, Hcap. rewrite Hout, Hcap. split.
    - rewrite bondingCurve_buy_exact.
      unfold ServerSolanaService.INITIAL_VIRTUAL_SOL,
        ServerSolanaService.INITIAL_VIRTUAL_TOKENS, int.
      exact_arith. reflexivity.
    - unfold ServerSolanaService.bondingCurve,
        ServerSolanaService.INITIAL_VIRTUAL_SOL, int;
        cbn [ServerSolanaService.c_marketCap].
      exact_arith. reflexivity. }
  split; [intros num N mint; split; reflexivity|].
  split.
  { intros env mint wallet r Hok.
    destruct (@executeTokenTrade_figures _ _ env mint 10%float true wallet Hok)
      as (Hout & Hcap & _).
    fold r in Hout, Hcap. rewrite Hout, Hcap. split; vm_compute; reflexivity. }
  split.
  { intros env mint wallet r Hok.
    destruct (@executeTokenTrade_figures _ _ env mint 10%Q true wallet Hok)
      as (Hout & Hcap & _).
    fold r in Hout, Hcap. rewrite Hout, Hcap. split; vm_compute; reflexivity. }
  intros num N env params pool sig Hwallet Hpool Hsent Hbuy.
  unfold RaydiumTradingService.executeTrade.
  rewrite Hwallet, Hpool, Hsent, Hbuy. reflexivity.
Qed.

(** The statement of C1 at a trade that goes through. *)
Lemma C1_buy_amount_out_witness :
  ServerSolanaService.success
    (@ServerSolanaService.executeTokenTrade float _ Sample.solanaUp Sample.mintKey
       10%float true Sample.wallet) = true
  /\ ServerSolanaService.amountOut
       (@ServerSolanaService.executeTokenTrade float _ Sample.solanaUp Sample.mintKey
          10%float true Sample.wallet)
     = 268250000%float
  /\ ServerSolanaService.marketCap
       (@ServerSolanaService.executeTokenTrade float _ Sample.solanaUp Sample.mintKey
          10%float true Sample.wallet)
     = 40%float.
Proof.
  split; [vm_compute; reflexivity|].
  apply (proj1 (proj2 (proj2 (proj2 C1_buy_amount_out)))
           Sample.solanaUp Sample.mintKey Sample.wallet).
  vm_compute. reflexivity.
Defined.






Lemma round_trip_denominators (b q x : Q) :
  0 < b -> 0 < q -> 0 < x ->
  ~ q + x == 0
  /\ ~ b * (q + x) - (b * (q + x) - b * q) + (b * (q + x) - b * q) == 0.
Proof.
  intros Hb Hq Hx. split; [lra|].
  assert (Hsum : 0 < q + x) by lra.
  assert (Hp : 0 < b * (q + x)) by (apply Qmult_lt_0_compat; assumption).
  intros H0. apply (Qlt_not_eq _ _ Hp). rewrite <- H0. ring.
Qed.

Lemma round_trip_denominators' (b q x : Q) :
  0 < b -> 0 < q -> 0 < x ->
  ~ q + x == 0 /\ ~ b * q + (b * (q + x) - b * q) == 0.
Proof.
  intros Hb Hq Hx. split; [lra|].
  assert (Hsum : 0 < q + x) by lra.
  assert (Hp : 0 < b * (q + x)) by (apply Qmult_lt_0_compat; assumption).
  intros H0. apply (Qlt_not_eq _ _ Hp). rewrite <- H0. ring.
Qed.

(** The round trip in exact arithmetic: the sale returns the amount paid. *)
Lemma buyThenSell_exact (pool : @RaydiumTradingService.PoolInfo Q) (x : Q) :
  0 < RaydiumTradingService.baseReserve pool ->
  0 < RaydiumTradingService.quoteReserve pool ->
  0 < x ->
  RoundTrip.buyThenSell pool x == x.
Proof.
  destruct pool as [tm bm qm b q cp mc v]; cbn.
  intros Hb Hq Hx.
  unfold RoundTrip.buyThenSell, RaydiumTradingService.newReserves,
    RaydiumTradingService.outputAmount, RoundTrip.withReserves; cbn.
  exact_arith. field. apply round_trip_denominators'; assumption.
Qed.

Lemma quotedBuyThenSell_exact (pool : @PumpTradingEngine.PoolInfo Q) (x : Q) :
  0 < PumpTradingEngine.baseReserve pool ->
  0 < PumpTradingEngine.quoteReserve pool ->
  0 < x ->
  exists back, RoundTrip.quotedBuyThenSell pool x = Some back /\ back == x.
Proof.
  destruct pool as [b q cp mc g]; cbn.
  intros Hb Hq Hx.
  unfold RoundTrip.quotedBuyThenSell, PumpTradingEngine.reservesAfter,
    PumpTradingEngine.getTradeQuote; cbn.
  eexists; split; [reflexivity|].
  exact_arith. field. apply round_trip_denominators; assumption.
Qed.

(** C8 fails on the code: from the default reserves, in binary64, a buy of
    0.1 followed by the sale of the tokens received returns
    0.10000000000000142, more than was paid. *)
Lemma C8_round_trip_gains_in_binary64 :
  let x : float := lit 1 1 in
  (x >? int 0)%js = true
  /\ (RoundTrip.buyThenSell Sample.freshPool x >? x)%js = true
  /\ (exists back,
         RoundTrip.quotedBuyThenSell Sample.freshQuotedPool x = Some back
         /\ (back >? x)%js = true).
Proof.
  vm_compute. split; [reflexivity|]. split; [reflexivity|].
  eexists; split; reflexivity.
Qed.

(** C8, amended.  In exact arithmetic, for positive reserves and a
    positive amount [x], a buy of [x] followed by the sale of the tokens
    received returns exactly [x], hence no more than [x]: the bound is a
    property of the curve formula, not of its evaluation in binary64. *)
Theorem C8_round_trip_exact :
  forall (pool : @RaydiumTradingService.PoolInfo Q)
         (quoted : @PumpTradingEngine.PoolInfo Q) (x : Q),
    0 < RaydiumTradingService.baseReserve pool ->
    0 < RaydiumTradingService.quoteReserve pool ->
    0 < PumpTradingEngine.baseReserve quoted ->
    0 < PumpTradingEngine.quoteReserve quoted ->
    0 < x ->
    RoundTrip.buyThenSell pool x == x
    /\ RoundTrip.buyThenSell pool x <= x
    /\ (exists back,
           RoundTrip.quotedBuyThenSell quoted x = Some back
           /\ back == x /\ back <= x).
Proof.
  intros pool quoted x Hb Hq Hb' Hq' Hx.
  pose proof (buyThenSell_exact pool Hb Hq Hx) as E.
  split; [exact E|]. split; [rewrite E; apply Qle_refl|].
  destruct (quotedBuyThenSell_exact quoted Hb' Hq' Hx) as [back [Hs Hback]].
  exists back. split; [exact Hs|]. split; [exact Hback|].
  rewrite Hback; apply Qle_refl.
Qed.

Lemma C8_round_trip_exact_witness :
  RoundTrip.buyThenSell (num := Q) Sample.freshPool (1 # 10) == 1 # 10
  /\ RoundTrip.buyThenSell (num := Q) Sample.freshPool (1 # 10) <= 1 # 10
  /\ (exists back,
         RoundTrip.quotedBuyThenSell (num := Q) Sample.freshQuotedPool (1 # 10)
         = Some back
         /\ back == 1 # 10 /\ back <= 1 # 10).
Proof.
  apply (@C8_round_trip_exact Sample.freshPool Sample.freshQuotedPool (1 # 10));
    reflexivity.
Defined.

(** ** The bonding-curve services (C3, C7) *)

(** The loop of [calculateTokensForSOL] ends, in exact arithmetic: from a
    supply of [n] chunks of 1000 tokens it takes at most [n] rounds that
    sell a whole chunk, one that sells the rest of the money, and the
    test that leaves it. *)
Lemma tokensLoop_returns (n fuel : nat) (remainingSol tokensReceived supply : Q) :
  supply == inject_Z (1000 * Z.of_nat n) ->
  (n + 2 <= fuel)%nat ->
  NewBondingCurveService.tokensLoop fuel remainingSol tokensReceived supply <> None.
Proof.
  revert fuel remainingSol tokensReceived supply.
  induction n as [|n IH]; intros fuel rem tok supply Hsupply Hfuel.
  - destruct fuel as [|fuel]; [lia|]. cbn [NewBondingCurveService.tokensLoop].
    assert (E : (supply >? int 0)%js = false).
    { cbn [ltb Q_JsNumber]. unfold Exact.ltb. apply negb_false_iff.
      apply Qle_bool_iff. unfold int. cbn [lit Q_JsNumber].
      rewrite exact_int, Hsupply. rewrite <- Zle_Qle. lia. }
    rewrite E, andb_false_r. discriminate.
  - destruct fuel as [|fuel]; [lia|]. cbn [NewBondingCurveService.tokensLoop].
    destruct ((rem >? int 0)%js && (supply >? int 0)%js); [|discriminate].
    assert (Hmin : min (int 1000) supply == 1000).
    { cbn [min Q_JsNumber]. unfold Exact.min, int. cbn [lit Q_JsNumber].
      assert (Hle : Qle_bool (Exact.lit 1000 0) supply = true).
      { apply Qle_bool_iff. rewrite exact_int, Hsupply. rewrite <- Zle_Qle. lia. }
      rewrite Hle. apply exact_int. }
    match goal with |- (if ?c then _ else _) <> None => destruct c end.
    + apply IH; [|lia].
      cbn [sub Q_JsNumber]. rewrite exact_sub, Hmin, Hsupply.
      change 1000 with (inject_Z 1000). unfold Qminus.
      rewrite <- inject_Z_opp, <- inject_Z_plus.
      apply inject_Z_injective. lia.
    + destruct fuel as [|fuel]; [lia|]. cbn [NewBondingCurveService.tokensLoop].
      assert (E : (int 0 >? int 0)%js = false) by reflexivity.
      rewrite E. cbn [andb]. discriminate.
Qed.

(** A buy whose transfer is built is accepted, and reports 15.5 plus its
    own amount as collected. *)
Lemma executeBondingCurveTrade_buy_exact (buffer : string)
      (params : BondingCurveParams Q) :
  bc_isBuy params = true ->
  exists r,
    NewBondingCurveService.executeBondingCurveTrade (inl buffer) params = Some r
    /\ bc_success r = true
    /\ bc_solCollected r == (31 # 2) + bc_amountIn params.
Proof.
  intros Hbuy. unfold NewBondingCurveService.executeBondingCurveTrade.
  rewrite Hbuy. cbn [negb].
  unfold NewBondingCurveService.calculateTokensForSOL.
  destruct (NewBondingCurveService.tokensLoop _ _ _ _) as [tokensReceived|] eqn:Hloop.
  - eexists. split; [reflexivity|]. split; [reflexivity|].
    cbn [bc_solCollected]. exact_arith.
    apply Qplus_comp; [vm_compute; reflexivity|reflexivity].
  - exfalso. revert Hloop.
    apply (@tokensLoop_returns (Z.to_nat 800000)); [|lia].
    rewrite Z2Nat.id by lia. unfold int. exact_arith. reflexivity.
Qed.

Lemma executeBondingCurveTrade_collected (num : Type) (N : JsNumber num)
      (transfer : string + string) (params : BondingCurveParams num)
      (r : BondingCurveResult num) :
  NewBondingCurveService.executeBondingCurveTrade transfer params = Some r ->
  bc_success r = true ->
  bc_solCollected r = (lit 155 1 + bc_amountIn params)%js.
Proof.
  unfold NewBondingCurveService.executeBondingCurveTrade.
  destruct (bc_isBuy params); cbn [negb].
  - destruct (NewBondingCurveService.calculateTokensForSOL _ _ _)
      as [[tokensOut avgPrice]|]; [|discriminate].
    destruct transfer as [buffer|message]; intros [= <-]; [reflexivity|discriminate].
  - intros [= <-]; discriminate.
Qed.

(** ** Sells (C7) *)

(** C7 fails on the code: [NewBondingCurveService] accepts a buy of 1 and
    rejects the sale of 1 placed with the same wallet and transaction. *)
Lemma C7_sell_rejected_where_buy_accepted :
  (exists r,
      @NewBondingCurveService.executeBondingCurveTrade float _
        (inl "AQAB"%string) (Sample.curveOrder 1) = Some r
      /\ bc_success r = true)
  /\ (exists r,
         @NewBondingCurveService.executeBondingCurveTrade float _
           (inl "AQAB"%string) (Sample.curveSale 1) = Some r
         /\ bc_success r = false
         /\ bc_error r = Some "Sell functionality not implemented yet"%string).
Proof.
  split; vm_compute; eexists; repeat split.
Qed.

(** C7, amended.  Where a sell is priced, it is priced by the
    constant-product formula with the roles of the reserves swapped: in
    the block of [executeTokenTrade] (exact arithmetic) and in
    [RaydiumTradingService] and [PumpTradingEngine] (any arithmetic).
    The two bonding-curve services do not accept sells: every sell ends
    in the error "Sell functionality not implemented yet", whatever the
    transfer would have given, while [NewBondingCurveService] accepts
    every buy whose transfer is built (exact arithmetic). *)
Theorem C7_sell_formula_and_guard :
  (forall sol tok amountIn : Q,
      let c := ServerSolanaService.bondingCurve sol tok amountIn false in
      ServerSolanaService.c_newTokenReserves c == tok + amountIn
      /\ ServerSolanaService.c_newSolReserves c == (tok * sol) / (tok + amountIn)
      /\ ServerSolanaService.c_amountOut c == sol - (tok * sol) / (tok + amountIn))
  /\ (forall (num : Type) (N : JsNumber num)
             (pool : @RaydiumTradingService.PoolInfo num) (amountIn : num),
         RaydiumTradingService.outputAmount pool amountIn false
         = (RaydiumTradingService.quoteReserve pool
            - (RaydiumTradingService.baseReserve pool
               * RaydiumTradingService.quoteReserve pool)
              / (RaydiumTradingService.baseReserve pool + amountIn))%js)
  /\ (forall (num : Type) (N : JsNumber num)
             (pool : @PumpTradingEngine.PoolInfo num) (amountIn : num),
         option_map PumpTradingEngine.amountOut
           (PumpTradingEngine.getTradeQuote (Some pool) amountIn false)
         = Some (PumpTradingEngine.quoteReserve pool
                 - (PumpTradingEngine.baseReserve pool
                    * PumpTradingEngine.quoteReserve pool)
                   / (PumpTradingEngine.baseReserve pool + amountIn))%js)
  /\ (forall (num : Type) (N : JsNumber num) (transfer : string + string)
             (mint wallet : string) (amountIn : num),
         let sell := {| bc_tokenMint := mint; bc_amountIn := amountIn;
                        bc_isBuy := false; bc_walletAddress := wallet |} in
         NewBondingCurveService.executeBondingCurveTrade transfer sell
         = Some (bondingCurveFailure "Sell functionality not implemented yet")
         /\ BondingCurveService.executeBondingCurveTrade transfer sell
            = bondingCurveFailure "Sell functionality not implemented yet")
  /\ (forall (buffer mint wallet : string) (amountIn : Q),
         exists r,
           NewBondingCurveService.executeBondingCurveTrade (inl buffer)
             {| bc_tokenMint := mint; bc_amountIn := amountIn;
                bc_isBuy := true; bc_walletAddress := wallet |} = Some r
           /\ bc_success r = true).
Proof.
  split.
  { intros sol tok amountIn c; subst c.
    unfold ServerSolanaService.bondingCurve;
      cbn [ServerSolanaService.c_newTokenReserves
             ServerSolanaService.c_newSolReserves ServerSolanaService.c_amountOut].
    exact_arith. unfold Qdiv. rewrite (Qmult_comm sol tok).
    repeat split; reflexivity. }
  split; [reflexivity|].
  split; [reflexivity|].
  split.
  { intros num N transfer mint wallet amountIn sell; subst sell.
    split; reflexivity. }
  intros buffer mint wallet amountIn.
  destruct (@executeBondingCurveTrade_buy_exact buffer
              {| bc_tokenMint := mint; bc_amountIn := amountIn;
                 bc_isBuy := true; bc_walletAddress := wallet |} eq_refl)
    as (r & Hrun & Hok & _).
  exists r. split; assumption.
Qed.

(** ** Slippage (C6) *)

(** C6 fails on the code: the caller expects 300,000,000 tokens, the curve
    gives 268,250,000, and the trade succeeds all the same; the amount it
    returns is below the computed one, while the reserve update is posted
    with the computed one. *)
Lemma C6_trade_below_expectation_succeeds :
  let r := @RaydiumTradingService.executeTrade float _ Sample.tradeUp Sample.hopefulBuy in
  let computed := RaydiumTradingService.outputAmount Sample.freshPool
                    (RaydiumTradingService.p_amountIn Sample.hopefulBuy) true in
  computed = 268250000%float
  /\ (computed <? RaydiumTradingService.p_amountOut Sample.hopefulBuy)%js = true
  /\ RaydiumTradingService.success (fst r) = true
  /\ (RaydiumTradingService.amountOut (fst r) <? computed)%js = true
  /\ List.map RaydiumTradingService.u_amountOut (snd r) = [computed].
Proof. vm_compute. repeat split. Qed.

(** C6, amended.  [executeTrade] takes a slippage percentage and no
    minimum output, and has no slippage failure: with the wallet
    connected, the pool found and the transaction confirmed it succeeds
    for every slippage and every expected amount, and posts one reserve
    update, carrying the full computed output.  In every other case it
    fails and posts nothing. *)
Theorem C6_no_slippage_failure :
  forall (num : Type) (N : JsNumber num)
         (env : @RaydiumTradingService.TradeEnv num)
         (params : @RaydiumTradingService.TradeParams num),
    let r := RaydiumTradingService.executeTrade env params in
    match RaydiumTradingService.walletConnected env,
          RaydiumTradingService.poolInfo env,
          RaydiumTradingService.confirmed env with
    | true, Some pool, inl sig =>
        RaydiumTradingService.success (fst r) = true
        /\ RaydiumTradingService.signature (fst r) = sig
        /\ snd r =
           [ {| RaydiumTradingService.u_tokenMint :=
                  RaydiumTradingService.p_tokenMint params;
                RaydiumTradingService.u_amountIn :=
                  RaydiumTradingService.p_amountIn params;
                RaydiumTradingService.u_amountOut :=
                  RaydiumTradingService.outputAmount pool
                    (RaydiumTradingService.p_amountIn params)
                    (RaydiumTradingService.p_isBuy params);
                RaydiumTradingService.u_isBuy :=
                  RaydiumTradingService.p_isBuy params |} ]
    | _, _, _ =>
        RaydiumTradingService.success (fst r) = false /\ snd r = []
    end.
Proof.
  intros num N env params r; subst r. unfold RaydiumTradingService.executeTrade.
  destruct (RaydiumTradingService.walletConnected env); cbn [negb].
  - destruct (RaydiumTradingService.poolInfo env) as [pool|].
    + destruct (RaydiumTradingService.confirmed env) as [sig|message]; cbn.
      * repeat split.
      * split; reflexivity.
    + split; reflexivity.
  - destruct (RaydiumTradingService.poolInfo env) as [pool|];
      [destruct (RaydiumTradingService.confirmed env)|]; split; reflexivity.
Qed.

(** ** Array.prototype.sort *)

Section SortFacts.
Variables (A : Type) (key : A -> Z).

Lemma sortInsert_perm (x : A) (l : list A) :
  Permutation (x :: l) (sortInsert (descending key) x l).
Proof.
  induction l as [|y l IH]; cbn; [reflexivity|].
  destruct (descending key x y <=? 0)%Z; [reflexivity|].
  rewrite perm_swap. apply perm_skip. exact IH.
Qed.

Lemma sort_perm (l : list A) : Permutation l (sort (descending key) l).
Proof.
  induction l as [|x l IH]; cbn; [constructor|].
  rewrite <- sortInsert_perm. apply perm_skip. exact IH.
Qed.

Lemma sortInsert_sorted (x : A) (l : list A) :
  StronglySorted (newerFirst key) l ->
  StronglySorted (newerFirst key) (sortInsert (descending key) x l).
Proof.
  induction 1 as [|y l Hl IH Hy]; cbn.
  - constructor; constructor.
  - destruct (descending key x y <=? 0)%Z eqn:E.
    + apply Z.leb_le in E. unfold descending in E.
      constructor; [constructor; assumption|].
      constructor; [unfold newerFirst; lia|].
      eapply Forall_impl; [|exact Hy].
      unfold newerFirst; intros z Hz; lia.
    + apply Z.leb_gt in E. unfold descending in E.
      constructor; [exact IH|].
      eapply Permutation_Forall; [apply sortInsert_perm|].
      constructor; [unfold newerFirst; lia|exact Hy].
Qed.

Lemma sort_sorted (l : list A) :
  StronglySorted (newerFirst key) (sort (descending key) l).
Proof.
  induction l as [|x l IH]; cbn; [constructor|].
  apply sortInsert_sorted. exact IH.
Qed.

End SortFacts.

(** ** The storage (C9, C10) *)

(** C9.  [getTrades(tokenId)] returns a list that holds exactly the
    stored trades of that token, each as often as it is stored, the
    newest first. *)
Theorem C9_getTrades_newest_first :
  forall (num : Type) (N : JsNumber num) (st : @MemStorage.Storage num) (tokenId : Z),
    let result := MemStorage.getTrades st tokenId in
    Permutation
      (filter (fun trade => (MemStorage.tr_tokenId trade =? tokenId)%Z)
              (JsMap.values (MemStorage.trades st)))
      result
    /\ (forall trade,
           In trade result <->
           In trade (JsMap.values (MemStorage.trades st))
           /\ MemStorage.tr_tokenId trade = tokenId)
    /\ StronglySorted
         (fun a b => (MemStorage.tr_createdAt b <= MemStorage.tr_createdAt a)%Z)
         result.
Proof.
  intros num N st tokenId result; subst result. unfold MemStorage.getTrades.
  split; [apply (sort_perm MemStorage.tr_createdAt)|].
  split; [|apply (sort_sorted MemStorage.tr_createdAt)].
  intros trade. split.
  - intros Hin.
    apply (Permutation_in _ (Permutation_sym (sort_perm MemStorage.tr_createdAt _))) in Hin.
    apply filter_In in Hin. destruct Hin as [Hin Heq].
    split; [exact Hin|]. apply Z.eqb_eq; exact Heq.
  - intros [Hin Heq].
    apply (Permutation_in _ (sort_perm MemStorage.tr_createdAt _)).
    apply filter_In. split; [exact Hin|]. apply Z.eqb_eq; exact Heq.
Qed.

Section PoolFacts.
Context {num : Type} `{JsNumber num}.

Local Abbreviation Pool := (@MemStorage.Pool num).

Lemma find_assignFirst (mint : string) (f : Pool -> Pool)
      (m : JsMap.t Z Pool) (pool : Pool) :
  (forall p, MemStorage.tokenMint (f p) = MemStorage.tokenMint p) ->
  find (MemStorage.hasMint mint) (JsMap.values m) = Some pool ->
  find (MemStorage.hasMint mint) (JsMap.values (MemStorage.assignFirst mint f m)) = Some (f pool).
Proof.
  intros Hf. induction m as [|[k p] m IH]; cbn; [discriminate|].
  unfold MemStorage.hasMint at 1. destruct (String.eqb (MemStorage.tokenMint p) mint) eqn:E.
  - intros [= ->]. cbn. unfold MemStorage.hasMint. rewrite Hf, E. reflexivity.
  - intros Hfind. cbn. unfold MemStorage.hasMint at 1. rewrite E. apply IH. exact Hfind.
Qed.

Lemma find_set (mint : string) (k : Z) (pool : Pool) (m : JsMap.t Z Pool) :
  MemStorage.hasMint mint pool = true ->
  find (MemStorage.hasMint mint) (JsMap.values m) = Some pool ->
  find (MemStorage.hasMint mint) (JsMap.values (JsMap.set Z.eqb k pool m)) = Some pool.
Proof.
  intros Hmint. induction m as [|[k' p] m IH]; cbn; [discriminate|].
  destruct (Z.eqb k' k); cbn.
  - intros _. rewrite Hmint. reflexivity.
  - destruct (MemStorage.hasMint mint p); [trivial|]. exact IH.
Qed.

End PoolFacts.

(** C10.  On a mint that has a pool, [updatePoolReserves] returns the
    pool with the base and quote reserves it was given and the price
    [quoteReserve / (totalSupply - baseReserve)], and that is the pool
    stored under the mint afterwards; tokens, trades and portfolios are
    untouched.  On a mint without a pool it returns [undefined] and the
    storage is unchanged. *)
Theorem C10_updatePoolReserves :
  forall (num : Type) (N : JsNumber num) (st : @MemStorage.Storage num)
         (mint : string) (baseReserve quoteReserve : num),
    let r := MemStorage.updatePoolReserves st mint baseReserve quoteReserve in
    match MemStorage.getPoolByMint st mint with
    | Some pool =>
        exists pool',
          fst r = Some pool'
          /\ MemStorage.getPoolByMint (snd r) mint = Some pool'
          /\ MemStorage.baseReserve pool' = baseReserve
          /\ MemStorage.quoteReserve pool' = quoteReserve
          /\ MemStorage.currentPrice pool'
             = (quoteReserve / (MemStorage.totalSupply pool - baseReserve))%js
          /\ MemStorage.totalSupply pool' = MemStorage.totalSupply pool
          /\ MemStorage.tokenMint pool' = mint
          /\ MemStorage.id pool' = MemStorage.id pool
          /\ MemStorage.tokens (snd r) = MemStorage.tokens st
          /\ MemStorage.trades (snd r) = MemStorage.trades st
          /\ MemStorage.portfolios (snd r) = MemStorage.portfolios st
    | None => r = (None, st)
    end.
Proof.
  intros num N st mint b q r; subst r. unfold MemStorage.updatePoolReserves.
  destruct (MemStorage.getPoolByMint st mint) as [pool|] eqn:Hfind; [|reflexivity].
  exists (MemStorage.assignReserves b q pool). cbn [fst snd].
  unfold MemStorage.getPoolByMint in *.
  assert (Hmint : MemStorage.tokenMint pool = mint).
  { apply find_some in Hfind. apply String.eqb_eq. exact (proj2 Hfind). }
  split; [reflexivity|]. split.
  - cbn [MemStorage.withPools MemStorage.pools].
    apply find_set.
    + unfold MemStorage.hasMint; cbn. apply String.eqb_eq. exact Hmint.
    + apply find_assignFirst; [reflexivity|exact Hfind].
  - cbn. repeat split. exact Hmint.
Qed.

(** ** The trade handler (C3, C5) *)

Section HandlerFacts.
Context {num : Type} `{JsNumber num}.

Local Abbreviation Storage := (@MemStorage.Storage num).

Lemma updateToken_keeps (st : Storage) (id : Z) (updates : MemStorage.TokenUpdates) :
  let st' := snd (MemStorage.updateToken st id updates) in
  MemStorage.trades st' = MemStorage.trades st
  /\ MemStorage.pools st' = MemStorage.pools st
  /\ MemStorage.portfolios st' = MemStorage.portfolios st
  /\ MemStorage.currentTradeId st' = MemStorage.currentTradeId st.
Proof.
  unfold MemStorage.updateToken.
  destruct (JsMap.get Z.eqb id (MemStorage.tokens st)); cbn; repeat split.
Qed.

Lemma createTrade_stores (st : Storage) (insertTrade : MemStorage.InsertTrade) (now : Z) :
  let r := MemStorage.createTrade st insertTrade now in
  MemStorage.trades (snd r)
  = JsMap.set Z.eqb (MemStorage.currentTradeId st) (fst r) (MemStorage.trades st)
  /\ MemStorage.pools (snd r) = MemStorage.pools st
  /\ MemStorage.tr_tokenId (fst r) = MemStorage.i_tokenId insertTrade
  /\ MemStorage.tr_id (fst r) = MemStorage.currentTradeId st.
Proof.
  unfold MemStorage.createTrade.
  match goal with
  | |- context [MemStorage.getToken ?s ?i] => destruct (MemStorage.getToken s i)
  end; cbn [fst snd].
  - match goal with
    | |- context [MemStorage.updateToken ?s ?i ?u] =>
        destruct (updateToken_keeps s i u) as (Ht & Hp & _)
    end.
    rewrite Ht, Hp. cbn. repeat split.
  - cbn. repeat split.
Qed.

Lemma updatePortfolio_keeps (st : Storage) (user : string) (tokenId : Z)
      (amount averagePrice : num) (now : Z) :
  let st' := snd (MemStorage.updatePortfolio st user tokenId amount averagePrice now) in
  MemStorage.trades st' = MemStorage.trades st
  /\ MemStorage.pools st' = MemStorage.pools st.
Proof.
  unfold MemStorage.updatePortfolio.
  destruct (JsMap.get String.eqb _ (MemStorage.portfolios st)); cbn; split; reflexivity.
Qed.

(** What [recordTrade] answers and stores. *)
Lemma recordTrade_spec (env : Routes.HandlerEnv) (st : Storage)
      (req : Routes.TradeRequest) (token : MemStorage.Token)
      (result : Routes.TradeOutcome) :
  exists body st',
    Routes.recordTrade env st req token result = (Routes.Json body, st')
    /\ Routes.success body = true
    /\ Routes.bondingCurve body = negb (MemStorage.t_isGraduated token)
    /\ Routes.isGraduated body
       = MemStorage.t_isGraduated token
         || match Routes.o_isGraduated result with Some b => b | None => false end
    /\ Routes.solCollected body
       = (if MemStorage.t_isGraduated token then int 0
          else Routes.numOr (Routes.o_solCollected result) (int 0))
    /\ MemStorage.trades st'
       = JsMap.set Z.eqb (MemStorage.currentTradeId st) (Routes.trade body)
           (MemStorage.trades st)
    /\ MemStorage.tr_tokenId (Routes.trade body) = MemStorage.t_id token
    /\ MemStorage.pools st' = MemStorage.pools st.
Proof.
  unfold Routes.recordTrade.
  match goal with
  | |- context [MemStorage.createTrade ?s ?i ?n] =>
      pose proof (createTrade_stores s i n) as Hc;
      destruct (MemStorage.createTrade s i n) as [trade st1]
  end.
  cbn [fst snd] in Hc. destruct Hc as (Ht & Hp & Hid & _).
  eexists; eexists. split; [reflexivity|].
  cbn [Routes.success Routes.bondingCurve Routes.isGraduated Routes.solCollected
         Routes.trade].
  repeat (split; [reflexivity|]).
  match goal with
  | |- context [MemStorage.updatePortfolio ?s ?u ?i ?a ?p ?n] =>
      destruct (updatePortfolio_keeps s u i a p n) as (Ht2 & Hp2)
  end.
  match goal with
  | |- context [MemStorage.updateToken ?s ?i ?u] =>
      destruct (updateToken_keeps s i u) as (Ht1 & Hp1 & _)
  end.
  rewrite Ht2, Hp2, Ht1, Hp1. split; [exact Ht|]. split; [exact Hid|exact Hp].
Qed.

End HandlerFacts.

(** C5 fails on the code: a buy on a graduated token is answered with
    success, and one trade is recorded for it. *)
Lemma C5_trade_on_graduated_token_succeeds :
  let st := @Sample.storage float _ true in
  let r := Routes.tradeHandler (Sample.handlerUp 1748078600000) st (Sample.order 10) in
  option_map (@MemStorage.t_isGraduated float) (MemStorage.getToken st 1) = Some true
  /\ MemStorage.trades st = []
  /\ Routes.succeeded (fst r) = true
  /\ List.length (MemStorage.trades (snd r)) = 1%nat
  /\ List.map (@MemStorage.tr_tokenId float) (JsMap.values (MemStorage.trades (snd r)))
     = [1%Z].
Proof. vm_compute. repeat split. Qed.

(** C5, amended.  A trade on a graduated token is not refused: the
    handler hands it to the Jupiter swap instead of the bonding curve.
    When the swap fails the request fails and the storage is unchanged;
    when it succeeds the answer is a success, flagged as graduated and
    as not priced by the curve, and exactly one trade of that token is
    stored.  In both cases the stored pools, and so their reserves, are
    unchanged. *)
Theorem C5_graduated_token_trades_through_jupiter :
  forall (num : Type) (N : JsNumber num) (env : @Routes.HandlerEnv num)
         (st : @MemStorage.Storage num) (req : @Routes.TradeRequest num)
         (token : @MemStorage.Token num),
    Routes.nonEmpty (Routes.rq_tokenMint req) = true ->
    truthy (Routes.rq_amountIn req) = true ->
    Routes.nonEmpty (Routes.rq_user req) = true ->
    Routes.nonEmpty (Routes.rq_walletAddress req) = true ->
    find (Routes.sameMint (Routes.rq_tokenMint req)) (MemStorage.getAllTokens st)
    = Some token ->
    MemStorage.t_isGraduated token = true ->
    let r := Routes.tradeHandler env st req in
    MemStorage.pools (snd r) = MemStorage.pools st
    /\ if Routes.j_success (Routes.jupiter env) then
         exists body,
           fst r = Routes.Json body
           /\ Routes.success body = true
           /\ Routes.bondingCurve body = false
           /\ Routes.isGraduated body = true
           /\ MemStorage.tr_tokenId (Routes.trade body) = MemStorage.t_id token
           /\ MemStorage.trades (snd r)
              = JsMap.set Z.eqb (MemStorage.currentTradeId st) (Routes.trade body)
                  (MemStorage.trades st)
       else
         (exists message, fst r = Routes.SwapFailed message) /\ snd r = st.
Proof.
  intros num N env st req token Hmint Hin Huser Hwallet Hfind Hgrad r; subst r.
  unfold Routes.tradeHandler.
  rewrite Hmint, Hin, Huser, Hwallet, Hfind, Hgrad. cbn [negb orb].
  destruct (Routes.j_success (Routes.jupiter env)); cbn [negb].
  - match goal with
    | |- context [Routes.recordTrade ?e ?s ?q ?t ?o] =>
        destruct (recordTrade_spec e s q t o)
          as (body & st' & Heq & Hok & Hcurve & Hflag & _ & Htrades & Hid & Hpools)
    end.
    rewrite Heq. cbn [fst snd]. split; [exact Hpools|].
    exists body. rewrite Hgrad in Hcurve, Hflag. cbn in Hcurve, Hflag.
    repeat split; assumption.
  - cbn [fst snd]. split; [reflexivity|]. split; [eexists; reflexivity|reflexivity].
Qed.

Lemma C5_graduated_token_trades_through_jupiter_witness :
  let st := @Sample.storage float _ true in
  let r := Routes.tradeHandler (Sample.handlerUp 1748078600000) st (Sample.order 10) in
  MemStorage.pools (snd r) = MemStorage.pools st
  /\ exists body,
       fst r = Routes.Json body
       /\ Routes.success body = true
       /\ Routes.bondingCurve body = false
       /\ Routes.isGraduated body = true
       /\ MemStorage.tr_tokenId (Routes.trade body) = 1%Z
       /\ MemStorage.trades (snd r)
          = JsMap.set Z.eqb (MemStorage.currentTradeId st) (Routes.trade body)
              (MemStorage.trades st).
Proof.
  exact (@C5_graduated_token_trades_through_jupiter float _
           (Sample.handlerUp 1748078600000) (Sample.storage true) (Sample.order 10)
           (Sample.token true)
           eq_refl eq_refl eq_refl eq_refl eq_refl eq_refl).
Defined.

Lemma orElse_exact (c : Q) : orElse c (int 0) == c.
Proof.
  unfold orElse; cbn [truthy Q_JsNumber]. unfold Exact.truthy.
  destruct (Qeq_bool c 0) eqn:E; cbn [negb]; [|reflexivity].
  apply Qeq_bool_iff in E. rewrite E. unfold int. exact_arith. reflexivity.
Qed.

(** The collected amount a bonding-curve answer of the handler reports. *)
Lemma tradeHandler_collected (num : Type) (N : JsNumber num)
      (env : @Routes.HandlerEnv num) (st st' : @MemStorage.Storage num)
      (req : @Routes.TradeRequest num) (body : @Routes.TradeResponse num) :
  Routes.tradeHandler env st req = (Routes.Json body, st') ->
  Routes.bondingCurve body = true ->
  Routes.solCollected body
  = orElse (lit 155 1 + Routes.rq_amountIn req)%js (int 0).
Proof.
  unfold Routes.tradeHandler.
  destruct (_ || _ || _ || _); [discriminate|].
  destruct (find _ _) as [token|]; [|discriminate].
  destruct (MemStorage.t_isGraduated token) eqn:Hgrad.
  - destruct (Routes.j_success _); cbn [negb]; [|discriminate].
    match goal with
    | |- context [Routes.recordTrade ?e ?s ?q ?t ?o] =>
        destruct (recordTrade_spec e s q t o)
          as (body' & st1 & Heq & _ & Hcurve & _)
    end.
    rewrite Heq. intros [= <- <-]. rewrite Hgrad in Hcurve. cbn in Hcurve.
    rewrite Hcurve. discriminate.
  - destruct (SimpleRaydiumTrading.success _); cbn [negb]; [|discriminate].
    match goal with
    | |- context [Routes.recordTrade ?e ?s ?q ?t ?o] =>
        destruct (recordTrade_spec e s q t o)
          as (body' & st1 & Heq & _ & _ & _ & Hcollected & _)
    end.
    rewrite Heq. intros [= <- <-] _. rewrite Hgrad in Hcollected.
    exact Hcollected.
Qed.

(** C3 fails on the code: a buy of 10 followed by a buy of 1, both
    accepted by [NewBondingCurveService], report 25.5 and then 16.5 as
    collected. *)
Lemma C3_collected_amount_falls :
  exists first second : BondingCurveResult float,
    NewBondingCurveService.executeBondingCurveTrade (inl "AQAB"%string)
      (Sample.curveOrder 10) = Some first
    /\ NewBondingCurveService.executeBondingCurveTrade (inl "AQAB"%string)
         (Sample.curveOrder 1) = Some second
    /\ bc_success first = true
    /\ bc_success second = true
    /\ bc_solCollected first = 25.5%float
    /\ bc_solCollected second = 16.5%float
    /\ (bc_solCollected second <? bc_solCollected first)%js = true.
Proof.
  eexists; eexists.
  split; [vm_compute; reflexivity|]. split; [vm_compute; reflexivity|].
  vm_compute. repeat split.
Qed.

(** C3, amended.  The collected amount of a bonding-curve trade is not
    accumulated: [NewBondingCurveService] accepts every buy whose
    transfer is built and reports 15.5 plus the amount of that buy, and
    the trade handler reports the same for a trade it prices by the
    curve.  Within one trade the amount is therefore no smaller than the
    15.5 the code takes as collected before the trade, provided the
    amount bought is not negative (exact arithmetic). *)
Theorem C3_collected_amount_is_recomputed :
  (forall (buffer : string) (params : BondingCurveParams Q),
      bc_isBuy params = true ->
      exists r,
        NewBondingCurveService.executeBondingCurveTrade (inl buffer) params = Some r
        /\ bc_success r = true
        /\ bc_solCollected r == (31 # 2) + bc_amountIn params
        /\ (0 <= bc_amountIn params -> 31 # 2 <= bc_solCollected r))
  /\ (forall (num : Type) (N : JsNumber num) (transfer : string + string)
             (params : BondingCurveParams num) (r : BondingCurveResult num),
         NewBondingCurveService.executeBondingCurveTrade transfer params = Some r ->
         bc_success r = true ->
         bc_solCollected r = (lit 155 1 + bc_amountIn params)%js)
  /\ (forall (env : @Routes.HandlerEnv Q) (st st' : @MemStorage.Storage Q)
             (req : @Routes.TradeRequest Q) (body : @Routes.TradeResponse Q),
         Routes.tradeHandler env st req = (Routes.Json body, st') ->
         Routes.bondingCurve body = true ->
         Routes.solCollected body == (31 # 2) + Routes.rq_amountIn req
         /\ (0 <= Routes.rq_amountIn req -> 31 # 2 <= Routes.solCollected body)).
Proof.
  split.
  { intros buffer params Hbuy.
    destruct (executeBondingCurveTrade_buy_exact buffer params Hbuy)
      as (r & Hrun & Hok & E).
    exists r. repeat (split; [assumption|]). intros Hpos. rewrite E. lra. }
  split; [exact executeBondingCurveTrade_collected|].
  intros env st st' req body Hrun Hcurve.
  assert (E : Routes.solCollected body == (31 # 2) + Routes.rq_amountIn req).
  { rewrite (@tradeHandler_collected _ _ _ _ _ _ _ Hrun Hcurve), orElse_exact.
    exact_arith. apply Qplus_comp; [vm_compute; reflexivity|reflexivity]. }
  split; [exact E|]. intros Hpos. rewrite E. lra.
Qed.

Lemma C3_collected_amount_is_recomputed_witness :
  exists r : BondingCurveResult Q,
    NewBondingCurveService.executeBondingCurveTrade (inl "AQAB"%string)
      (Sample.curveOrder 10) = Some r
    /\ bc_success r = true
    /\ bc_solCollected r == (31 # 2) + 10
    /\ 31 # 2 <= bc_solCollected r.
Proof.
  destruct (proj1 C3_collected_amount_is_recomputed "AQAB"%string
              (Sample.curveOrder 10) eq_refl) as (r & Hrun & Hok & E & Hle).
  exists r. split; [exact Hrun|]. split; [exact Hok|]. split; [exact E|].
  apply Hle. vm_compute. discriminate.
Defined.

(** ** Graduation (C4) *)

(** The guard of [checkPoolStatus] and [migrateToAmm]: once the pool is
    flagged as migrated no check starts and no call enters the migration. *)
Lemma migrated_pool_is_left_alone (num : Type) (N : JsNumber num)
      (w : @RaydiumLaunchpadService.World num) (pool : string) :
  RaydiumLaunchpadService.live w pool = false ->
  RaydiumLaunchpadService.step w (RaydiumLaunchpadService.Tick pool) = w
  /\ RaydiumLaunchpadService.enterMigrate w pool = RaydiumLaunchpadService.Finished.
Proof.
  intros Hlive. unfold RaydiumLaunchpadService.step,
    RaydiumLaunchpadService.startCheck, RaydiumLaunchpadService.enterMigrate.
  rewrite Hlive. split; [|reflexivity].
  destruct (existsb _ _); reflexivity.
Qed.

(** C4, on the code.  When the second check of a pool starts after the
    first has ended, the pool is migrated once.  When the polling
    interval fires while the first check is still waiting, both checks
    pass the [migrated] guard before either sets the flag, and the
    migration transaction of the pool is executed twice. *)
Theorem C4_overlapping_checks_migrate_twice :
  let launched := @RaydiumLaunchpadService.launched float _ "pool" "WEN" (int 69) in
  let calm := RaydiumLaunchpadService.run launched Sample.consecutiveChecks in
  let raced := RaydiumLaunchpadService.run launched Sample.overlappingChecks in
  RaydiumLaunchpadService.migrationsOf calm "pool" = 1%nat
  /\ RaydiumLaunchpadService.live calm "pool" = false
  /\ RaydiumLaunchpadService.migrationsOf raced "pool" = 2%nat
  /\ RaydiumLaunchpadService.live raced "pool" = false
  /\ RaydiumLaunchpadService.calls raced
     = [RaydiumLaunchpadService.Finished; RaydiumLaunchpadService.Finished].
Proof. vm_compute. repeat split. Qed.

(** * Further properties *)

(** ** The curve of executeTokenTrade *)

(** X1.  In exact arithmetic the curve block keeps the product of the
    reserves: after a buy, and after a sell, [newSolReserves *
    newTokenReserves] is [currentSolReserves * currentTokenReserves],
    provided the reserve that receives the amount does not become zero. *)
Theorem X1_constant_product (sol tok amountIn : Q) (isBuy : bool) :
  ~ (if isBuy then sol else tok) + amountIn == 0 ->
  let c := ServerSolanaService.bondingCurve sol tok amountIn isBuy in
  ServerSolanaService.c_newSolReserves c * ServerSolanaService.c_newTokenReserves c
  == sol * tok.
Proof.
  intros Hden c; subst c. unfold ServerSolanaService.bondingCurve.
  destruct isBuy;
    cbn [ServerSolanaService.c_newSolReserves ServerSolanaService.c_newTokenReserves];
    exact_arith; field; exact Hden.
Qed.

Lemma X1_constant_product_witness :
  let c := ServerSolanaService.bondingCurve (30 : Q) 1073000000 10 true in
  ServerSolanaService.c_newSolReserves c * ServerSolanaService.c_newTokenReserves c
  == 30 * 1073000000.
Proof.
  apply (@X1_constant_product 30 1073000000 10 true). vm_compute. discriminate.
Defined.

Lemma quotient_below (k d d' : Q) :
  0 <= k -> 0 < d -> d <= d' -> k / d' <= k / d.
Proof.
  intros Hk Hd Hdd'.
  assert (Hd' : 0 < d') by lra.
  assert (Hq : 0 <= k / d).
  { apply Qle_shift_div_l; [exact Hd|]. lra. }
  apply Qle_shift_div_r; [exact Hd'|].
  assert (E : k == k / d * d) by (field; lra).
  rewrite E at 1. nra.
Qed.

Lemma quotient_positive (x y : Q) : 0 < x -> 0 < y -> 0 < x / y.
Proof.
  intros Hx Hy. apply Qlt_shift_div_l; [exact Hy|]. lra.
Qed.

Lemma quotient_negative (x y : Q) : 0 < x -> y < 0 -> x / y < 0.
Proof.
  intros Hx Hy.
  assert (E : x / y == - (x / - y)) by (field; lra).
  assert (Hp : 0 < x / - y) by (apply quotient_positive; lra).
  rewrite E. lra.
Qed.

Lemma bondingCurve_buy_reserves (sol tok amountIn : Q) :
  let c := ServerSolanaService.bondingCurve sol tok amountIn true in
  ServerSolanaService.c_newSolReserves c == sol + amountIn
  /\ ServerSolanaService.c_newTokenReserves c == (tok * sol) / (sol + amountIn).
Proof.
  unfold ServerSolanaService.bondingCurve;
    cbn [ServerSolanaService.c_newSolReserves ServerSolanaService.c_newTokenReserves].
  exact_arith. split; [reflexivity|].
  unfold Qdiv. rewrite (Qmult_comm sol tok). reflexivity.
Qed.

(** X2.  In exact arithmetic, with positive reserves: a buy of a positive
    amount gives a positive output below the token reserve, raises the
    SOL reserve and lowers the token reserve without emptying it, and a
    larger buy gives at least as much; a sell of a positive amount gives a
    positive output below the SOL reserve. *)
Theorem X2_curve_outputs (sol tok amountIn larger : Q) :
  0 < sol -> 0 < tok -> 0 < amountIn -> amountIn <= larger ->
  let buy := ServerSolanaService.bondingCurve sol tok amountIn true in
  let more := ServerSolanaService.bondingCurve sol tok larger true in
  let sell := ServerSolanaService.bondingCurve sol tok amountIn false in
  0 < ServerSolanaService.c_amountOut buy
  /\ ServerSolanaService.c_amountOut buy < tok
  /\ sol < ServerSolanaService.c_newSolReserves buy
  /\ 0 < ServerSolanaService.c_newTokenReserves buy
  /\ ServerSolanaService.c_newTokenReserves buy < tok
  /\ ServerSolanaService.c_amountOut buy <= ServerSolanaService.c_amountOut more
  /\ 0 < ServerSolanaService.c_amountOut sell
  /\ ServerSolanaService.c_amountOut sell < sol.
Proof.
  intros Hsol Htok Hin Hle buy more sell; subst buy more sell.
  destruct (bondingCurve_buy_reserves sol tok amountIn) as [Es Et].
  cbv zeta in Es, Et. rewrite Es, Et, !bondingCurve_buy_exact, bondingCurve_sell_exact.
  assert (Hk : 0 < tok * sol) by nra.
  assert (Hq : 0 < tok * sol / (sol + amountIn)) by (apply quotient_positive; lra).
  assert (Hq' : tok * sol / (sol + amountIn) < tok).
  { apply Qlt_shift_div_r; [lra|]. nra. }
  assert (Hmore : tok * sol / (sol + larger) <= tok * sol / (sol + amountIn)).
  { apply quotient_below; lra. }
  assert (Hs : 0 < tok * sol / (tok + amountIn)) by (apply quotient_positive; lra).
  assert (Hs' : tok * sol / (tok + amountIn) < sol).
  { apply Qlt_shift_div_r; [lra|]. nra. }
  repeat split; lra.
Qed.

Lemma X2_curve_outputs_witness :
  let buy := ServerSolanaService.bondingCurve (30 : Q) 1073000000 10 true in
  let more := ServerSolanaService.bondingCurve (30 : Q) 1073000000 20 true in
  let sell := ServerSolanaService.bondingCurve (30 : Q) 1073000000 10 false in
  0 < ServerSolanaService.c_amountOut buy
  /\ ServerSolanaService.c_amountOut buy < 1073000000
  /\ 30 < ServerSolanaService.c_newSolReserves buy
  /\ 0 < ServerSolanaService.c_newTokenReserves buy
  /\ ServerSolanaService.c_newTokenReserves buy < 1073000000
  /\ ServerSolanaService.c_amountOut buy <= ServerSolanaService.c_amountOut more
  /\ 0 < ServerSolanaService.c_amountOut sell
  /\ ServerSolanaService.c_amountOut sell < 30.
Proof.
  apply (@X2_curve_outputs 30 1073000000 10 20); vm_compute; congruence.
Defined.

Lemma bondingCurve_default_buy (amountIn : Q) :
  let c := ServerSolanaService.bondingCurve
             ServerSolanaService.INITIAL_VIRTUAL_SOL
             ServerSolanaService.INITIAL_VIRTUAL_TOKENS amountIn true in
  ServerSolanaService.c_newPrice c
  == (30 + amountIn) / (1000000000 - 32190000000 / (30 + amountIn))
  /\ ServerSolanaService.c_isGraduated c = Qle_bool 69000 (Qred (30 + amountIn)).
Proof.
  unfold ServerSolanaService.bondingCurve, ServerSolanaService.INITIAL_VIRTUAL_SOL,
    ServerSolanaService.INITIAL_VIRTUAL_TOKENS, ServerSolanaService.TOTAL_SUPPLY,
    ServerSolanaService.GRADUATION_THRESHOLD, int;
    cbn [ServerSolanaService.c_newPrice ServerSolanaService.c_isGraduated].
  split.
  - exact_arith. change (inject_Z 30) with (30 : Q).
    change (inject_Z 1000000000) with (1000000000 : Q).
    assert (E : 30 * inject_Z 1073000000 == 32190000000) by reflexivity.
    rewrite E. reflexivity.
  - reflexivity.
Qed.

(** X3.  A successful buy through [executeTokenTrade] always starts from
    the initial virtual reserves, where the token reserve (1,073,000,000)
    exceeds the total supply (1,000,000,000).  In exact arithmetic the new
    price it returns is therefore negative for every buy below 2.19 SOL
    and positive above, and the trade is flagged as graduated exactly
    when the amount of this one buy reaches 68,970 SOL. *)
Theorem X3_price_sign_and_graduation
        (env : @ServerSolanaService.SolanaEnv Q) (mint wallet : string) (amountIn : Q) :
  let r := ServerSolanaService.executeTokenTrade env mint amountIn true wallet in
  ServerSolanaService.success r = true ->
  0 < amountIn ->
  (amountIn < 219 # 100 -> ServerSolanaService.newPrice r < 0)
  /\ (219 # 100 < amountIn -> 0 < ServerSolanaService.newPrice r)
  /\ (ServerSolanaService.isGraduated r = true <-> 68970 <= amountIn).
Proof.
  intros r Hok Hin.
  destruct (@executeTokenTrade_figures _ _ env mint amountIn true wallet Hok)
    as (_ & _ & Hprice & Hgrad & _).
  fold r in Hprice, Hgrad. rewrite Hprice, Hgrad. clear r Hok Hprice Hgrad.
  destruct (bondingCurve_default_buy amountIn) as [Ep Eg]. cbv zeta in Ep, Eg.
  rewrite Ep, Eg.
  assert (Hq : 0 < 32190000000 / (30 + amountIn)) by (apply quotient_positive; lra).
  split; [|split].
  - intros Hsmall. apply quotient_negative; [lra|].
    assert (1000000000 < 32190000000 / (30 + amountIn)).
    { apply Qlt_shift_div_l; [lra|]. lra. }
    lra.
  - intros Hlarge. apply quotient_positive; [lra|].
    assert (32190000000 / (30 + amountIn) < 1000000000).
    { apply Qlt_shift_div_r; [lra|]. lra. }
    lra.
  - rewrite Qle_bool_iff, Qred_correct. split; intros; lra.
Qed.

Lemma X3_price_sign_and_graduation_witness :
  let r := ServerSolanaService.executeTokenTrade Sample.solanaUp Sample.mintKey
             (1 : Q) true Sample.wallet in
  ServerSolanaService.newPrice r < 0
  /\ ~ ServerSolanaService.isGraduated r = true.
Proof.
  assert (Hok : ServerSolanaService.success
                  (ServerSolanaService.executeTokenTrade Sample.solanaUp Sample.mintKey
                     (1 : Q) true Sample.wallet) = true) by (vm_compute; reflexivity).
  assert (Hin : 0 < 1) by reflexivity.
  destruct (@X3_price_sign_and_graduation Sample.solanaUp Sample.mintKey Sample.wallet
              1 Hok Hin)
    as (Hneg & _ & Hgrad).
  split.
  - apply Hneg. reflexivity.
  - intros Hg. apply Hgrad in Hg. revert Hg. vm_compute. intros Hg; apply Hg; reflexivity.
Defined.

(** ** NewBondingCurveService *)

(** The first round of the loop from 800M tokens: the price is 200 SOL a
    token, a chunk of 1000 costs 200,000 SOL, and less money than that
    buys whole tokens at 200 SOL each. *)
Lemma tokensLoop_small_buy (fuel : nat) (amountIn : Q) :
  0 < amountIn -> amountIn < 200000 ->
  NewBondingCurveService.tokensLoop (S (S fuel)) amountIn (int 0) (int 800000000)
  = Some (Exact.add (int 0) (Exact.floor (Exact.div amountIn 200))).
Proof.
  intros Hpos Hsmall. cbn [NewBondingCurveService.tokensLoop].
  assert (E1 : (amountIn >? int 0)%js = true).
  { cbn [ltb Q_JsNumber]. unfold Exact.ltb. apply negb_true_iff.
    destruct (Qle_bool amountIn (int 0)) eqn:E; [|reflexivity].
    apply Qle_bool_iff in E. unfold int in E. cbn [lit Q_JsNumber] in E.
    rewrite exact_int in E. unfold inject_Z in E. exfalso; lra. }
  assert (E2 : ((int 800000000 : Q) >? int 0)%js = true) by reflexivity.
  rewrite E1, E2. cbn [andb].
  assert (Eprice : NewBondingCurveService.calculatePrice (int 800000000 : Q) = 200)
    by reflexivity.
  assert (Emin : min (int 1000) (int 800000000 : Q) = 1000) by reflexivity.
  rewrite Eprice, Emin.
  assert (Ecost : ((200 : Q) * 1000)%js = 200000) by reflexivity.
  rewrite Ecost.
  assert (E3 : ((200000 : Q) <=? amountIn)%js = false).
  { cbn [leb Q_JsNumber]. destruct (Qle_bool 200000 amountIn) eqn:E; [|reflexivity].
    apply Qle_bool_iff in E. exfalso; lra. }
  rewrite E3.
  assert (E4 : ((int 0 : Q) >? int 0)%js = false) by reflexivity.
  rewrite E4. cbn [andb]. reflexivity.
Qed.

Lemma floor_of_small (x : Q) : 0 <= x -> x < 1 -> Qfloor x = 0%Z.
Proof.
  intros H0 H1.
  pose proof (Qfloor_le x) as Hle. pose proof (Qlt_floor x) as Hlt.
  assert (Hlo : (0 <= Qfloor x)%Z).
  { apply (Qfloor_resp_le 0 x) in H0. exact H0. }
  assert (Hhi : (Qfloor x < 1)%Z).
  { rewrite Zlt_Qlt. apply Qle_lt_trans with x; assumption. }
  lia.
Qed.

(** X4.  In exact arithmetic [NewBondingCurveService] prices every buy at
    200 SOL a token: a buy of less than 200,000 SOL whose transfer is
    built succeeds with [floor (amountIn / 200)] tokens, so a buy of less
    than 200 SOL succeeds with no tokens at all.  It is flagged as
    graduated exactly when the amount of this one buy reaches 53.5 SOL. *)
Theorem X4_new_curve_buy (buffer mint wallet : string) (amountIn : Q) :
  0 < amountIn -> amountIn < 200000 ->
  exists r,
    NewBondingCurveService.executeBondingCurveTrade (inl buffer)
      {| bc_tokenMint := mint; bc_amountIn := amountIn; bc_isBuy := true;
         bc_walletAddress := wallet |} = Some r
    /\ bc_success r = true
    /\ bc_tokensAmount r == inject_Z (Qfloor (amountIn / 200))
    /\ (amountIn < 200 -> bc_tokensAmount r == 0)
    /\ (bc_isGraduated r = true <-> 107 # 2 <= amountIn).
Proof.
  intros Hpos Hsmall.
  unfold NewBondingCurveService.executeBondingCurveTrade,
    NewBondingCurveService.calculateTokensForSOL. cbn [negb bc_isBuy bc_amountIn].
  replace (Z.to_nat 800002) with (S (S (Z.to_nat 800000))) by lia.
  rewrite (tokensLoop_small_buy _ Hpos Hsmall).
  eexists. split; [reflexivity|]. split; [reflexivity|].
  cbn [bc_tokensAmount bc_isGraduated].
  assert (Etok : Exact.add (int 0) (Exact.floor (Exact.div amountIn 200))
                 == inject_Z (Qfloor (amountIn / 200))).
  { rewrite exact_add. unfold int; cbn [lit Q_JsNumber]. rewrite exact_int.
    unfold Exact.floor. rewrite exact_div. apply Qplus_0_l. }
  split; [exact Etok|]. split.
  - intros Hless. rewrite Etok.
    assert (0 <= amountIn / 200) by (apply Qle_shift_div_l; lra).
    assert (amountIn / 200 < 1) by (apply Qlt_shift_div_r; lra).
    rewrite floor_of_small by assumption. reflexivity.
  - unfold NewBondingCurveService.GRADUATION_THRESHOLD, int.
    cbn [leb lit add Q_JsNumber]. rewrite Qle_bool_iff.
    rewrite exact_int, exact_add, exact_lit.
    change (inject_Z 69) with (69 : Q).
    assert (E : inject_Z 155 / inject_Z (10 ^ Z.of_nat 1) == 31 # 2) by reflexivity.
    rewrite E. split; intros; lra.
Qed.

Lemma X4_new_curve_buy_witness :
  exists r : BondingCurveResult Q,
    NewBondingCurveService.executeBondingCurveTrade (inl "AQAB"%string)
      {| bc_tokenMint := "mint"%string; bc_amountIn := 10; bc_isBuy := true;
         bc_walletAddress := "wallet"%string |} = Some r
    /\ bc_success r = true
    /\ bc_tokensAmount r == 0.
Proof.
  assert (Hpos : 0 < 10) by reflexivity.
  assert (Hsmall : 10 < 200000) by reflexivity.
  destruct (@X4_new_curve_buy "AQAB"%string "mint"%string "wallet"%string 10
              Hpos Hsmall) as (r & Hrun & Hok & _ & Hzero & _).
  exists r. split; [exact Hrun|]. split; [exact Hok|]. apply Hzero. reflexivity.
Defined.

(** ** SimpleRaydiumTrading *)

Lemma calculateTokensOut_exact (solAmount : Q) :
  SimpleRaydiumTrading.calculateTokensOut solAmount
  = inject_Z (Qfloor (Exact.mul solAmount
       (Exact.div 25 (Exact.add 1 (Exact.mul (Exact.div (Exact.add (31 # 2) solAmount) 69)
                                              (1 # 2)))))).
Proof. reflexivity. Qed.

Lemma simple_rate (s : Q) :
  0 <= s ->
  Exact.mul s (Exact.div 25 (Exact.add 1 (Exact.mul (Exact.div (Exact.add (31 # 2) s) 69)
                                                     (1 # 2))))
  == 3450 * s / ((307 # 2) + s).
Proof.
  intros Hs. exact_arith. field. split; lra.
Qed.

(** X5.  In exact arithmetic, for every amount that is not negative, the
    quote of [SimpleRaydiumTrading] is a whole number of tokens between 0
    and [3450 * solAmount / (153.5 + solAmount)]: at most 22.5 tokens
    a SOL and fewer than 3450 tokens in all, however much is paid.  The
    price impact it reports lies between 0 and 5.  [executeTrade] charges
    for the same figures. *)
Theorem X5_simple_quote_bounds (solAmount : Q) (buffer mint wallet : string) :
  0 <= solAmount ->
  let quote := SimpleRaydiumQuote.getTradeQuote solAmount in
  let trade :=
    SimpleRaydiumTrading.executeTrade (inl buffer)
      {| SimpleRaydiumTrading.tokenMint := mint;
         SimpleRaydiumTrading.amountIn := solAmount;
         SimpleRaydiumTrading.walletAddress := wallet |} in
  (exists n : Z, SimpleRaydiumQuote.tokensOut quote = inject_Z n /\ (0 <= n)%Z)
  /\ SimpleRaydiumQuote.tokensOut quote <= 3450 * solAmount / ((307 # 2) + solAmount)
  /\ SimpleRaydiumQuote.tokensOut quote <= (45 # 2) * solAmount
  /\ SimpleRaydiumQuote.tokensOut quote < 3450
  /\ 0 <= SimpleRaydiumQuote.priceImpact quote
  /\ SimpleRaydiumQuote.priceImpact quote <= 5
  /\ SimpleRaydiumTrading.tokensOut trade = SimpleRaydiumQuote.tokensOut quote
  /\ SimpleRaydiumTrading.priceImpact trade = SimpleRaydiumQuote.priceImpact quote
  /\ SimpleRaydiumTrading.solTransferred trade = solAmount.
Proof.
  intros Hs quote trade; subst quote trade.
  cbn [SimpleRaydiumQuote.getTradeQuote SimpleRaydiumQuote.tokensOut
         SimpleRaydiumQuote.priceImpact SimpleRaydiumTrading.executeTrade
         SimpleRaydiumTrading.tokensOut SimpleRaydiumTrading.priceImpact
         SimpleRaydiumTrading.solTransferred SimpleRaydiumTrading.amountIn].
  rewrite calculateTokensOut_exact.
  set (x := Exact.mul solAmount _).
  assert (Ex : x == 3450 * solAmount / ((307 # 2) + solAmount)) by (apply simple_rate; exact Hs).
  assert (Hx0 : 0 <= x).
  { rewrite Ex. apply Qle_shift_div_l; lra. }
  assert (Hfloor : inject_Z (Qfloor x) <= x) by apply Qfloor_le.
  assert (Hrate : 3450 * solAmount / ((307 # 2) + solAmount) <= (45 # 2) * solAmount).
  { apply Qle_shift_div_r; [lra|]. nra. }
  assert (Hcap : 3450 * solAmount / ((307 # 2) + solAmount) < 3450).
  { apply Qlt_shift_div_r; lra. }
  split.
  { exists (Qfloor x). split; [reflexivity|].
    apply (Qfloor_resp_le 0 x) in Hx0. exact Hx0. }
  split; [lra|]. split; [lra|]. split; [lra|].
  assert (Himpact : SimpleRaydiumTrading.calculatePriceImpact solAmount
                    = Exact.min (Exact.mul solAmount (1 # 10)) 5) by reflexivity.
  assert (Hbounds : 0 <= SimpleRaydiumTrading.calculatePriceImpact solAmount
                    /\ SimpleRaydiumTrading.calculatePriceImpact solAmount <= 5).
  { rewrite Himpact. unfold Exact.min.
    destruct (Qle_bool (Exact.mul solAmount (1 # 10)) 5) eqn:E.
    - apply Qle_bool_iff in E. rewrite exact_mul in E. rewrite exact_mul.
      split; lra.
    - split; lra. }
  destruct Hbounds as [Hlo Hhi].
  split; [exact Hlo|]. split; [exact Hhi|]. repeat split.
Qed.

Lemma X5_simple_quote_bounds_witness :
  SimpleRaydiumQuote.tokensOut (SimpleRaydiumQuote.getTradeQuote (10 : Q)) < 3450
  /\ SimpleRaydiumQuote.priceImpact (SimpleRaydiumQuote.getTradeQuote (10 : Q)) <= 5.
Proof.
  assert (H10 : 0 <= 10) by (vm_compute; congruence).
  destruct (@X5_simple_quote_bounds 10 "AQAB"%string "mint"%string "wallet"%string H10)
    as (_ & _ & _ & Hcap & _ & Himpact & _).
  split; [exact Hcap|exact Himpact].
Defined.

(** ** RaydiumTradingService and PumpTradingEngine *)

(** X6.  A trade executed by [RaydiumTradingService] agrees with the quote
    for it: the reserve update it posts carries the quoted output and it
    reports the quoted price impact.  That impact does not depend on the
    side: a sell of [n] tokens reports, like a buy of [n] SOL,
    [n / (quoteReserve + n) * 100].  In exact arithmetic it lies strictly
    between 0 and 100 for a positive amount and quote reserve, and the
    amount the trade returns is the quoted output times
    [1 - slippage / 100]. *)
Theorem X6_execution_matches_quote :
  (forall (num : Type) (N : JsNumber num)
          (pool : @RaydiumTradingService.PoolInfo num)
          (params : @RaydiumTradingService.TradeParams num) (sig : string),
      let env := {| RaydiumTradingService.walletConnected := true;
                    RaydiumTradingService.poolInfo := Some pool;
                    RaydiumTradingService.confirmed := inl sig |} in
      let r := RaydiumTradingService.executeTrade env params in
      exists quote,
        RaydiumTradingService.getTradeQuote (Some pool)
          (RaydiumTradingService.p_amountIn params)
          (RaydiumTradingService.p_isBuy params) = Some quote
        /\ List.map RaydiumTradingService.u_amountOut (snd r)
           = [RaydiumTradingService.q_amountOut quote]
        /\ RaydiumTradingService.priceImpact (fst r)
           = RaydiumTradingService.q_priceImpact quote
        /\ RaydiumTradingService.q_priceImpact quote
           = ((RaydiumTradingService.p_amountIn params
               / (RaydiumTradingService.quoteReserve pool
                  + RaydiumTradingService.p_amountIn params)) * int 100)%js
        /\ RaydiumTradingService.amountOut (fst r)
           = (RaydiumTradingService.q_amountOut quote
              * (int 1 - RaydiumTradingService.p_slippage params / int 100))%js)
  /\ (forall (amountIn reserveIn reserveOut : Q) (isBuy : bool),
         0 < amountIn -> 0 < reserveIn -> 0 < reserveOut ->
         0 < RaydiumTradingService.calculatePriceImpact amountIn reserveIn reserveOut isBuy
         /\ RaydiumTradingService.calculatePriceImpact amountIn reserveIn reserveOut isBuy
            < 100).
Proof.
  split.
  - intros num N pool params sig env r; subst env r.
    unfold RaydiumTradingService.executeTrade, RaydiumTradingService.getTradeQuote.
    cbn [RaydiumTradingService.walletConnected RaydiumTradingService.poolInfo
           RaydiumTradingService.confirmed negb fst snd].
    eexists. split; [reflexivity|].
    cbn [RaydiumTradingService.q_amountOut RaydiumTradingService.q_priceImpact
           RaydiumTradingService.priceImpact RaydiumTradingService.amountOut
           List.map RaydiumTradingService.u_amountOut].
    split; [reflexivity|]. split; [reflexivity|]. split; [|reflexivity].
    unfold RaydiumTradingService.calculatePriceImpact.
    destruct (RaydiumTradingService.p_isBuy params); reflexivity.
  - intros amountIn reserveIn reserveOut isBuy Hin Hri Hro.
    unfold RaydiumTradingService.calculatePriceImpact, int.
    destruct isBuy; cbn [lit Q_JsNumber]; exact_arith;
      change (inject_Z 100) with (100 : Q).
    + assert (0 < amountIn / (reserveIn + amountIn)) by (apply quotient_positive; lra).
      assert (amountIn / (reserveIn + amountIn) < 1) by (apply Qlt_shift_div_r; lra).
      split; lra.
    + assert (0 < amountIn / (reserveOut + amountIn)) by (apply quotient_positive; lra).
      assert (amountIn / (reserveOut + amountIn) < 1) by (apply Qlt_shift_div_r; lra).
      split; lra.
Qed.

Lemma X6_execution_matches_quote_witness :
  0 < RaydiumTradingService.calculatePriceImpact (10 : Q) 30 1073000000 true
  /\ RaydiumTradingService.calculatePriceImpact (10 : Q) 30 1073000000 true < 100.
Proof.
  apply (proj2 X6_execution_matches_quote 10 30 1073000000 true); reflexivity.
Defined.

Lemma pump_quote_prices (b q a : Q) (cp mc g : Q) :
  let pool := {| PumpTradingEngine.baseReserve := b;
                 PumpTradingEngine.quoteReserve := q;
                 PumpTradingEngine.currentPrice := cp;
                 PumpTradingEngine.marketCap := mc;
                 PumpTradingEngine.graduationProgress := g |} in
  0 < b -> 0 < q -> 0 < a ->
  (exists buy, PumpTradingEngine.getTradeQuote (Some pool) a true = Some buy
               /\ PumpTradingEngine.newPrice buy == (q + a) * (q + a) / (b * q))
  /\ (exists sell, PumpTradingEngine.getTradeQuote (Some pool) a false = Some sell
                   /\ PumpTradingEngine.newPrice sell == b * q / ((b + a) * (b + a))).
Proof.
  intros pool Hb Hq Ha; subst pool.
  assert (Hbq : 0 < b * q) by nra.
  split; unfold PumpTradingEngine.getTradeQuote;
    cbn [PumpTradingEngine.baseReserve PumpTradingEngine.quoteReserve];
    eexists; (split; [reflexivity|]); cbn [PumpTradingEngine.newPrice];
    exact_arith; field; repeat split; try lra; nra.
Qed.

(** X7.  In exact arithmetic, for positive reserves and a positive amount,
    the price [PumpTradingEngine.getTradeQuote] quotes for after the trade
    is above the reserve ratio [quoteReserve / baseReserve] for a buy, it
    is [(quoteReserve + amountIn)^2 / (baseReserve * quoteReserve)], and
    below it for a sell. *)
Theorem X7_quoted_price_moves (pool : @PumpTradingEngine.PoolInfo Q) (amountIn : Q) :
  0 < PumpTradingEngine.baseReserve pool ->
  0 < PumpTradingEngine.quoteReserve pool ->
  0 < amountIn ->
  let spot := PumpTradingEngine.quoteReserve pool / PumpTradingEngine.baseReserve pool in
  (exists buy,
      PumpTradingEngine.getTradeQuote (Some pool) amountIn true = Some buy
      /\ PumpTradingEngine.newPrice buy
         == (PumpTradingEngine.quoteReserve pool + amountIn)
            * (PumpTradingEngine.quoteReserve pool + amountIn)
            / (PumpTradingEngine.baseReserve pool * PumpTradingEngine.quoteReserve pool)
      /\ spot < PumpTradingEngine.newPrice buy)
  /\ (exists sell,
         PumpTradingEngine.getTradeQuote (Some pool) amountIn false = Some sell
         /\ PumpTradingEngine.newPrice sell < spot).
Proof.
  destruct pool as [b q cp mc g]. cbn [PumpTradingEngine.baseReserve
                                         PumpTradingEngine.quoteReserve].
  intros Hb Hq Ha. cbv zeta.
  destruct (@pump_quote_prices b q amountIn cp mc g Hb Hq Ha)
    as [(buy & Hbuy & Ebuy) (sell & Hsell & Esell)].
  assert (Hbq : 0 < b * q) by nra.
  assert (Hspot : 0 < q / b) by (apply quotient_positive; assumption).
  split.
  - exists buy. split; [exact Hbuy|]. split; [exact Ebuy|]. rewrite Ebuy.
    apply Qlt_shift_div_l; [exact Hbq|].
    assert (E : q / b * (b * q) == q * q) by (field; lra).
    rewrite E. nra.
  - exists sell. split; [exact Hsell|]. rewrite Esell.
    apply Qlt_shift_div_r; [nra|].
    assert (E : q / b * ((b + amountIn) * (b + amountIn))
                == q * ((b + amountIn) * (b + amountIn)) / b) by (field; lra).
    rewrite E. apply Qlt_shift_div_l; [exact Hb|]. nra.
Qed.

Lemma X7_quoted_price_moves_witness :
  exists buy,
    PumpTradingEngine.getTradeQuote (Some (@Sample.freshQuotedPool Q _)) 10 true
    = Some buy
    /\ 30 / 1073000000 < PumpTradingEngine.newPrice buy.
Proof.
  assert (Hb : 0 < PumpTradingEngine.baseReserve (@Sample.freshQuotedPool Q _))
    by reflexivity.
  assert (Hq : 0 < PumpTradingEngine.quoteReserve (@Sample.freshQuotedPool Q _))
    by reflexivity.
  assert (Ha : 0 < 10) by reflexivity.
  destruct (@X7_quoted_price_moves Sample.freshQuotedPool 10 Hb Hq Ha)
    as [(buy & Hbuy & _ & Hup) _].
  exists buy. split; [exact Hbuy|exact Hup].
Defined.

(** ** Maps *)

Section JsMapFacts.
Variables (K V : Type) (eqb : K -> K -> bool).
Hypothesis eqb_eq : forall a b, eqb a b = true <-> a = b.

Lemma eqb_same (k : K) : eqb k k = true.
Proof. apply eqb_eq. reflexivity. Qed.

Lemma eqb_other (k k' : K) : k <> k' -> eqb k k' = false.
Proof.
  intros Hne. destruct (eqb k k') eqn:E; [|reflexivity].
  apply eqb_eq in E. contradiction.
Qed.

Lemma get_set_same (k : K) (v : V) (m : JsMap.t K V) :
  JsMap.get eqb k (JsMap.set eqb k v m) = Some v.
Proof.
  induction m as [|[k' v'] m IH]; cbn.
  - rewrite eqb_same. reflexivity.
  - destruct (eqb k' k) eqn:E; cbn; rewrite E; [reflexivity|exact IH].
Qed.

Lemma get_set_other (k k' : K) (v : V) (m : JsMap.t K V) :
  k <> k' -> JsMap.get eqb k' (JsMap.set eqb k v m) = JsMap.get eqb k' m.
Proof.
  intros Hne. induction m as [|[k0 v0] m IH]; cbn.
  - rewrite eqb_other by exact Hne. reflexivity.
  - destruct (eqb k0 k) eqn:E; cbn.
    + apply eqb_eq in E. subst k0. rewrite eqb_other by exact Hne. reflexivity.
    + destruct (eqb k0 k'); [reflexivity|exact IH].
Qed.

Lemma get_absent (k : K) (m : JsMap.t K V) :
  ~ In k (List.map fst m) -> JsMap.get eqb k m = None.
Proof.
  induction m as [|[k' v'] m IH]; cbn; [reflexivity|].
  intros Hnot. rewrite eqb_other by (intros ->; apply Hnot; left; reflexivity).
  apply IH. intros Hin. apply Hnot. right. exact Hin.
Qed.

Lemma get_present (k : K) (v : V) (m : JsMap.t K V) :
  JsMap.get eqb k m = Some v -> In (k, v) m.
Proof.
  induction m as [|[k' v'] m IH]; cbn; [discriminate|].
  destruct (eqb k' k) eqn:E.
  - apply eqb_eq in E. subst k'. intros [= ->]. left. reflexivity.
  - intros Hget. right. apply IH. exact Hget.
Qed.

Lemma set_absent (k : K) (v : V) (m : JsMap.t K V) :
  JsMap.get eqb k m = None -> JsMap.set eqb k v m = m ++ [(k, v)].
Proof.
  induction m as [|[k' v'] m IH]; cbn; [reflexivity|].
  destruct (eqb k' k); [discriminate|]. intros Hget. rewrite IH by exact Hget.
  reflexivity.
Qed.

Lemma set_keys_present (k : K) (v v0 : V) (m : JsMap.t K V) :
  JsMap.get eqb k m = Some v0 ->
  List.map fst (JsMap.set eqb k v m) = List.map fst m.
Proof.
  induction m as [|[k' v'] m IH]; cbn; [discriminate|].
  destruct (eqb k' k); cbn; [reflexivity|].
  intros Hget. rewrite IH by exact Hget. reflexivity.
Qed.

End JsMapFacts.

(** ** The storage *)

(** X8.  [updateToken] on an id that is not stored returns [undefined] and
    changes nothing.  On a stored id it returns the token with the named
    fields replaced, that is the token [getToken] gives for that id
    afterwards; every other token is as before, and trades, portfolios and
    pools are untouched.  No field is protected: updates that name an id or
    a mint address replace those too, and the token stays stored under the
    id it was looked up by, whatever its own id then is. *)
Theorem X8_updateToken :
  forall (num : Type) (N : JsNumber num) (st : @MemStorage.Storage num)
         (id : Z) (updates : @MemStorage.TokenUpdates num),
    let r := MemStorage.updateToken st id updates in
    match MemStorage.getToken st id with
    | None => r = (None, st)
    | Some token =>
        fst r = Some (MemStorage.merge token updates)
        /\ MemStorage.getToken (snd r) id = Some (MemStorage.merge token updates)
        /\ (forall other, other <> id ->
              MemStorage.getToken (snd r) other = MemStorage.getToken st other)
        /\ List.map fst (MemStorage.tokens (snd r)) = List.map fst (MemStorage.tokens st)
        /\ MemStorage.t_id (MemStorage.merge token updates)
           = match MemStorage.up_id updates with
             | Some named => named
             | None => MemStorage.t_id token
             end
        /\ MemStorage.t_mintAddress (MemStorage.merge token updates)
           = match MemStorage.up_mintAddress updates with
             | Some named => named
             | None => MemStorage.t_mintAddress token
             end
        /\ MemStorage.trades (snd r) = MemStorage.trades st
        /\ MemStorage.portfolios (snd r) = MemStorage.portfolios st
        /\ MemStorage.pools (snd r) = MemStorage.pools st
    end.
Proof.
  intros num N st id updates r; subst r.
  unfold MemStorage.updateToken, MemStorage.getToken.
  destruct (JsMap.get Z.eqb id (MemStorage.tokens st)) as [token|] eqn:Hget;
    [|reflexivity].
  cbn [fst snd MemStorage.withTokens MemStorage.tokens MemStorage.trades
         MemStorage.portfolios MemStorage.pools].
  split; [reflexivity|].
  split; [apply (get_set_same Z.eqb Z.eqb_eq)|].
  split.
  { intros other Hother. apply (get_set_other Z.eqb Z.eqb_eq). congruence. }
  split; [exact (set_keys_present Z.eqb _ _ _ Hget)|].
  repeat split.
Qed.

(** ** The trade handler and the trade log *)

Section LedgerFacts.
Context {num : Type} `{JsNumber num}.

Local Abbreviation Storage := (@MemStorage.Storage num).

Lemma createTrade_ledger (st : Storage) (insertTrade : MemStorage.InsertTrade) (now : Z) :
  let r := MemStorage.createTrade st insertTrade now in
  MemStorage.currentTradeId (snd r) = (MemStorage.currentTradeId st + 1)%Z
  /\ MemStorage.portfolios (snd r) = MemStorage.portfolios st
  /\ MemStorage.tr_user (fst r) = MemStorage.i_user insertTrade
  /\ MemStorage.tr_amount (fst r) = MemStorage.i_amount insertTrade
  /\ MemStorage.tr_tokensAmount (fst r) = MemStorage.i_tokensAmount insertTrade
  /\ MemStorage.tr_price (fst r) = MemStorage.i_price insertTrade
  /\ MemStorage.tr_createdAt (fst r) = now.
Proof.
  unfold MemStorage.createTrade.
  match goal with
  | |- context [MemStorage.getToken ?s ?i] => destruct (MemStorage.getToken s i)
  end; cbn [fst snd].
  - match goal with
    | |- context [MemStorage.updateToken ?s ?i ?u] =>
        destruct (updateToken_keeps s i u) as (_ & _ & Hp & Hc)
    end.
    rewrite Hp, Hc. cbn. repeat split.
  - cbn. repeat split.
Qed.

Lemma updatePortfolio_position (st : Storage) (user : string) (tokenId : Z)
      (amount averagePrice : num) (now : Z) :
  let r := MemStorage.updatePortfolio st user tokenId amount averagePrice now in
  StorageLookups.getPortfolioPosition (snd r) user tokenId = Some (fst r)
  /\ MemStorage.pf_amount (fst r) = amount
  /\ MemStorage.pf_averagePrice (fst r) = averagePrice
  /\ MemStorage.pf_updatedAt (fst r) = now
  /\ MemStorage.currentTradeId (snd r) = MemStorage.currentTradeId st
  /\ MemStorage.tokens (snd r) = MemStorage.tokens st.
Proof.
  unfold MemStorage.updatePortfolio, StorageLookups.getPortfolioPosition.
  destruct (JsMap.get String.eqb _ (MemStorage.portfolios st)); cbn [fst snd];
    cbn [MemStorage.portfolios MemStorage.pf_amount MemStorage.pf_averagePrice
           MemStorage.pf_updatedAt MemStorage.currentTradeId MemStorage.tokens];
    (split; [apply (get_set_same String.eqb String.eqb_eq)|repeat split]).
Qed.

(** What [recordTrade] leaves in the storage. *)
Lemma recordTrade_ledger (env : Routes.HandlerEnv) (st : Storage)
      (req : Routes.TradeRequest) (token : MemStorage.Token)
      (result : Routes.TradeOutcome) :
  exists body st',
    Routes.recordTrade env st req token result = (Routes.Json body, st')
    /\ MemStorage.tr_id (Routes.trade body) = MemStorage.currentTradeId st
    /\ MemStorage.currentTradeId st' = (MemStorage.currentTradeId st + 1)%Z
    /\ MemStorage.trades st'
       = JsMap.set Z.eqb (MemStorage.currentTradeId st) (Routes.trade body)
           (MemStorage.trades st)
    /\ MemStorage.pools st' = MemStorage.pools st
    /\ MemStorage.tr_tokenId (Routes.trade body) = MemStorage.t_id token
    /\ MemStorage.tr_user (Routes.trade body) = Routes.rq_user req
    /\ MemStorage.tr_amount (Routes.trade body) = Routes.tokensAmount body
    /\ MemStorage.tr_tokensAmount (Routes.trade body) = Routes.tokensAmount body
    /\ MemStorage.tr_price (Routes.trade body) = Routes.newPrice body
    /\ exists position,
         StorageLookups.getPortfolioPosition st' (Routes.rq_user req)
           (MemStorage.t_id token) = Some position
         /\ MemStorage.pf_amount position = Routes.tokensAmount body
         /\ MemStorage.pf_averagePrice position = Routes.newPrice body.
Proof.
  unfold Routes.recordTrade.
  match goal with
  | |- context [MemStorage.createTrade ?s ?i ?n] =>
      pose proof (createTrade_stores s i n) as Hc;
      pose proof (createTrade_ledger s i n) as Hl;
      destruct (MemStorage.createTrade s i n) as [trade st1]
  end.
  cbn [fst snd] in Hc, Hl. destruct Hc as (Ht & Hp & Htok & Hid).
  destruct Hl as (Hnext & _ & Huser & Hamount & Htokens & Hprice & _).
  cbn [MemStorage.i_user MemStorage.i_amount MemStorage.i_tokensAmount
         MemStorage.i_price MemStorage.i_tokenId] in Huser, Hamount, Htokens, Hprice, Htok.
  eexists; eexists. split; [reflexivity|].
  cbn [Routes.trade Routes.tokensAmount Routes.newPrice].
  match goal with
  | |- context [MemStorage.updatePortfolio ?s ?u ?i ?a ?p ?n] =>
      destruct (updatePortfolio_keeps s u i a p n) as (Ht2 & Hp2);
      destruct (updatePortfolio_position s u i a p n) as (Hpos & Ha & Hav & _ & Hc2 & _)
  end.
  match goal with
  | |- context [MemStorage.updateToken ?s ?i ?u] =>
      destruct (updateToken_keeps s i u) as (Ht1 & Hp1 & _ & Hc1)
  end.
  rewrite Ht2, Hp2, Ht1, Hp1, Hc2, Hc1.
  repeat (split; [assumption|]).
  eexists. split; [exact Hpos|]. split; [exact Ha|exact Hav].
Qed.

(** Either the handler answers with an error and leaves the storage as it
    was, or it goes through [recordTrade] for the token of that mint. *)
Lemma tradeHandler_cases (env : Routes.HandlerEnv) (st : Storage)
      (req : Routes.TradeRequest) :
  (snd (Routes.tradeHandler env st req) = st
   /\ forall body, fst (Routes.tradeHandler env st req) <> Routes.Json body)
  \/ exists token result,
       find (Routes.sameMint (Routes.rq_tokenMint req)) (MemStorage.getAllTokens st)
       = Some token
       /\ Routes.tradeHandler env st req = Routes.recordTrade env st req token result.
Proof.
  unfold Routes.tradeHandler.
  destruct (_ || _ || _ || _); [left; split; [reflexivity|discriminate]|].
  destruct (find _ _) as [token|]; [|left; split; [reflexivity|discriminate]].
  destruct (MemStorage.t_isGraduated token).
  - destruct (negb _); [left; split; [reflexivity|discriminate]|].
    right. eexists; eexists. split; reflexivity.
  - destruct (negb _); [left; split; [reflexivity|discriminate]|].
    right. eexists; eexists. split; reflexivity.
Qed.

Lemma keys_below_absent (X : Type) (m : JsMap.t Z X) (bound : Z) :
  Forall (fun entry => (fst entry < bound)%Z) m ->
  JsMap.get Z.eqb bound m = None.
Proof.
  intros Hall. apply (get_absent Z.eqb Z.eqb_eq).
  intros Hin. apply in_map_iff in Hin. destruct Hin as (entry & Hk & Hin).
  rewrite Forall_forall in Hall. specialize (Hall entry Hin). lia.
Qed.

Lemma tradesKeyed_fresh (st : Storage) :
  StorageLookups.tradesKeyed st ->
  JsMap.get Z.eqb (MemStorage.currentTradeId st) (MemStorage.trades st) = None.
Proof.
  intros [Hall _]. apply keys_below_absent.
  eapply Forall_impl; [|exact Hall]. cbn. intros entry [_ Hlt]. exact Hlt.
Qed.

Lemma tradesKeyed_append (st st' : Storage) (trade : MemStorage.Trade) :
  StorageLookups.tradesKeyed st ->
  MemStorage.tr_id trade = MemStorage.currentTradeId st ->
  MemStorage.currentTradeId st' = (MemStorage.currentTradeId st + 1)%Z ->
  MemStorage.trades st'
  = MemStorage.trades st ++ [(MemStorage.currentTradeId st, trade)] ->
  StorageLookups.tradesKeyed st'.
Proof.
  intros [Hall Hnodup] Hid Hnext Htrades. unfold StorageLookups.tradesKeyed.
  rewrite Htrades, Hnext. split.
  - apply Forall_app. split.
    + eapply Forall_impl; [|exact Hall]. cbn. intros entry [Hk Hlt]. split; [exact Hk|lia].
    + constructor; [|constructor]. cbn. split; [exact Hid|lia].
  - rewrite map_app. cbn. apply NoDup_app.
    + exact Hnodup.
    + constructor; [intros []|constructor].
    + intros k Hin [<-|[]]. apply in_map_iff in Hin.
      destruct Hin as (entry & Hk & Hin). rewrite Forall_forall in Hall.
      destruct (Hall entry Hin) as [_ Hlt]. lia.
Qed.

End LedgerFacts.

(** X9.  What POST /api/tokens/trade does to the storage.  The answer is
    400 "missing parameters" exactly when the mint, the user or the wallet
    address is empty or the amount is falsy.  Every answer other than the
    200 one leaves the storage as it was.  A 200 answer has stored one trade
    under the next trade id, for the token of that mint and the user of the
    request, with the answered token amount as both its [amount] and its
    [tokensAmount], and has moved the next trade id by one; the position of
    that user in that token then holds the token amount of this trade alone,
    whatever it held before; the pools are untouched. *)
Theorem X9_handler_storage :
  forall (num : Type) (N : JsNumber num) (env : @Routes.HandlerEnv num)
         (st : @MemStorage.Storage num) (req : @Routes.TradeRequest num),
    let r := Routes.tradeHandler env st req in
    (fst r = Routes.MissingParameters
     <-> Routes.nonEmpty (Routes.rq_tokenMint req) && truthy (Routes.rq_amountIn req)
         && Routes.nonEmpty (Routes.rq_user req)
         && Routes.nonEmpty (Routes.rq_walletAddress req) = false)
    /\ match fst r with
       | Routes.Json body =>
           MemStorage.tr_id (Routes.trade body) = MemStorage.currentTradeId st
           /\ MemStorage.currentTradeId (snd r) = (MemStorage.currentTradeId st + 1)%Z
           /\ MemStorage.trades (snd r)
              = JsMap.set Z.eqb (MemStorage.currentTradeId st) (Routes.trade body)
                  (MemStorage.trades st)
           /\ MemStorage.pools (snd r) = MemStorage.pools st
           /\ MemStorage.tr_user (Routes.trade body) = Routes.rq_user req
           /\ MemStorage.tr_amount (Routes.trade body) = Routes.tokensAmount body
           /\ MemStorage.tr_tokensAmount (Routes.trade body) = Routes.tokensAmount body
           /\ MemStorage.tr_price (Routes.trade body) = Routes.newPrice body
           /\ exists token position,
                find (Routes.sameMint (Routes.rq_tokenMint req))
                     (MemStorage.getAllTokens st) = Some token
                /\ MemStorage.tr_tokenId (Routes.trade body) = MemStorage.t_id token
                /\ StorageLookups.getPortfolioPosition (snd r) (Routes.rq_user req)
                     (MemStorage.t_id token) = Some position
                /\ MemStorage.pf_amount position = Routes.tokensAmount body
                /\ MemStorage.pf_averagePrice position = Routes.newPrice body
       | _ => snd r = st
       end.
Proof.
  intros num N env st req r. split.
  - subst r. unfold Routes.tradeHandler.
    destruct (Routes.nonEmpty (Routes.rq_tokenMint req));
      destruct (truthy (Routes.rq_amountIn req));
      destruct (Routes.nonEmpty (Routes.rq_user req));
      destruct (Routes.nonEmpty (Routes.rq_walletAddress req));
      cbn [negb orb andb fst]; try (split; reflexivity).
    split; [|discriminate]. intros Hmissing. exfalso. revert Hmissing.
    destruct (find _ _) as [token|]; [|discriminate].
    destruct (MemStorage.t_isGraduated token).
    + destruct (negb _); [discriminate|].
      match goal with
      | |- context [Routes.recordTrade ?e ?s ?q ?t ?o] =>
          destruct (recordTrade_ledger e s q t o) as (body & st' & -> & _)
      end.
      discriminate.
    + destruct (negb _); [discriminate|].
      match goal with
      | |- context [Routes.recordTrade ?e ?s ?q ?t ?o] =>
          destruct (recordTrade_ledger e s q t o) as (body & st' & -> & _)
      end.
      discriminate.
  - destruct (tradeHandler_cases env st req) as [[Hsame Herror]|(token & result & Hfind & Hrun)].
    + fold r in Hsame, Herror. destruct (fst r) as [| | | |body]; try exact Hsame.
      exfalso. exact (Herror body eq_refl).
    + subst r. rewrite Hrun.
      destruct (recordTrade_ledger env st req token result)
        as (body & st' & -> & Hid & Hnext & Htrades & Hpools & Htok & Huser & Hamount
            & Htokens & Hprice & position & Hpos & Ha & Hav).
      cbn [fst snd]. repeat (split; [assumption|]).
      exists token, position. repeat (split; [assumption|]). exact Hav.
Qed.

(** X10.  Over any run of trade requests the trade log only grows: when
    every stored trade sits under its own id, below the next id to hand out,
    the same holds after the run, the trades stored before are still there
    in their places, followed by at most one new trade per request, no two
    trades share an id, and the next id has moved by the number of new
    trades; the pools are untouched. *)
Theorem X10_trade_log_grows :
  forall (num : Type) (N : JsNumber num)
         (requests : list (@Routes.HandlerEnv num * @Routes.TradeRequest num))
         (st : @MemStorage.Storage num),
    StorageLookups.tradesKeyed st ->
    let st' := TradeLog.serve st requests in
    StorageLookups.tradesKeyed st'
    /\ NoDup (List.map (@MemStorage.tr_id num) (JsMap.values (MemStorage.trades st')))
    /\ MemStorage.pools st' = MemStorage.pools st
    /\ exists added,
         MemStorage.trades st' = MemStorage.trades st ++ added
         /\ (List.length added <= List.length requests)%nat
         /\ MemStorage.currentTradeId st'
            = (MemStorage.currentTradeId st + Z.of_nat (List.length added))%Z.
Proof.
  intros num N requests.
  assert (Hrun : forall (st : @MemStorage.Storage num),
             StorageLookups.tradesKeyed st ->
             StorageLookups.tradesKeyed (TradeLog.serve st requests)
             /\ MemStorage.pools (TradeLog.serve st requests) = MemStorage.pools st
             /\ exists added,
                  MemStorage.trades (TradeLog.serve st requests)
                  = MemStorage.trades st ++ added
                  /\ (List.length added <= List.length requests)%nat
                  /\ MemStorage.currentTradeId (TradeLog.serve st requests)
                     = (MemStorage.currentTradeId st + Z.of_nat (List.length added))%Z).
  { induction requests as [|[env req] requests IH]; intros st Hkeyed.
    - cbn. split; [exact Hkeyed|]. split; [reflexivity|]. exists [].
      rewrite app_nil_r. cbn. split; [reflexivity|]. split; [lia|lia].
    - cbn [TradeLog.serve fold_left fst snd].
      change (fold_left _ requests ?s) with (TradeLog.serve s requests).
      destruct (tradeHandler_cases env st req)
        as [[Hsame _]|(token & result & _ & Hstep)].
      + rewrite Hsame. destruct (IH st Hkeyed) as (Hk & Hp & added & Ht & Hlen & Hid).
        split; [exact Hk|]. split; [exact Hp|]. exists added.
        split; [exact Ht|]. split; [cbn; lia|exact Hid].
      + rewrite Hstep.
        destruct (recordTrade_ledger env st req token result)
          as (body & st1 & -> & Hid & Hnext & Htrades & Hpools & _).
        cbn [snd].
        rewrite (@set_absent _ _ Z.eqb _ _ _ (tradesKeyed_fresh Hkeyed)) in Htrades.
        assert (Hkeyed1 : StorageLookups.tradesKeyed st1)
          by (eapply tradesKeyed_append; eassumption).
        destruct (IH st1 Hkeyed1) as (Hk & Hp & added & Ht & Hlen & Hnew).
        split; [exact Hk|]. split; [congruence|].
        exists ((MemStorage.currentTradeId st, Routes.trade body) :: added).
        split; [rewrite Ht, Htrades, <- app_assoc; reflexivity|].
        split; [cbn; lia|]. rewrite Hnew, Hnext. cbn [List.length]. lia. }
  intros st Hkeyed st'. destruct (Hrun st Hkeyed) as (Hk & Hp & Hadded).
  split; [exact Hk|]. split; [|split; [exact Hp|exact Hadded]].
  destruct Hk as [Hall Hnodup]. unfold JsMap.values. fold st' in Hall, Hnodup.
  replace (List.map (@MemStorage.tr_id num) (List.map snd (MemStorage.trades st')))
    with (List.map fst (MemStorage.trades st')); [exact Hnodup|].
  rewrite map_map. apply map_ext_in. intros entry Hin.
  rewrite Forall_forall in Hall. symmetry. exact (proj1 (Hall entry Hin)).
Qed.

Lemma X10_trade_log_grows_witness :
  StorageLookups.tradesKeyed
    (TradeLog.serve (@Sample.storage Q _ true)
       [(Sample.handlerUp 1748078502000, Sample.order 1);
        (Sample.handlerUp 1748078503000, Sample.order 2)]).
Proof.
  apply (@X10_trade_log_grows Q _
           [(Sample.handlerUp 1748078502000, Sample.order 1);
            (Sample.handlerUp 1748078503000, Sample.order 2)]
           (Sample.storage true)).
  split; [constructor|constructor].
Defined.

(** ** The pool registry *)

Section RegistryFacts.
Context {num : Type} `{JsNumber num}.

Local Abbreviation Storage := (@MemStorage.Storage num).
Local Abbreviation Pool := (@MemStorage.Pool num).

Lemma find_app_first (X : Type) (p : X -> bool) (l l' : list X) :
  find p (l ++ l') = match find p l with Some x => Some x | None => find p l' end.
Proof.
  induction l as [|x l IH]; cbn; [reflexivity|].
  destruct (p x); [reflexivity|exact IH].
Qed.

Lemma set_set (K V : Type) (eqb : K -> K -> bool) (k : K) (v : V) (m : JsMap.t K V) :
  (forall a, eqb a a = true) ->
  JsMap.set eqb k v (JsMap.set eqb k v m) = JsMap.set eqb k v m.
Proof.
  intros Hrefl. induction m as [|[k' v'] m IH]; cbn.
  - rewrite Hrefl. reflexivity.
  - destruct (eqb k' k) eqn:E; cbn; rewrite E; [reflexivity|].
    rewrite IH. reflexivity.
Qed.

Lemma set_forall (K V : Type) (eqb : K -> K -> bool) (P : K * V -> Prop)
      (k : K) (v : V) (m : JsMap.t K V) :
  (forall a b, eqb a b = true <-> a = b) ->
  Forall P m -> P (k, v) -> Forall P (JsMap.set eqb k v m).
Proof.
  intros Heq Hall Hnew. induction m as [|[k' v'] m IH]; cbn.
  - constructor; [exact Hnew|constructor].
  - inversion Hall as [|? ? Hhead Hall']; subst.
    destruct (eqb k' k) eqn:E; constructor; [|exact Hall'|exact Hhead|].
    + apply Heq in E. subst k'. exact Hnew.
    + apply IH. exact Hall'.
Qed.

Lemma get_in_keys (K V : Type) (eqb : K -> K -> bool) (k : K) (m : JsMap.t K V) :
  (forall a, eqb a a = true) ->
  In k (List.map fst m) -> exists v, JsMap.get eqb k m = Some v.
Proof.
  intros Hrefl. induction m as [|[k' v'] m IH]; cbn; [intros []|].
  destruct (eqb k' k) eqn:E; [intros _; eexists; reflexivity|].
  intros [->|Hin]; [rewrite Hrefl in E; discriminate|apply IH; exact Hin].
Qed.

(** The entry a pool found by its mint sits under. *)
Lemma found_pool_key (mint : string) (m : JsMap.t Z Pool) (pool : Pool) :
  Forall (fun entry : Z * Pool => MemStorage.id (snd entry) = fst entry) m ->
  find (MemStorage.hasMint mint) (JsMap.values m) = Some pool ->
  In (MemStorage.id pool) (List.map fst m) /\ MemStorage.tokenMint pool = mint.
Proof.
  intros Hkeyed Hfind. apply find_some in Hfind. destruct Hfind as [Hin Hmint].
  split; [|apply String.eqb_eq; exact Hmint].
  apply in_map_iff in Hin. destruct Hin as (entry & Hsnd & Hin).
  rewrite Forall_forall in Hkeyed. apply in_map_iff. exists entry.
  split; [rewrite <- Hsnd; symmetry; exact (Hkeyed entry Hin)|exact Hin].
Qed.

(** Under distinct ids, assigning to the first pool of a mint is one
    update of the map, at the id of that pool. *)
Lemma assignFirst_set (mint : string) (f : Pool -> Pool) (m : JsMap.t Z Pool)
      (pool : Pool) :
  Forall (fun entry : Z * Pool => MemStorage.id (snd entry) = fst entry) m ->
  NoDup (List.map fst m) ->
  find (MemStorage.hasMint mint) (JsMap.values m) = Some pool ->
  MemStorage.assignFirst mint f m = JsMap.set Z.eqb (MemStorage.id pool) (f pool) m.
Proof.
  induction m as [|[k p] m IH]; cbn; [discriminate|].
  intros Hkeyed Hnodup. inversion Hkeyed as [|? ? Hk Hkeyed']; subst.
  inversion Hnodup as [|? ? Hfresh Hnodup']; subst. cbn in Hk.
  unfold MemStorage.hasMint at 1.
  destruct (String.eqb (MemStorage.tokenMint p) mint).
  - intros [= ->]. rewrite <- Hk, Z.eqb_refl. reflexivity.
  - intros Hfind.
    destruct (found_pool_key _ Hkeyed' Hfind) as [Hin _].
    assert (Hne : (k =? MemStorage.id pool)%Z = false).
    { apply Z.eqb_neq. intros ->. exact (Hfresh Hin). }
    rewrite Hne, IH by assumption. reflexivity.
Qed.

Lemma find_other_mint (mint mint' : string) (f : Pool -> Pool) (m : JsMap.t Z Pool) :
  mint' <> mint ->
  (forall p, MemStorage.tokenMint (f p) = MemStorage.tokenMint p) ->
  find (MemStorage.hasMint mint') (JsMap.values (MemStorage.assignFirst mint f m))
  = find (MemStorage.hasMint mint') (JsMap.values m).
Proof.
  intros Hne Hf. induction m as [|[k p] m IH]; cbn; [reflexivity|].
  destruct (String.eqb (MemStorage.tokenMint p) mint) eqn:E; cbn.
  - unfold MemStorage.hasMint at 1 3. rewrite Hf.
    apply String.eqb_eq in E.
    assert (E' : String.eqb (MemStorage.tokenMint p) mint' = false).
    { apply String.eqb_neq. congruence. }
    rewrite E'. reflexivity.
  - destruct (MemStorage.hasMint mint' p); [reflexivity|exact IH].
Qed.

End RegistryFacts.

(** X11.  [createPool] on a registry whose pools sit under distinct ids
    below the next id: the new pool takes the next id and is what [getPool]
    gives for it, the pools stored before are untouched and keep their
    places, and the registry stays of that shape.  A mint that already has
    a pool is not refused: the new pool is stored, and [getPoolByMint]
    keeps answering with the older pool of that mint. *)
Theorem X11_createPool :
  forall (num : Type) (N : JsNumber num) (st : @MemStorage.Storage num)
         (insertPool : @MemStorage.InsertPool num) (now : Z),
    StorageLookups.poolsKeyed st ->
    let r := MemStorage.createPool st insertPool now in
    StorageLookups.poolsKeyed (snd r)
    /\ MemStorage.id (fst r) = MemStorage.currentPoolId st
    /\ MemStorage.currentPoolId (snd r) = (MemStorage.currentPoolId st + 1)%Z
    /\ MemStorage.pools (snd r)
       = MemStorage.pools st ++ [(MemStorage.currentPoolId st, fst r)]
    /\ MemStorage.getPool (snd r) (MemStorage.currentPoolId st) = Some (fst r)
    /\ (forall other, other <> MemStorage.currentPoolId st ->
          MemStorage.getPool (snd r) other = MemStorage.getPool st other)
    /\ MemStorage.getPoolByMint (snd r) (MemStorage.ip_tokenMint insertPool)
       = match MemStorage.getPoolByMint st (MemStorage.ip_tokenMint insertPool) with
         | Some older => Some older
         | None => Some (fst r)
         end
    /\ (forall mint, mint <> MemStorage.ip_tokenMint insertPool ->
          MemStorage.getPoolByMint (snd r) mint = MemStorage.getPoolByMint st mint).
Proof.
  intros num N st insertPool now [Hall Hnodup] r; subst r.
  unfold MemStorage.createPool. cbn [fst snd].
  assert (Hfresh : JsMap.get Z.eqb (MemStorage.currentPoolId st) (MemStorage.pools st)
                   = None).
  { apply keys_below_absent. eapply Forall_impl; [|exact Hall].
    cbn. intros entry [_ Hlt]. exact Hlt. }
  unfold StorageLookups.poolsKeyed, MemStorage.getPool, MemStorage.getPoolByMint.
  cbn [MemStorage.withPools MemStorage.pools MemStorage.currentPoolId MemStorage.id].
  rewrite (@set_absent _ _ Z.eqb _ _ _ Hfresh).
  split.
  { split.
    - apply Forall_app. split.
      + eapply Forall_impl; [|exact Hall]. cbn. intros entry [Hk Hlt].
        split; [exact Hk|lia].
      + constructor; [|constructor]. cbn. split; [reflexivity|lia].
    - rewrite map_app. cbn. apply NoDup_app.
      + exact Hnodup.
      + constructor; [intros []|constructor].
      + intros k Hin [<-|[]]. apply in_map_iff in Hin.
        destruct Hin as (entry & Hk & Hin). rewrite Forall_forall in Hall.
        destruct (Hall entry Hin) as [_ Hlt]. lia. }
  split; [reflexivity|]. split; [reflexivity|]. split; [reflexivity|].
  split.
  { rewrite <- (@set_absent _ _ Z.eqb _ _ _ Hfresh).
    apply (get_set_same Z.eqb Z.eqb_eq). }
  split.
  { intros other Hother. rewrite <- (@set_absent _ _ Z.eqb _ _ _ Hfresh).
    apply (get_set_other Z.eqb Z.eqb_eq). congruence. }
  unfold JsMap.values. split.
  - rewrite map_app, find_app_first. cbn.
    unfold MemStorage.hasMint at 2. cbn. rewrite String.eqb_refl. reflexivity.
  - intros mint Hmint. rewrite map_app, find_app_first. cbn.
    unfold MemStorage.hasMint at 2. cbn.
    assert (E : String.eqb (MemStorage.ip_tokenMint insertPool) mint = false).
    { apply String.eqb_neq. congruence. }
    rewrite E. destruct (find _ _); reflexivity.
Qed.

Lemma X11_createPool_witness :
  MemStorage.getPoolByMint
    (snd (MemStorage.createPool (@Sample.storage Q _ false)
            (MemStorage.defaultPool "mint") 1748078509000)) "mint"
  = match MemStorage.getPoolByMint (@Sample.storage Q _ false) "mint" with
    | Some older => Some older
    | None =>
        Some (fst (MemStorage.createPool (@Sample.storage Q _ false)
                     (MemStorage.defaultPool "mint") 1748078509000))
    end.
Proof.
  apply (@X11_createPool Q _ (Sample.storage false)
           (MemStorage.defaultPool "mint") 1748078509000).
  split.
  - constructor; [|constructor]. cbn. split; [reflexivity|lia].
  - constructor; [intros []|constructor].
Defined.

(** X12.  [updatePoolReserves] on a registry whose pools sit under
    distinct ids: the whole effect is one update of the pool map at the id
    of the pool found for the mint.  That id then gives the pool with the
    new reserves, every other id gives what it gave before, the ids and
    their order are as before, lookups by any other mint are unchanged, and
    the registry stays of that shape. *)
Theorem X12_updatePoolReserves_single_update :
  forall (num : Type) (N : JsNumber num) (st : @MemStorage.Storage num)
         (mint : string) (newBase newQuote : num) (pool : @MemStorage.Pool num),
    StorageLookups.poolsKeyed st ->
    MemStorage.getPoolByMint st mint = Some pool ->
    let r := MemStorage.updatePoolReserves st mint newBase newQuote in
    let pool' := MemStorage.assignReserves newBase newQuote pool in
    MemStorage.pools (snd r)
    = JsMap.set Z.eqb (MemStorage.id pool) pool' (MemStorage.pools st)
    /\ MemStorage.getPool (snd r) (MemStorage.id pool) = Some pool'
    /\ (forall other, other <> MemStorage.id pool ->
          MemStorage.getPool (snd r) other = MemStorage.getPool st other)
    /\ List.map fst (MemStorage.pools (snd r)) = List.map fst (MemStorage.pools st)
    /\ (forall mint', mint' <> mint ->
          MemStorage.getPoolByMint (snd r) mint' = MemStorage.getPoolByMint st mint')
    /\ MemStorage.currentPoolId (snd r) = MemStorage.currentPoolId st
    /\ StorageLookups.poolsKeyed (snd r).
Proof.
  intros num N st mint newBase newQuote pool [Hall Hnodup] Hfind r pool'.
  subst r pool'.
  unfold MemStorage.updatePoolReserves. rewrite Hfind. cbn [fst snd].
  set (pool' := MemStorage.assignReserves newBase newQuote pool).
  unfold MemStorage.getPoolByMint in Hfind.
  assert (Hkeys : Forall (fun entry : Z * MemStorage.Pool =>
                            MemStorage.id (snd entry) = fst entry) (MemStorage.pools st)).
  { eapply Forall_impl; [|exact Hall]. cbn. intros entry [Hk _]. exact Hk. }
  destruct (found_pool_key _ Hkeys Hfind) as [Hin Hmint].
  destruct (get_in_keys Z.eqb _ _ Z.eqb_refl Hin) as [stored Hstored].
  assert (Hpools :
            JsMap.set Z.eqb (MemStorage.id pool') pool'
              (MemStorage.assignFirst mint (MemStorage.assignReserves newBase newQuote)
                 (MemStorage.pools st))
            = JsMap.set Z.eqb (MemStorage.id pool) pool' (MemStorage.pools st)).
  { rewrite (assignFirst_set _ (MemStorage.assignReserves newBase newQuote)
               Hkeys Hnodup Hfind).
    change (MemStorage.id pool') with (MemStorage.id pool).
    apply set_set. exact Z.eqb_refl. }
  unfold MemStorage.getPool, MemStorage.getPoolByMint, StorageLookups.poolsKeyed.
  cbn [MemStorage.withPools MemStorage.pools MemStorage.currentPoolId].
  split; [exact Hpools|].
  split; [rewrite Hpools; apply (get_set_same Z.eqb Z.eqb_eq)|].
  split.
  { intros other Hother. rewrite Hpools.
    apply (get_set_other Z.eqb Z.eqb_eq). congruence. }
  split; [rewrite Hpools; exact (set_keys_present Z.eqb _ _ _ Hstored)|].
  split.
  { intros mint' Hmint'.
    rewrite (assignFirst_set _ (MemStorage.assignReserves newBase newQuote)
               Hkeys Hnodup Hfind), set_set by exact Z.eqb_refl.
    rewrite <- (assignFirst_set _ (MemStorage.assignReserves newBase newQuote)
                  Hkeys Hnodup Hfind).
    apply find_other_mint; [exact Hmint'|reflexivity]. }
  split; [reflexivity|].
  rewrite Hpools. split.
  - apply set_forall; [exact Z.eqb_eq|exact Hall|]. cbn. split; [reflexivity|].
    apply in_map_iff in Hin. destruct Hin as (entry & Hk & Hin).
    rewrite Forall_forall in Hall. destruct (Hall entry Hin) as [_ Hlt]. lia.
  - rewrite (set_keys_present Z.eqb _ _ _ Hstored). exact Hnodup.
Qed.

Lemma X12_updatePoolReserves_single_update_witness :
  List.map fst
    (MemStorage.pools
       (snd (MemStorage.updatePoolReserves (@Sample.storage Q _ false) "mint" 5 7)))
  = List.map fst (MemStorage.pools (@Sample.storage Q _ false)).
Proof.
  refine (proj1 (proj2 (proj2 (proj2
           (@X12_updatePoolReserves_single_update Q _ (Sample.storage false) "mint" 5 7
              (fst (MemStorage.createPool
                      {| MemStorage.tokens := [(1%Z, Sample.token false)];
                         MemStorage.trades := [];
                         MemStorage.portfolios := [];
                         MemStorage.pools := [];
                         MemStorage.currentTradeId := 1;
                         MemStorage.currentPortfolioId := 1;
                         MemStorage.currentPoolId := 1 |}
                      (MemStorage.defaultPool "mint") 1748078501850))
              _ _))))).
  - split.
    + constructor; [|constructor]. cbn. split; [reflexivity|lia].
    + constructor; [intros []|constructor].
  - reflexivity.
Defined.

(** ** Users *)

Lemma NoDup_snoc (X : Type) (x : X) (l : list X) :
  NoDup l -> ~ In x l -> NoDup (l ++ [x]).
Proof.
  intros Hnodup Hfresh. apply NoDup_app.
  - exact Hnodup.
  - constructor; [intros []|constructor].
  - intros y Hin [<-|[]]. exact (Hfresh Hin).
Qed.

Lemma get_none_fresh (K V : Type) (eqb : K -> K -> bool) (k : K) (m : JsMap.t K V) :
  (forall a, eqb a a = true) ->
  JsMap.get eqb k m = None -> ~ In k (List.map fst m).
Proof.
  intros Hrefl Hget Hin. destruct (get_in_keys eqb k m Hrefl Hin) as [v Hv].
  congruence.
Qed.

(** What one registration leaves. *)
Lemma registerUser_spec (st : UserStore.Users) (userData : UserStore.InsertUser)
      (now : Z) :
  UserStore.distinctUsers st ->
  let r := UserStore.registerUser st userData now in
  UserStore.distinctUsers (snd r)
  /\ match fst r with
     | UserStore.UserExists =>
         snd r = st
         /\ UserStore.getUserByWallet st (UserStore.i_walletAddress userData) <> None
     | UserStore.UsernameTaken =>
         snd r = st
         /\ UserStore.getUserByWallet st (UserStore.i_walletAddress userData) = None
         /\ UserStore.getUserByUsername st (UserStore.i_username userData) <> None
     | UserStore.Registered user =>
         UserStore.users (snd r)
         = UserStore.users st ++ [(UserStore.i_walletAddress userData, user)]
         /\ UserStore.currentUserId (snd r) = (UserStore.currentUserId st + 1)%Z
         /\ UserStore.id user = UserStore.currentUserId st
         /\ UserStore.walletAddress user = UserStore.i_walletAddress userData
         /\ UserStore.username user = UserStore.i_username userData
         /\ UserStore.createdAt user = now
         /\ UserStore.getUserByWallet st (UserStore.i_walletAddress userData) = None
         /\ UserStore.getUserByUsername st (UserStore.i_username userData) = None
         /\ UserStore.getUserByWallet (snd r) (UserStore.i_walletAddress userData)
            = Some user
         /\ UserStore.getUserByUsername (snd r) (UserStore.i_username userData)
            = Some user
     end.
Proof.
  intros (Hall & Hwallets & Hnames & Hids) r; subst r.
  unfold UserStore.registerUser.
  destruct (UserStore.getUserByWallet st (UserStore.i_walletAddress userData))
    as [existing|] eqn:Hwallet.
  { cbn [fst snd]. split; [repeat split; assumption|]. split; [reflexivity|discriminate]. }
  destruct (UserStore.getUserByUsername st (UserStore.i_username userData))
    as [existing|] eqn:Hname.
  { cbn [fst snd]. split; [repeat split; assumption|].
    split; [reflexivity|]. split; [reflexivity|discriminate]. }
  unfold UserStore.createUser. cbn [fst snd].
  unfold UserStore.getUserByWallet in Hwallet.
  unfold UserStore.distinctUsers, UserStore.getUserByWallet, UserStore.getUserByUsername.
  cbn [UserStore.users UserStore.currentUserId UserStore.id UserStore.walletAddress
         UserStore.username UserStore.createdAt].
  rewrite (@set_absent _ _ String.eqb _ _ _ Hwallet).
  unfold JsMap.values. rewrite !map_app. cbn [List.map fst snd].
  cbn [UserStore.id UserStore.username].
  split.
  { split.
    - apply Forall_app. split.
      + eapply Forall_impl; [|exact Hall]. cbn. intros entry [Hk Hlt].
        split; [exact Hk|lia].
      + constructor; [|constructor]. cbn. split; [reflexivity|lia].
    - split; [|split].
      + apply NoDup_snoc; [exact Hwallets|].
        apply (get_none_fresh String.eqb _ _ String.eqb_refl Hwallet).
      + apply NoDup_snoc; [exact Hnames|].
        intros Hin. apply in_map_iff in Hin. destruct Hin as (user & Hu & Hin).
        pose proof (find_none _ _ Hname user Hin) as Hno. cbn in Hno.
        rewrite Hu, String.eqb_refl in Hno. discriminate.
      + apply NoDup_snoc; [exact Hids|].
        intros Hin. apply in_map_iff in Hin. destruct Hin as (user & Hu & Hin).
        apply in_map_iff in Hin. destruct Hin as (entry & He & Hin).
        rewrite Forall_forall in Hall. destruct (Hall entry Hin) as [_ Hlt].
        rewrite He, Hu in Hlt. lia. }
  repeat (split; [reflexivity|]).
  split.
  - rewrite <- (@set_absent _ _ String.eqb _ _ _ Hwallet).
    apply (get_set_same String.eqb String.eqb_eq).
  - rewrite find_app_first. unfold UserStore.getUserByUsername, JsMap.values in Hname.
    rewrite Hname. cbn. rewrite String.eqb_refl. reflexivity.
Qed.

(** X13.  POST /api/users on a store of users with distinct wallet
    addresses, names and ids.  A wallet address that is already registered
    is refused, and so is a name that is taken, both leaving the store as it
    was.  Otherwise the user is added after the others under the next id,
    and is then the one found both by that wallet address and by that name.
    In every case the store keeps its users distinct. *)
Theorem X13_registerUser :
  forall (st : UserStore.Users) (userData : UserStore.InsertUser) (now : Z),
    UserStore.distinctUsers st ->
    let r := UserStore.registerUser st userData now in
    UserStore.distinctUsers (snd r)
    /\ (fst r = UserStore.UserExists
        <-> UserStore.getUserByWallet st (UserStore.i_walletAddress userData) <> None)
    /\ (fst r = UserStore.UsernameTaken
        <-> UserStore.getUserByWallet st (UserStore.i_walletAddress userData) = None
            /\ UserStore.getUserByUsername st (UserStore.i_username userData) <> None)
    /\ match fst r with
       | UserStore.Registered user =>
           UserStore.users (snd r)
           = UserStore.users st ++ [(UserStore.i_walletAddress userData, user)]
           /\ UserStore.id user = UserStore.currentUserId st
           /\ UserStore.getUserByWallet (snd r) (UserStore.i_walletAddress userData)
              = Some user
           /\ UserStore.getUserByUsername (snd r) (UserStore.i_username userData)
              = Some user
       | _ => snd r = st
       end.
Proof.
  intros st userData now Hdistinct r.
  pose proof (registerUser_spec userData now Hdistinct) as [Hkeep Hcase].
  fold r in Hkeep, Hcase. split; [exact Hkeep|].
  destruct (fst r) as [| |user].
  - destruct Hcase as [Hsame Hwallet].
    split; [split; [intros _; exact Hwallet|reflexivity]|].
    split; [|exact Hsame]. split; [discriminate|]. intros [Hnone _]. contradiction.
  - destruct Hcase as (Hsame & Hwallet & Hname).
    split; [split; [discriminate|intros Hsome; contradiction]|].
    split; [|exact Hsame]. split; [intros _; split; assumption|reflexivity].
  - destruct Hcase as (Husers & _ & Hid & _ & _ & _ & Hwallet & Hname & Hbw & Hbn).
    split; [split; [discriminate|intros Hsome; contradiction]|].
    split; [split; [discriminate|intros [_ Hsome]; contradiction]|].
    repeat (split; [assumption|]). exact Hbn.
Qed.

Lemma X13_registerUser_witness :
  UserStore.distinctUsers
    (snd (UserStore.registerUser UserStore.empty
            {| UserStore.i_walletAddress := "9WzDXwBbmkg8ZTbNMqUxvQRAyrZzDsGYdLVL9zYtAWWM";
               UserStore.i_username := "alice";
               UserStore.i_profilePictureUrl := None |}
            1748078502000)).
Proof.
  apply (@X13_registerUser UserStore.empty
           {| UserStore.i_walletAddress := "9WzDXwBbmkg8ZTbNMqUxvQRAyrZzDsGYdLVL9zYtAWWM";
              UserStore.i_username := "alice";
              UserStore.i_profilePictureUrl := None |}
           1748078502000).
  repeat split; constructor.
Defined.

(** X14.  Whatever registration requests are served one after another
    from the empty store, no two stored users share a wallet address, a
    name or an id, every user is found by its own wallet address, and the
    number of users is the number of ids handed out. *)
Theorem X14_registered_users_distinct :
  forall (requests : list (UserStore.InsertUser * Z)),
    let st := UserStore.registerAll UserStore.empty requests in
    NoDup (List.map UserStore.walletAddress (JsMap.values (UserStore.users st)))
    /\ NoDup (List.map UserStore.username (JsMap.values (UserStore.users st)))
    /\ NoDup (List.map UserStore.id (JsMap.values (UserStore.users st)))
    /\ (forall user, In user (JsMap.values (UserStore.users st)) ->
          UserStore.getUserByWallet st (UserStore.walletAddress user) = Some user)
    /\ Z.of_nat (List.length (UserStore.users st)) = (UserStore.currentUserId st - 1)%Z
    /\ (List.length (UserStore.users st) <= List.length requests)%nat.
Proof.
  intros requests.
  assert (Hrun : forall st,
             UserStore.distinctUsers st ->
             Z.of_nat (List.length (UserStore.users st))
             = (UserStore.currentUserId st - 1)%Z ->
             UserStore.distinctUsers (UserStore.registerAll st requests)
             /\ Z.of_nat (List.length (UserStore.users (UserStore.registerAll st requests)))
                = (UserStore.currentUserId (UserStore.registerAll st requests) - 1)%Z
             /\ (List.length (UserStore.users (UserStore.registerAll st requests))
                 <= List.length (UserStore.users st) + List.length requests)%nat).
  { induction requests as [|[userData now] requests IH]; intros st Hdistinct Hcount.
    - cbn. split; [exact Hdistinct|]. split; [exact Hcount|lia].
    - cbn [UserStore.registerAll fold_left fst snd].
      change (fold_left _ requests ?s) with (UserStore.registerAll s requests).
      pose proof (registerUser_spec userData now Hdistinct) as [Hkeep Hcase].
      cbv zeta in Hkeep, Hcase.
      assert (Hstep :
                Z.of_nat (List.length
                            (UserStore.users (snd (UserStore.registerUser st userData now))))
                = (UserStore.currentUserId (snd (UserStore.registerUser st userData now)) - 1)%Z
                /\ (List.length
                      (UserStore.users (snd (UserStore.registerUser st userData now)))
                    <= S (List.length (UserStore.users st)))%nat).
      { destruct (fst (UserStore.registerUser st userData now)) as [| |user].
        - destruct Hcase as [-> _]. split; [exact Hcount|lia].
        - destruct Hcase as [-> _]. split; [exact Hcount|lia].
        - destruct Hcase as (-> & -> & _). rewrite length_app. cbn [List.length].
          split; lia. }
      destruct Hstep as [Hcount' Hlen'].
      destruct (IH _ Hkeep Hcount') as (Hd & Hc & Hl).
      split; [exact Hd|]. split; [exact Hc|]. cbn [List.length]. lia. }
  intros st. subst st.
  destruct (Hrun UserStore.empty) as ((Hall & Hwallets & Hnames & Hids) & Hcount & Hlen).
  { repeat split; constructor. }
  { reflexivity. }
  set (st := UserStore.registerAll UserStore.empty requests) in *.
  assert (Hkeys : List.map UserStore.walletAddress (JsMap.values (UserStore.users st))
                  = List.map fst (UserStore.users st)).
  { unfold JsMap.values. rewrite map_map. apply map_ext_in. intros entry Hin.
    rewrite Forall_forall in Hall. exact (proj1 (Hall entry Hin)). }
  split; [rewrite Hkeys; exact Hwallets|]. split; [exact Hnames|].
  split; [exact Hids|]. split; [|split; [exact Hcount|cbn in Hlen; exact Hlen]].
  intros user Hin. unfold UserStore.getUserByWallet.
  apply in_map_iff in Hin. destruct Hin as ([wallet user'] & Hu & Hin).
  cbn in Hu. subst user'. rewrite Forall_forall in Hall.
  destruct (Hall _ Hin) as [Hw _]. cbn in Hw. rewrite Hw.
  clear Hkeys Hall Hnames Hids Hcount Hlen Hw.
  induction (UserStore.users st) as [|[k v] m IH]; [destruct Hin|].
  cbn in Hwallets. inversion Hwallets as [|? ? Hfresh Hrest]; subst.
  cbn. destruct Hin as [[= -> ->]|Hin].
  - rewrite String.eqb_refl. reflexivity.
  - destruct (String.eqb k wallet) eqn:E.
    + apply String.eqb_eq in E. subst k. exfalso. apply Hfresh.
      apply in_map_iff. exists (wallet, user). split; [reflexivity|exact Hin].
    + apply IH; assumption.
Qed.

(** ** The launchpad *)

(** X15.  [getPoolStatus] of a stored pool with a positive goal, in exact
    arithmetic: the reported progress is the collected share of the goal in
    percent, capped at 100, and the status reads "migrated" as soon as the
    collected amount has reached the goal, whether or not the migration has
    been carried out and the [migrated] flag set; it reads "active"
    otherwise. *)
Theorem X15_getPoolStatus
        (w : @RaydiumLaunchpadService.World Q) (pool : string)
        (poolData : @RaydiumLaunchpadService.PoolData Q) :
  JsMap.get String.eqb pool (RaydiumLaunchpadService.poolStorage w) = Some poolData ->
  0 < RaydiumLaunchpadService.fundraisingGoal poolData ->
  exists s,
    LaunchpadStatus.getPoolStatus w pool = Some s
    /\ LaunchpadStatus.progress s <= 100
    /\ (RaydiumLaunchpadService.quoteCollected poolData
        <= RaydiumLaunchpadService.fundraisingGoal poolData ->
        LaunchpadStatus.progress s
        == RaydiumLaunchpadService.quoteCollected poolData
           / RaydiumLaunchpadService.fundraisingGoal poolData * 100)
    /\ (RaydiumLaunchpadService.fundraisingGoal poolData
        <= RaydiumLaunchpadService.quoteCollected poolData ->
        LaunchpadStatus.progress s == 100)
    /\ (LaunchpadStatus.status s = "migrated"%string
        <-> RaydiumLaunchpadService.migrated poolData = true
            \/ RaydiumLaunchpadService.fundraisingGoal poolData
               <= RaydiumLaunchpadService.quoteCollected poolData)
    /\ (LaunchpadStatus.status s = "active"%string
        <-> RaydiumLaunchpadService.migrated poolData = false
            /\ RaydiumLaunchpadService.quoteCollected poolData
               < RaydiumLaunchpadService.fundraisingGoal poolData)
    /\ LaunchpadStatus.migrated s = RaydiumLaunchpadService.migrated poolData.
Proof.
  intros Hget Hgoal. unfold LaunchpadStatus.getPoolStatus. rewrite Hget.
  eexists. split; [reflexivity|].
  cbn [LaunchpadStatus.progress LaunchpadStatus.status LaunchpadStatus.migrated].
  set (c := RaydiumLaunchpadService.quoteCollected poolData) in *.
  set (g := RaydiumLaunchpadService.fundraisingGoal poolData) in *.
  unfold int. exact_arith.
  assert (Hp : Exact.mul (Exact.div c g) (Exact.lit 100 0) == c / g * 100).
  { rewrite exact_mul, exact_div, exact_int. reflexivity. }
  assert (Hhundred : Exact.lit 100 0 == 100) by (rewrite exact_int; reflexivity).
  assert (Hup : 100 <= c / g * 100 <-> g <= c).
  { split; intros Hle.
    - assert (Hone : 1 <= c / g) by lra.
      apply (Qmult_le_compat_r _ _ g) in Hone; [|lra].
      assert (E : c / g * g == c) by (field; lra). lra.
    - assert (Hone : 1 <= c / g) by (apply Qle_shift_div_l; lra). lra. }
  change (@min Q Q_JsNumber) with Exact.min.
  change (@leb Q Q_JsNumber) with Qle_bool.
  unfold Exact.min.
  destruct (Qle_bool (Exact.mul (Exact.div c g) (Exact.lit 100 0)) (Exact.lit 100 0))
    eqn:Hcap.
  - apply Qle_bool_iff in Hcap. rewrite Hp, Hhundred in Hcap.
    split; [rewrite Hp; exact Hcap|].
    split; [intros _; exact Hp|].
    split; [intros Hle; apply Hup in Hle; rewrite Hp; lra|].
    destruct (RaydiumLaunchpadService.migrated poolData).
    + split; [split; [intros _; left; reflexivity|reflexivity]|].
      split; [|reflexivity]. split; [discriminate|intros [Hno _]; discriminate].
    + destruct (Qle_bool (Exact.lit 100 0) (Exact.mul (Exact.div c g) (Exact.lit 100 0)))
        eqn:Hfull.
      * apply Qle_bool_iff in Hfull. rewrite Hp, Hhundred in Hfull. apply Hup in Hfull.
        split; [split; [intros _; right; exact Hfull|reflexivity]|].
        split; [|reflexivity]. split; [discriminate|intros [_ Hlt]; lra].
      * assert (Hlt : c < g).
        { apply Qnot_le_lt. intros Hle. apply Hup in Hle.
          assert (Hfull' : Qle_bool (Exact.lit 100 0)
                             (Exact.mul (Exact.div c g) (Exact.lit 100 0)) = true).
          { apply Qle_bool_iff. rewrite Hp, Hhundred. exact Hle. }
          congruence. }
        split; [split; [discriminate|intros [Hyes|Hle]; [discriminate|lra]]|].
        split; [|reflexivity]. split; [intros _; split; [reflexivity|exact Hlt]|reflexivity].
  - assert (Hover : 100 < c / g * 100).
    { apply Qnot_le_lt. intros Hle.
      assert (Hcap' : Qle_bool (Exact.mul (Exact.div c g) (Exact.lit 100 0))
                        (Exact.lit 100 0) = true).
      { apply Qle_bool_iff. rewrite Hp, Hhundred. exact Hle. }
      congruence. }
    assert (Hreached : g <= c) by (apply Hup; lra).
    assert (Hfull : Qle_bool (Exact.lit 100 0)
                      (Exact.mul (Exact.div c g) (Exact.lit 100 0)) = true).
    { apply Qle_bool_iff. rewrite Hp, Hhundred. lra. }
    rewrite Hfull.
    split; [rewrite Hhundred; lra|].
    split; [intros Hle; exfalso; assert (E : c == g) by lra;
            assert (E' : c / g * 100 == 100) by (rewrite E; field; lra); lra|].
    split; [intros _; exact Hhundred|].
    destruct (RaydiumLaunchpadService.migrated poolData).
    + split; [split; [intros _; left; reflexivity|reflexivity]|].
      split; [|reflexivity]. split; [discriminate|intros [Hno _]; discriminate].
    + split; [split; [intros _; right; exact Hreached|reflexivity]|].
      split; [|reflexivity]. split; [discriminate|intros [_ Hlt]; lra].
Qed.

Lemma X15_getPoolStatus_witness :
  exists s,
    LaunchpadStatus.getPoolStatus
      (RaydiumLaunchpadService.run
         (@RaydiumLaunchpadService.launched Q _ "pool" "WEN" (int 69))
         [RaydiumLaunchpadService.Tick "pool";
          RaydiumLaunchpadService.Resume 0
            (RaydiumLaunchpadService.PoolInfo (Some (int 70000000000)))])
      "pool" = Some s
    /\ LaunchpadStatus.status s = "migrated"%string
    /\ LaunchpadStatus.migrated s = false.
Proof.
  destruct (@X15_getPoolStatus
              (RaydiumLaunchpadService.run
                 (@RaydiumLaunchpadService.launched Q _ "pool" "WEN" (int 69))
                 [RaydiumLaunchpadService.Tick "pool";
                  RaydiumLaunchpadService.Resume 0
                    (RaydiumLaunchpadService.PoolInfo (Some (int 70000000000)))])
              "pool"
              {| RaydiumLaunchpadService.poolId := "pool";
                 RaydiumLaunchpadService.symbol := "WEN";
                 RaydiumLaunchpadService.fundraisingGoal := int 69;
                 RaydiumLaunchpadService.quoteCollected := int 70;
                 RaydiumLaunchpadService.migrated := false;
                 RaydiumLaunchpadService.migrationTxId := None |})
    as (s & Hs & _ & _ & _ & Hstatus & _ & Hflag).
  - vm_compute. reflexivity.
  - vm_compute. reflexivity.
  - exists s. split; [exact Hs|]. split; [|exact Hflag].
    apply Hstatus. right. vm_compute. discriminate.
Defined.

Section PollingFacts.
Context {num : Type} `{JsNumber num}.

Local Abbreviation World := (@RaydiumLaunchpadService.World num).

Lemma count_replaceNth (X : Type) (f : X -> bool) (n : nat) (x y : X) (l : list X) :
  nth_error l n = Some y ->
  (List.length (filter f (RaydiumLaunchpadService.replaceNth n x l)) + Nat.b2n (f y)
   = List.length (filter f l) + Nat.b2n (f x))%nat.
Proof.
  revert n. induction l as [|a l IH]; intros [|n]; cbn; try discriminate.
  - intros [= ->]. destruct (f x), (f y); cbn; lia.
  - intros Hnth. specialize (IH n Hnth). destruct (f a); cbn; lia.
Qed.

(** Whether a pool is live after one entry of the pool storage is set. *)
Lemma live_after_set (w w' : World) (p pool : string)
      (poolData : RaydiumLaunchpadService.PoolData) :
  RaydiumLaunchpadService.poolStorage w'
  = JsMap.set String.eqb p poolData (RaydiumLaunchpadService.poolStorage w) ->
  RaydiumLaunchpadService.live w' pool
  = if String.eqb p pool then negb (RaydiumLaunchpadService.migrated poolData)
    else RaydiumLaunchpadService.live w pool.
Proof.
  intros Hstore. unfold RaydiumLaunchpadService.live. rewrite Hstore.
  destruct (String.eqb p pool) eqn:E.
  - apply String.eqb_eq in E. subst p.
    rewrite (get_set_same String.eqb String.eqb_eq). reflexivity.
  - apply String.eqb_neq in E.
    rewrite (get_set_other String.eqb String.eqb_eq) by exact E. reflexivity.
Qed.

(** The calls in flight for a pool and its migrations, together. *)
Local Abbreviation started w pool :=
  (RaydiumLaunchpadService.migrationsOf w pool
   + LaunchpadStatus.awaitingMigration w pool)%nat.

Lemma enterMigrate_guard (w : World) (p pool : string) :
  LaunchpadStatus.pastGuard pool (RaydiumLaunchpadService.enterMigrate w p) = true ->
  RaydiumLaunchpadService.live w pool = true.
Proof.
  unfold RaydiumLaunchpadService.enterMigrate.
  destruct (RaydiumLaunchpadService.live w p) eqn:Hlive; cbn; [|discriminate].
  intros E. apply String.eqb_eq in E. subst p. exact Hlive.
Qed.

(** What resuming a call does to the counts of one pool. *)
Lemma resume_counts (w : World) (call : nat) (answer : RaydiumLaunchpadService.Answer)
      (pool : string) :
  let w' := RaydiumLaunchpadService.resume w call answer in
  (started w' pool + LaunchpadStatus.awaitingPoolInfo w' pool
   <= started w pool + LaunchpadStatus.awaitingPoolInfo w pool)%nat
  /\ (RaydiumLaunchpadService.live w pool = false ->
      RaydiumLaunchpadService.live w' pool = false
      /\ (started w' pool <= started w pool)%nat).
Proof.
  cbv zeta. unfold RaydiumLaunchpadService.resume.
  destruct (nth_error (RaydiumLaunchpadService.calls w) call) as [[p|p|p|]|] eqn:Hnth;
    try (split; [lia|intros Hdead; split; [exact Hdead|lia]]).
  - (* waiting for the pool info *)
    destruct answer as [[lamports|]|flag|txId|];
      try (split; [lia|intros Hdead; split; [exact Hdead|lia]]).
    + destruct (JsMap.get String.eqb p (RaydiumLaunchpadService.poolStorage w))
        as [poolData|] eqn:Hget;
        [|split; [lia|intros Hdead; split; [exact Hdead|lia]]].
      match goal with
      | |- context [RaydiumLaunchpadService.replaceNth call ?x _] => set (next := x)
      end.
      match goal with
      | |- context [RaydiumLaunchpadService.withCalls ?v _] => set (w1 := v) in *
      end.
      assert (Hlive : forall q, RaydiumLaunchpadService.live w1 q
                                = RaydiumLaunchpadService.live w q).
      { intros q. rewrite (@live_after_set w w1 p q _ eq_refl).
        cbn [RaydiumLaunchpadService.migrated].
        destruct (String.eqb p q) eqn:E; [|reflexivity].
        apply String.eqb_eq in E. subst q. unfold RaydiumLaunchpadService.live.
        rewrite Hget. reflexivity. }
      assert (Hnext : LaunchpadStatus.atPoolInfo pool next = false).
      { subst next. unfold RaydiumLaunchpadService.enterMigrate.
        destruct (leb _ _); [destruct (RaydiumLaunchpadService.live w1 p)|];
          reflexivity. }
      assert (Hguard : LaunchpadStatus.pastGuard pool next = true ->
                       RaydiumLaunchpadService.live w pool = true
                       /\ String.eqb pool p = true).
      { subst next. destruct (leb _ _); [|discriminate].
        intros Hpast. split.
        - rewrite <- Hlive. exact (enterMigrate_guard _ _ _ Hpast).
        - revert Hpast. unfold RaydiumLaunchpadService.enterMigrate.
          destruct (RaydiumLaunchpadService.live w1 p); [|discriminate].
          cbn. trivial. }
      pose proof (@count_replaceNth _ (LaunchpadStatus.pastGuard pool) call next _ _ Hnth)
        as Hpast.
      pose proof (@count_replaceNth _ (LaunchpadStatus.atPoolInfo pool) call next _ _ Hnth)
        as Hinfo.
      rewrite Hnext in Hinfo. cbn [LaunchpadStatus.pastGuard] in Hpast.
      cbn [LaunchpadStatus.atPoolInfo] in Hinfo.
      unfold LaunchpadStatus.awaitingMigration, LaunchpadStatus.awaitingPoolInfo,
        RaydiumLaunchpadService.migrationsOf.
      cbn [RaydiumLaunchpadService.withCalls RaydiumLaunchpadService.calls
             RaydiumLaunchpadService.migrations w1].
      cbn [Nat.b2n] in Hpast, Hinfo.
      split.
      * destruct (LaunchpadStatus.pastGuard pool next) eqn:Hp.
        -- destruct (Hguard eq_refl) as [_ Hsame]. rewrite Hsame in Hinfo.
           cbn [Nat.b2n] in Hpast, Hinfo. lia.
        -- cbn [Nat.b2n] in Hpast. lia.
      * intros Hdead. split.
        -- rewrite <- Hlive in Hdead. exact Hdead.
        -- destruct (LaunchpadStatus.pastGuard pool next) eqn:Hp.
           ++ destruct (Hguard eq_refl) as [Hlives _]. congruence.
           ++ cbn [Nat.b2n] in Hpast. lia.
    + pose proof (@count_replaceNth _ (LaunchpadStatus.pastGuard pool) call
                    RaydiumLaunchpadService.Finished _ _ Hnth) as Hpast.
      pose proof (@count_replaceNth _ (LaunchpadStatus.atPoolInfo pool) call
                    RaydiumLaunchpadService.Finished _ _ Hnth) as Hinfo.
      cbn [LaunchpadStatus.pastGuard LaunchpadStatus.atPoolInfo Nat.b2n] in Hpast, Hinfo.
      unfold LaunchpadStatus.awaitingMigration, LaunchpadStatus.awaitingPoolInfo,
        RaydiumLaunchpadService.migrationsOf.
      cbn [RaydiumLaunchpadService.withCalls RaydiumLaunchpadService.calls
             RaydiumLaunchpadService.migrations].
      split; [lia|]. intros Hdead. split; [exact Hdead|lia].
    + pose proof (@count_replaceNth _ (LaunchpadStatus.pastGuard pool) call
                    RaydiumLaunchpadService.Finished _ _ Hnth) as Hpast.
      pose proof (@count_replaceNth _ (LaunchpadStatus.atPoolInfo pool) call
                    RaydiumLaunchpadService.Finished _ _ Hnth) as Hinfo.
      cbn [LaunchpadStatus.pastGuard LaunchpadStatus.atPoolInfo Nat.b2n] in Hpast, Hinfo.
      unfold LaunchpadStatus.awaitingMigration, LaunchpadStatus.awaitingPoolInfo,
        RaydiumLaunchpadService.migrationsOf.
      cbn [RaydiumLaunchpadService.withCalls RaydiumLaunchpadService.calls
             RaydiumLaunchpadService.migrations].
      split; [lia|]. intros Hdead. split; [exact Hdead|lia].
  - (* waiting for the migration transaction *)
    destruct answer as [lamports|[|]|txId|];
      try (split; [lia|intros Hdead; split; [exact Hdead|lia]]).
    + pose proof (@count_replaceNth _ (LaunchpadStatus.pastGuard pool) call
                    (RaydiumLaunchpadService.AwaitExecute p) _ _ Hnth) as Hpast.
      pose proof (@count_replaceNth _ (LaunchpadStatus.atPoolInfo pool) call
                    (RaydiumLaunchpadService.AwaitExecute p) _ _ Hnth) as Hinfo.
      cbn [LaunchpadStatus.pastGuard LaunchpadStatus.atPoolInfo Nat.b2n] in Hpast, Hinfo.
      unfold LaunchpadStatus.awaitingMigration, LaunchpadStatus.awaitingPoolInfo,
        RaydiumLaunchpadService.migrationsOf.
      cbn [RaydiumLaunchpadService.calls RaydiumLaunchpadService.migrations filter].
      destruct (String.eqb pool p); cbn [Nat.b2n List.length] in *;
        (split; [lia|intros Hdead; split; [exact Hdead|lia]]).
    + pose proof (@count_replaceNth _ (LaunchpadStatus.pastGuard pool) call
                    RaydiumLaunchpadService.Finished _ _ Hnth) as Hpast.
      pose proof (@count_replaceNth _ (LaunchpadStatus.atPoolInfo pool) call
                    RaydiumLaunchpadService.Finished _ _ Hnth) as Hinfo.
      cbn [LaunchpadStatus.pastGuard LaunchpadStatus.atPoolInfo Nat.b2n] in Hpast, Hinfo.
      unfold LaunchpadStatus.awaitingMigration, LaunchpadStatus.awaitingPoolInfo,
        RaydiumLaunchpadService.migrationsOf.
      cbn [RaydiumLaunchpadService.withCalls RaydiumLaunchpadService.calls
             RaydiumLaunchpadService.migrations].
      split; [lia|]. intros Hdead. split; [exact Hdead|lia].
    + pose proof (@count_replaceNth _ (LaunchpadStatus.pastGuard pool) call
                    RaydiumLaunchpadService.Finished _ _ Hnth) as Hpast.
      pose proof (@count_replaceNth _ (LaunchpadStatus.atPoolInfo pool) call
                    RaydiumLaunchpadService.Finished _ _ Hnth) as Hinfo.
      cbn [LaunchpadStatus.pastGuard LaunchpadStatus.atPoolInfo Nat.b2n] in Hpast, Hinfo.
      unfold LaunchpadStatus.awaitingMigration, LaunchpadStatus.awaitingPoolInfo,
        RaydiumLaunchpadService.migrationsOf.
      cbn [RaydiumLaunchpadService.withCalls RaydiumLaunchpadService.calls
             RaydiumLaunchpadService.migrations].
      split; [lia|]. intros Hdead. split; [exact Hdead|lia].
  - (* waiting for the transaction to be executed *)
    destruct answer as [lamports|flag|[txId|]|];
      try (split; [lia|intros Hdead; split; [exact Hdead|lia]]).
    + destruct (JsMap.get String.eqb p (RaydiumLaunchpadService.poolStorage w))
        as [poolData|] eqn:Hget;
        [|split; [lia|intros Hdead; split; [exact Hdead|lia]]].
      pose proof (@count_replaceNth _ (LaunchpadStatus.pastGuard pool) call
                    RaydiumLaunchpadService.Finished _ _ Hnth) as Hpast.
      pose proof (@count_replaceNth _ (LaunchpadStatus.atPoolInfo pool) call
                    RaydiumLaunchpadService.Finished _ _ Hnth) as Hinfo.
      cbn [LaunchpadStatus.pastGuard LaunchpadStatus.atPoolInfo Nat.b2n] in Hpast, Hinfo.
      split.
      * unfold LaunchpadStatus.awaitingMigration, LaunchpadStatus.awaitingPoolInfo,
          RaydiumLaunchpadService.migrationsOf.
        cbn [RaydiumLaunchpadService.calls RaydiumLaunchpadService.migrations]. lia.
      * intros Hdead. split.
        -- match goal with
           | |- RaydiumLaunchpadService.live ?v pool = false =>
               rewrite (@live_after_set w v p pool _ eq_refl)
           end.
           cbn [RaydiumLaunchpadService.migrated negb].
           destruct (String.eqb p pool); [reflexivity|exact Hdead].
        -- unfold LaunchpadStatus.awaitingMigration, RaydiumLaunchpadService.migrationsOf.
           cbn [RaydiumLaunchpadService.calls RaydiumLaunchpadService.migrations]. lia.
    + pose proof (@count_replaceNth _ (LaunchpadStatus.pastGuard pool) call
                    RaydiumLaunchpadService.Finished _ _ Hnth) as Hpast.
      pose proof (@count_replaceNth _ (LaunchpadStatus.atPoolInfo pool) call
                    RaydiumLaunchpadService.Finished _ _ Hnth) as Hinfo.
      cbn [LaunchpadStatus.pastGuard LaunchpadStatus.atPoolInfo Nat.b2n] in Hpast, Hinfo.
      unfold LaunchpadStatus.awaitingMigration, LaunchpadStatus.awaitingPoolInfo,
        RaydiumLaunchpadService.migrationsOf.
      cbn [RaydiumLaunchpadService.withCalls RaydiumLaunchpadService.calls
             RaydiumLaunchpadService.migrations].
      split; [lia|]. intros Hdead. split; [exact Hdead|lia].
    + pose proof (@count_replaceNth _ (LaunchpadStatus.pastGuard pool) call
                    RaydiumLaunchpadService.Finished _ _ Hnth) as Hpast.
      pose proof (@count_replaceNth _ (LaunchpadStatus.atPoolInfo pool) call
                    RaydiumLaunchpadService.Finished _ _ Hnth) as Hinfo.
      cbn [LaunchpadStatus.pastGuard LaunchpadStatus.atPoolInfo Nat.b2n] in Hpast, Hinfo.
      unfold LaunchpadStatus.awaitingMigration, LaunchpadStatus.awaitingPoolInfo,
        RaydiumLaunchpadService.migrationsOf.
      cbn [RaydiumLaunchpadService.withCalls RaydiumLaunchpadService.calls
             RaydiumLaunchpadService.migrations].
      split; [lia|]. intros Hdead. split; [exact Hdead|lia].
Qed.

End PollingFacts.

Section PollingRuns.
Context {num : Type} `{JsNumber num}.

Local Abbreviation World := (@RaydiumLaunchpadService.World num).

(** What one event does to the counts of one pool. *)
Lemma step_counts (w : World) (e : RaydiumLaunchpadService.Event) (pool : string) :
  let w' := RaydiumLaunchpadService.step w e in
  (RaydiumLaunchpadService.migrationsOf w' pool
   + LaunchpadStatus.awaitingMigration w' pool
   + LaunchpadStatus.awaitingPoolInfo w' pool
   <= RaydiumLaunchpadService.migrationsOf w pool
      + LaunchpadStatus.awaitingMigration w pool
      + LaunchpadStatus.awaitingPoolInfo w pool
      + Nat.b2n (LaunchpadStatus.isTick pool e))%nat
  /\ (RaydiumLaunchpadService.live w pool = false ->
      RaydiumLaunchpadService.live w' pool = false
      /\ (RaydiumLaunchpadService.migrationsOf w' pool
          + LaunchpadStatus.awaitingMigration w' pool
          <= RaydiumLaunchpadService.migrationsOf w pool
             + LaunchpadStatus.awaitingMigration w pool)%nat).
Proof.
  destruct e as [p|call answer]; cbv zeta.
  - unfold RaydiumLaunchpadService.step, RaydiumLaunchpadService.startCheck.
    destruct (existsb _ _);
      [|split; [lia|intros Hdead; split; [exact Hdead|lia]]].
    destruct (RaydiumLaunchpadService.live w p);
      [|split; [lia|intros Hdead; split; [exact Hdead|lia]]].
    unfold LaunchpadStatus.awaitingMigration, LaunchpadStatus.awaitingPoolInfo,
      RaydiumLaunchpadService.migrationsOf.
    cbn [RaydiumLaunchpadService.withCalls RaydiumLaunchpadService.calls
           RaydiumLaunchpadService.migrations].
    rewrite !filter_app, !length_app.
    cbn [filter LaunchpadStatus.pastGuard LaunchpadStatus.atPoolInfo
           LaunchpadStatus.isTick List.length].
    split.
    + destruct (String.eqb pool p); cbn [List.length Nat.b2n]; lia.
    + intros Hdead. split; [exact Hdead|lia].
  - cbn [RaydiumLaunchpadService.step LaunchpadStatus.isTick Nat.b2n].
    destruct (resume_counts w call answer pool) as [Hall Hdead].
    split; [lia|exact Hdead].
Qed.

End PollingRuns.

(** X16.  Once a pool is marked migrated (or is not stored), it stays so
    through any sequence of interval ticks and answers, and the only
    migrations still executed for it are those of calls that had passed the
    guard of [migrateToAmm] before: the migrations executed plus the calls
    waiting behind that guard never grow, so with no such call the count of
    migrations stays as it is. *)
Theorem X16_no_migration_starts_after_the_flag :
  forall (num : Type) (N : JsNumber num)
         (events : list (@RaydiumLaunchpadService.Event num))
         (w : @RaydiumLaunchpadService.World num) (pool : string),
    RaydiumLaunchpadService.live w pool = false ->
    let w' := RaydiumLaunchpadService.run w events in
    RaydiumLaunchpadService.live w' pool = false
    /\ (RaydiumLaunchpadService.migrationsOf w' pool
        + LaunchpadStatus.awaitingMigration w' pool
        <= RaydiumLaunchpadService.migrationsOf w pool
           + LaunchpadStatus.awaitingMigration w pool)%nat
    /\ (LaunchpadStatus.awaitingMigration w pool = 0%nat ->
        RaydiumLaunchpadService.migrationsOf w' pool
        = RaydiumLaunchpadService.migrationsOf w pool).
Proof.
  intros num N events.
  assert (Hrun : forall (w : @RaydiumLaunchpadService.World num) (pool : string),
             RaydiumLaunchpadService.live w pool = false ->
             RaydiumLaunchpadService.live (RaydiumLaunchpadService.run w events) pool
             = false
             /\ (RaydiumLaunchpadService.migrationsOf w pool
                 <= RaydiumLaunchpadService.migrationsOf
                      (RaydiumLaunchpadService.run w events) pool)%nat
             /\ (RaydiumLaunchpadService.migrationsOf
                   (RaydiumLaunchpadService.run w events) pool
                 + LaunchpadStatus.awaitingMigration
                     (RaydiumLaunchpadService.run w events) pool
                 <= RaydiumLaunchpadService.migrationsOf w pool
                    + LaunchpadStatus.awaitingMigration w pool)%nat).
  { induction events as [|e events IH]; intros w pool Hdead.
    - cbn. split; [exact Hdead|]. split; lia.
    - cbn [RaydiumLaunchpadService.run fold_left].
      change (fold_left RaydiumLaunchpadService.step events ?v)
        with (RaydiumLaunchpadService.run v events).
      destruct (step_counts w e pool) as [_ Hstep].
      destruct (Hstep Hdead) as [Hdead' Hle].
      destruct (IH _ pool Hdead') as (Hlive & Hmono & Hbound).
      split; [exact Hlive|]. split; [|lia].
      assert (Hgrow : (RaydiumLaunchpadService.migrationsOf w pool
                       <= RaydiumLaunchpadService.migrationsOf
                            (RaydiumLaunchpadService.step w e) pool)%nat).
      { clear. destruct e as [p|call answer]; cbn [RaydiumLaunchpadService.step].
        - unfold RaydiumLaunchpadService.startCheck.
          destruct (existsb _ _); [|lia].
          destruct (RaydiumLaunchpadService.live w p); [|lia].
          unfold RaydiumLaunchpadService.migrationsOf. cbn. lia.
        - unfold RaydiumLaunchpadService.resume, RaydiumLaunchpadService.migrationsOf.
          destruct (nth_error _ _) as [[p|p|p|]|]; try lia.
          + destruct answer as [[lamports|]|flag|txId|]; try lia; cbn; try lia.
            destruct (JsMap.get _ _ _); cbn; lia.
          + destruct answer as [lamports|[|]|txId|]; try lia; cbn; try lia.
            destruct (String.eqb pool p); cbn; lia.
          + destruct answer as [lamports|flag|[txId|]|]; try lia; cbn; try lia.
            destruct (JsMap.get _ _ _); cbn; lia. }
      lia. }
  intros w pool Hdead w'. destruct (Hrun w pool Hdead) as (Hlive & Hmono & Hbound).
  split; [exact Hlive|]. split; [exact Hbound|]. intros Hnone. subst w'. lia.
Qed.

Lemma X16_no_migration_starts_after_the_flag_witness :
  let w :=
    RaydiumLaunchpadService.run
      (@RaydiumLaunchpadService.launched float _ "pool" "WEN" (int 69))
      [ RaydiumLaunchpadService.Tick "pool";
        RaydiumLaunchpadService.Tick "pool";
        RaydiumLaunchpadService.Resume 0
          (RaydiumLaunchpadService.PoolInfo (Some (int 69000000000)));
        RaydiumLaunchpadService.Resume 1
          (RaydiumLaunchpadService.PoolInfo (Some (int 69000000000)));
        RaydiumLaunchpadService.Resume 0 (RaydiumLaunchpadService.Migration true);
        RaydiumLaunchpadService.Resume 0
          (RaydiumLaunchpadService.Executed (Some "tx-1")) ]%string in
  RaydiumLaunchpadService.live
    (RaydiumLaunchpadService.run w
       [ RaydiumLaunchpadService.Tick "pool";
         RaydiumLaunchpadService.Resume 1 (RaydiumLaunchpadService.Migration true) ]%string)
    "pool" = false.
Proof.
  intros w.
  apply (@X16_no_migration_starts_after_the_flag float _
           [ RaydiumLaunchpadService.Tick "pool";
             RaydiumLaunchpadService.Resume 1 (RaydiumLaunchpadService.Migration true) ]%string
           w "pool").
  vm_compute. reflexivity.
Defined.

(** X17.  Every migration executed for a pool goes back to a call that
    was in flight for it or to a tick of its interval: over any sequence of
    ticks and answers the migrations executed for a pool grow by at most the
    calls waiting for its migration or its pool info plus the ticks of its
    interval.  From launch on, a pool is migrated at most as many times as
    its interval has fired. *)
Theorem X17_one_migration_per_check :
  forall (num : Type) (N : JsNumber num)
         (events : list (@RaydiumLaunchpadService.Event num))
         (w : @RaydiumLaunchpadService.World num) (pool sym : string) (goal : num),
    (RaydiumLaunchpadService.migrationsOf (RaydiumLaunchpadService.run w events) pool
     <= RaydiumLaunchpadService.migrationsOf w pool
        + LaunchpadStatus.awaitingMigration w pool
        + LaunchpadStatus.awaitingPoolInfo w pool
        + LaunchpadStatus.ticksOf pool events)%nat
    /\ (RaydiumLaunchpadService.migrationsOf
          (RaydiumLaunchpadService.run
             (RaydiumLaunchpadService.launched pool sym goal) events) pool
        <= LaunchpadStatus.ticksOf pool events)%nat.
Proof.
  intros num N events.
  assert (Hrun : forall (w : @RaydiumLaunchpadService.World num) (pool : string),
             (RaydiumLaunchpadService.migrationsOf
                (RaydiumLaunchpadService.run w events) pool
              + LaunchpadStatus.awaitingMigration
                  (RaydiumLaunchpadService.run w events) pool
              + LaunchpadStatus.awaitingPoolInfo
                  (RaydiumLaunchpadService.run w events) pool
              <= RaydiumLaunchpadService.migrationsOf w pool
                 + LaunchpadStatus.awaitingMigration w pool
                 + LaunchpadStatus.awaitingPoolInfo w pool
                 + LaunchpadStatus.ticksOf pool events)%nat).
  { induction events as [|e events IH]; intros w pool.
    - cbn. lia.
    - cbn [RaydiumLaunchpadService.run fold_left].
      change (fold_left RaydiumLaunchpadService.step events ?v)
        with (RaydiumLaunchpadService.run v events).
      destruct (step_counts w e pool) as [Hstep _].
      specialize (IH (RaydiumLaunchpadService.step w e) pool).
      unfold LaunchpadStatus.ticksOf in *. cbn [filter].
      destruct (LaunchpadStatus.isTick pool e); cbn [Nat.b2n List.length] in *; lia. }
  intros w pool sym goal. split.
  - pose proof (Hrun w pool). lia.
  - pose proof (Hrun (RaydiumLaunchpadService.launched pool sym goal) pool) as Hle.
    cbn in Hle. lia.
Qed.

(** ** Portfolios and the trades of a token *)

(** X18.  [updatePortfolio] overwrites: afterwards the position of that
    user in that token holds the amount and the average price that were
    passed, not a sum with what was held.  A position that existed keeps
    its id, user and token and no id is consumed; a new one takes the next
    portfolio id and is added after the others.  Positions under any other
    key, and tokens, trades and pools, are untouched.  The position is
    listed by [getPortfolio] for the user it names. *)
Theorem X18_updatePortfolio :
  forall (num : Type) (N : JsNumber num) (st : @MemStorage.Storage num)
         (user : string) (tokenId : Z) (amount averagePrice : num) (now : Z),
    let r := MemStorage.updatePortfolio st user tokenId amount averagePrice now in
    StorageLookups.getPortfolioPosition (snd r) user tokenId = Some (fst r)
    /\ MemStorage.pf_amount (fst r) = amount
    /\ MemStorage.pf_averagePrice (fst r) = averagePrice
    /\ MemStorage.pf_updatedAt (fst r) = now
    /\ match StorageLookups.getPortfolioPosition st user tokenId with
       | Some existing =>
           MemStorage.pf_id (fst r) = MemStorage.pf_id existing
           /\ MemStorage.pf_user (fst r) = MemStorage.pf_user existing
           /\ MemStorage.pf_tokenId (fst r) = MemStorage.pf_tokenId existing
           /\ MemStorage.currentPortfolioId (snd r) = MemStorage.currentPortfolioId st
           /\ List.map fst (MemStorage.portfolios (snd r))
              = List.map fst (MemStorage.portfolios st)
       | None =>
           MemStorage.pf_id (fst r) = MemStorage.currentPortfolioId st
           /\ MemStorage.pf_user (fst r) = user
           /\ MemStorage.pf_tokenId (fst r) = tokenId
           /\ MemStorage.currentPortfolioId (snd r)
              = (MemStorage.currentPortfolioId st + 1)%Z
           /\ MemStorage.portfolios (snd r)
              = MemStorage.portfolios st
                  ++ [(MemStorage.portfolioKey user tokenId, fst r)]
       end
    /\ (forall user' tokenId',
          MemStorage.portfolioKey user' tokenId' <> MemStorage.portfolioKey user tokenId ->
          StorageLookups.getPortfolioPosition (snd r) user' tokenId'
          = StorageLookups.getPortfolioPosition st user' tokenId')
    /\ In (fst r) (StorageLookups.getPortfolio (snd r) (MemStorage.pf_user (fst r)))
    /\ MemStorage.tokens (snd r) = MemStorage.tokens st
    /\ MemStorage.trades (snd r) = MemStorage.trades st
    /\ MemStorage.pools (snd r) = MemStorage.pools st.
Proof.
  intros num N st user tokenId amount averagePrice now r; subst r.
  assert (Hlisted : forall (st' : @MemStorage.Storage num) position,
             StorageLookups.getPortfolioPosition st' user tokenId = Some position ->
             In position
                (StorageLookups.getPortfolio st' (MemStorage.pf_user position))).
  { intros st' position Hpos. unfold StorageLookups.getPortfolio.
    apply filter_In. split; [|apply String.eqb_refl].
    apply (get_present String.eqb String.eqb_eq) in Hpos.
    apply in_map_iff. eexists. split; [|exact Hpos]. reflexivity. }
  match goal with
  | |- _ /\ _ /\ _ /\ _ /\ _ /\ _ /\ In ?p (StorageLookups.getPortfolio ?s _) /\ _ =>
      specialize (Hlisted s p)
  end.
  revert Hlisted.
  unfold MemStorage.updatePortfolio, StorageLookups.getPortfolioPosition.
  destruct (JsMap.get String.eqb (MemStorage.portfolioKey user tokenId)
              (MemStorage.portfolios st)) as [existing|] eqn:Hget;
    cbn [fst snd MemStorage.portfolios MemStorage.pf_amount MemStorage.pf_averagePrice
           MemStorage.pf_updatedAt MemStorage.pf_id MemStorage.pf_user
           MemStorage.pf_tokenId MemStorage.currentPortfolioId MemStorage.tokens
           MemStorage.trades MemStorage.pools]; intros Hlisted.
  - split; [apply (get_set_same String.eqb String.eqb_eq)|].
    repeat (split; [reflexivity|]).
    split.
    { repeat (split; [reflexivity|]).
      exact (set_keys_present String.eqb _ _ _ Hget). }
    split; [|split; [apply Hlisted; apply (get_set_same String.eqb String.eqb_eq)
                    |repeat split]].
    intros user' tokenId' Hother.
    apply (get_set_other String.eqb String.eqb_eq). congruence.
  - split; [apply (get_set_same String.eqb String.eqb_eq)|].
    repeat (split; [reflexivity|]).
    split.
    { repeat (split; [reflexivity|]).
      exact (@set_absent _ _ String.eqb _ _ _ Hget). }
    split; [|split; [apply Hlisted; apply (get_set_same String.eqb String.eqb_eq)
                    |repeat split]].
    intros user' tokenId' Hother.
    apply (get_set_other String.eqb String.eqb_eq). congruence.
Qed.

Section TradeListFacts.
Variables (A : Type) (key : A -> Z).

(** Sorting newest first a list whose last element is the newest. *)
Lemma sort_snoc_newest (x : A) (l : list A) :
  (forall a, In a l -> (key a < key x)%Z) ->
  sort (descending key) (l ++ [x]) = x :: sort (descending key) l.
Proof.
  induction l as [|a l IH]; intros Hnew; cbn; [reflexivity|].
  rewrite IH by (intros b Hb; apply Hnew; right; exact Hb). cbn.
  assert (Ha : (key a < key x)%Z) by (apply Hnew; left; reflexivity).
  unfold descending at 1.
  destruct (key x - key a <=? 0)%Z eqn:E; [apply Z.leb_le in E; lia|reflexivity].
Qed.

End TradeListFacts.

(** X19.  [createTrade] and [getTrades] together, on a trade log whose
    trades sit under their own ids below the next id: the trades of the
    token are afterwards the new trade and the trades it had, those of every
    other token are the same list as before, and when the clock reading of
    the new trade is later than that of every trade of the token, the new
    trade comes first, followed by the earlier list unchanged. *)
Theorem X19_createTrade_then_getTrades :
  forall (num : Type) (N : JsNumber num) (st : @MemStorage.Storage num)
         (insertTrade : @MemStorage.InsertTrade num) (now : Z),
    StorageLookups.tradesKeyed st ->
    let r := MemStorage.createTrade st insertTrade now in
    let tokenId := MemStorage.i_tokenId insertTrade in
    StorageLookups.tradesKeyed (snd r)
    /\ MemStorage.tr_createdAt (fst r) = now
    /\ Permutation (fst r :: MemStorage.getTrades st tokenId)
                   (MemStorage.getTrades (snd r) tokenId)
    /\ (forall other, other <> tokenId ->
          MemStorage.getTrades (snd r) other = MemStorage.getTrades st other)
    /\ ((forall trade, In trade (MemStorage.getTrades st tokenId) ->
           (MemStorage.tr_createdAt trade < now)%Z) ->
        MemStorage.getTrades (snd r) tokenId = fst r :: MemStorage.getTrades st tokenId).
Proof.
  intros num N st insertTrade now Hkeyed r tokenId; subst r tokenId.
  destruct (createTrade_stores st insertTrade now) as (Htrades & _ & Htok & Hid).
  destruct (createTrade_ledger st insertTrade now) as (Hnext & _ & _ & _ & _ & _ & Hat).
  cbv zeta in Htrades, Htok, Hid, Hnext, Hat.
  rewrite (@set_absent _ _ Z.eqb _ _ _ (tradesKeyed_fresh Hkeyed)) in Htrades.
  set (r := MemStorage.createTrade st insertTrade now) in *.
  split; [eapply tradesKeyed_append; eassumption|].
  split; [exact Hat|].
  assert (Hlist : forall other,
             MemStorage.getTrades (snd r) other
             = sort (descending MemStorage.tr_createdAt)
                 (filter (fun trade => (MemStorage.tr_tokenId trade =? other)%Z)
                         (JsMap.values (MemStorage.trades st))
                  ++ (if (MemStorage.i_tokenId insertTrade =? other)%Z
                      then [fst r] else []))).
  { intros other. unfold MemStorage.getTrades. rewrite Htrades. unfold JsMap.values.
    rewrite map_app. cbn [List.map snd]. rewrite filter_app. cbn [filter].
    rewrite Htok. reflexivity. }
  split; [|split].
  - rewrite Hlist, Z.eqb_refl.
    rewrite <- (sort_perm MemStorage.tr_createdAt (_ ++ [fst r])).
    unfold MemStorage.getTrades.
    rewrite <- (sort_perm MemStorage.tr_createdAt).
    rewrite Permutation_app_comm. reflexivity.
  - intros other Hother. rewrite Hlist.
    assert (E : (MemStorage.i_tokenId insertTrade =? other)%Z = false)
      by (apply Z.eqb_neq; congruence).
    rewrite E, app_nil_r. reflexivity.
  - intros Hnewest. rewrite Hlist, Z.eqb_refl.
    apply (sort_snoc_newest MemStorage.tr_createdAt).
    intros trade Hin. rewrite Hat. apply Hnewest.
    apply (Permutation_in _ (sort_perm MemStorage.tr_createdAt _)). exact Hin.
Qed.

Lemma X19_createTrade_then_getTrades_witness :
  StorageLookups.tradesKeyed
    (snd (MemStorage.createTrade (@Sample.storage Q _ false)
            {| MemStorage.i_tokenId := 1; MemStorage.i_user := "alice";
               MemStorage.i_type := "buy"; MemStorage.i_amount := 5;
               MemStorage.i_price := 2; MemStorage.i_tokensAmount := 5;
               MemStorage.i_signature := "trade_1748078502000" |}
            1748078502000)).
Proof.
  apply (@X19_createTrade_then_getTrades Q _ (Sample.storage false)
           {| MemStorage.i_tokenId := 1; MemStorage.i_user := "alice";
              MemStorage.i_type := "buy"; MemStorage.i_amount := 5;
              MemStorage.i_price := 2; MemStorage.i_tokensAmount := 5;
              MemStorage.i_signature := "trade_1748078502000" |}
           1748078502000).
  split; [constructor|constructor].
Defined.

(** ** The token a trade is recorded for *)

Section TokenFacts.
Context {num : Type} `{JsNumber num}.
Local Open Scope js_scope.

Local Abbreviation Storage := (@MemStorage.Storage num).
Local Abbreviation Token := (@MemStorage.Token num).

Lemma get_of_in (K V : Type) (eqb : K -> K -> bool) (k : K) (v : V) (m : JsMap.t K V) :
  (forall a b, eqb a b = true <-> a = b) ->
  NoDup (List.map fst m) -> In (k, v) m -> JsMap.get eqb k m = Some v.
Proof.
  intros Heq. induction m as [|[k' v'] m IH]; cbn; [intros _ []|].
  intros Hnodup Hin. inversion Hnodup as [|? ? Hfresh Hrest]; subst.
  destruct Hin as [[= -> ->]|Hin].
  - rewrite (proj2 (Heq k k) eq_refl). reflexivity.
  - destruct (eqb k' k) eqn:E.
    + apply Heq in E. subst k'. exfalso. apply Hfresh.
      apply in_map_iff. exists (k, v). split; [reflexivity|exact Hin].
    + apply IH; assumption.
Qed.

(** The token found for a mint is the one stored under its id. *)
Lemma found_token_stored (st : Storage) (mint : string) (token : Token) :
  StorageLookups.tokensKeyed st ->
  find (Routes.sameMint mint) (MemStorage.getAllTokens st) = Some token ->
  MemStorage.getToken st (MemStorage.t_id token) = Some token.
Proof.
  intros [Hall Hnodup] Hfind. apply find_some in Hfind. destruct Hfind as [Hin _].
  unfold MemStorage.getAllTokens in Hin.
  apply (Permutation_in _ (Permutation_sym (sort_perm MemStorage.t_createdAt _))) in Hin.
  apply in_map_iff in Hin. destruct Hin as ([k stored] & Hsnd & Hin).
  cbn in Hsnd. subst stored. rewrite Forall_forall in Hall.
  pose proof (Hall _ Hin) as Hk. cbn in Hk. rewrite Hk.
  apply (get_of_in Z.eqb _ _ _ Z.eqb_eq Hnodup Hin).
Qed.

(** What [createTrade] does to the token of the trade. *)
Lemma createTrade_token (st : Storage) (insertTrade : MemStorage.InsertTrade) (now : Z)
      (token : Token) :
  MemStorage.getToken st (MemStorage.i_tokenId insertTrade) = Some token ->
  exists t1,
    MemStorage.tokens (snd (MemStorage.createTrade st insertTrade now))
    = JsMap.set Z.eqb (MemStorage.i_tokenId insertTrade) t1 (MemStorage.tokens st)
    /\ MemStorage.t_currentSupply t1
       = (if String.eqb (MemStorage.i_type insertTrade) "buy"
          then MemStorage.t_currentSupply token + MemStorage.i_tokensAmount insertTrade
          else MemStorage.t_currentSupply token - MemStorage.i_tokensAmount insertTrade)
    /\ MemStorage.t_marketCap t1
       = MemStorage.t_currentSupply t1 * MemStorage.i_price insertTrade
    /\ MemStorage.t_isGraduated t1 = MemStorage.t_isGraduated token
    /\ MemStorage.t_id t1 = MemStorage.t_id token
    /\ MemStorage.t_mintAddress t1 = MemStorage.t_mintAddress token
    /\ MemStorage.t_symbol t1 = MemStorage.t_symbol token.
Proof.
  intros Hget. unfold MemStorage.createTrade.
  match goal with
  | |- context [MemStorage.getToken ?s ?i] =>
      change (MemStorage.getToken s i)
        with (MemStorage.getToken st (MemStorage.i_tokenId insertTrade))
  end.
  rewrite Hget. unfold MemStorage.updateToken at 1.
  cbn [MemStorage.tokens]. unfold MemStorage.getToken in Hget. rewrite Hget.
  cbn [fst snd MemStorage.withTokens MemStorage.tokens].
  eexists. split; [reflexivity|].
  cbn [MemStorage.merge MemStorage.t_currentSupply MemStorage.t_marketCap
         MemStorage.t_isGraduated MemStorage.t_id MemStorage.t_mintAddress
         MemStorage.t_symbol MemStorage.up_currentSupply MemStorage.up_marketCap
         MemStorage.up_isGraduated].
  repeat split.
Qed.

(** What [recordTrade] leaves of the token. *)
Lemma recordTrade_token (env : Routes.HandlerEnv) (st : Storage)
      (req : Routes.TradeRequest) (token : Token) (result : Routes.TradeOutcome) :
  MemStorage.getToken st (MemStorage.t_id token) = Some token ->
  exists body st' t',
    Routes.recordTrade env st req token result = (Routes.Json body, st')
    /\ MemStorage.getToken st' (MemStorage.t_id token) = Some t'
    /\ MemStorage.t_volume24h t' = MemStorage.t_volume24h token + Routes.rq_amountIn req
    /\ MemStorage.t_currentPrice t' = Routes.newPrice body
    /\ MemStorage.t_isGraduated t' = Routes.isGraduated body
    /\ MemStorage.t_currentSupply t'
       = (if Routes.rq_isBuy req
          then MemStorage.t_currentSupply token + Routes.tokensAmount body
          else MemStorage.t_currentSupply token - Routes.tokensAmount body)
    /\ MemStorage.t_marketCap t' = MemStorage.t_currentSupply t' * Routes.newPrice body
    /\ (MemStorage.t_isGraduated token = true ->
        Routes.newPrice body = int 0 /\ Routes.isGraduated body = true)
    /\ MemStorage.t_id t' = MemStorage.t_id token
    /\ MemStorage.t_mintAddress t' = MemStorage.t_mintAddress token
    /\ (forall other, other <> MemStorage.t_id token ->
          MemStorage.getToken st' other = MemStorage.getToken st other)
    /\ List.map fst (MemStorage.tokens st') = List.map fst (MemStorage.tokens st).
Proof.
  intros Hget. unfold Routes.recordTrade.
  match goal with
  | |- context [MemStorage.createTrade ?s ?i ?n] =>
      destruct (@createTrade_token s i n token Hget)
        as (t1 & Htokens & Hsupply & Hcap & Hgrad & Hid & Hmint & _);
      destruct (MemStorage.createTrade s i n) as [trade st1]
  end.
  cbn [snd MemStorage.i_tokenId MemStorage.i_type MemStorage.i_tokensAmount
         MemStorage.i_price] in Htokens, Hsupply, Hcap.
  assert (Hget1 : JsMap.get Z.eqb (MemStorage.t_id token) (MemStorage.tokens st1)
                  = Some t1).
  { rewrite Htokens. apply (get_set_same Z.eqb Z.eqb_eq). }
  match goal with
  | |- context [MemStorage.updatePortfolio ?s ?u ?i ?a ?p ?n] =>
      destruct (updatePortfolio_position s u i a p n) as (_ & _ & _ & _ & _ & Hkeep)
  end.
  unfold MemStorage.updateToken in Hkeep |- *. rewrite Hget1 in Hkeep |- *.
  cbn [snd MemStorage.withTokens MemStorage.tokens] in Hkeep.
  eexists; eexists; eexists. split; [reflexivity|].
  unfold MemStorage.getToken.
  cbn [Routes.newPrice Routes.isGraduated Routes.tokensAmount].
  cbn [snd] in Hkeep |- *. rewrite Hkeep, Htokens.
  split; [apply (get_set_same Z.eqb Z.eqb_eq)|].
  cbn [MemStorage.merge MemStorage.t_volume24h MemStorage.t_currentPrice
         MemStorage.t_isGraduated MemStorage.t_currentSupply MemStorage.t_marketCap
         MemStorage.t_id MemStorage.t_mintAddress MemStorage.up_volume24h
         MemStorage.up_currentPrice MemStorage.up_isGraduated
         MemStorage.up_currentSupply MemStorage.up_marketCap].
  split; [reflexivity|]. split; [reflexivity|].
  split.
  { rewrite Hgrad. destruct (MemStorage.t_isGraduated token); cbn [negb andb orb];
      [reflexivity|].
    destruct (Routes.o_isGraduated result) as [[|]|]; reflexivity. }
  split.
  { rewrite Hsupply. destruct (Routes.rq_isBuy req); reflexivity. }
  split; [exact Hcap|].
  split; [intros ->; split; reflexivity|].
  split; [exact Hid|]. split; [exact Hmint|].
  split.
  - intros other Hother.
    rewrite !(get_set_other Z.eqb Z.eqb_eq) by congruence. reflexivity.
  - unfold MemStorage.getToken in Hget.
    rewrite (set_keys_present Z.eqb _ _ _ (get_set_same Z.eqb Z.eqb_eq _ t1 _)).
    exact (set_keys_present Z.eqb _ _ _ Hget).
Qed.

End TokenFacts.

(** X20.  The token after POST /api/tokens/trade, on a storage whose
    tokens sit under their own distinct ids.  After a 200 answer the token
    of the requested mint is stored with the answered price and graduation
    flag, its 24h volume raised by the requested amount (the volume
    [createTrade] had written is overwritten), its supply raised by the
    answered token amount on a buy and lowered by it on a sell, and its
    market cap set to that supply times the answered price.  For a
    graduated token the answered price is 0, so the price is stored as 0
    and the market cap as the supply times 0.  A flag that is set is never
    cleared; id and mint are kept; every other token is untouched.  After
    any other answer the storage is as before. *)
Theorem X20_token_after_trade :
  forall (num : Type) (N : JsNumber num) (env : @Routes.HandlerEnv num)
         (st : @MemStorage.Storage num) (req : @Routes.TradeRequest num),
    StorageLookups.tokensKeyed st ->
    let r := Routes.tradeHandler env st req in
    StorageLookups.tokensKeyed (snd r)
    /\ match fst r with
       | Routes.Json body =>
           exists token t',
             find (Routes.sameMint (Routes.rq_tokenMint req)) (MemStorage.getAllTokens st)
             = Some token
             /\ MemStorage.getToken st (MemStorage.t_id token) = Some token
             /\ MemStorage.getToken (snd r) (MemStorage.t_id token) = Some t'
             /\ MemStorage.t_currentPrice t' = Routes.newPrice body
             /\ MemStorage.t_isGraduated t' = Routes.isGraduated body
             /\ (MemStorage.t_isGraduated token = true ->
                 MemStorage.t_isGraduated t' = true
                 /\ MemStorage.t_currentPrice t' = int 0
                 /\ MemStorage.t_marketCap t'
                    = (MemStorage.t_currentSupply t' * int 0)%js)
             /\ MemStorage.t_volume24h t'
                = (MemStorage.t_volume24h token + Routes.rq_amountIn req)%js
             /\ MemStorage.t_currentSupply t'
                = (if Routes.rq_isBuy req
                   then MemStorage.t_currentSupply token + Routes.tokensAmount body
                   else MemStorage.t_currentSupply token - Routes.tokensAmount body)%js
             /\ MemStorage.t_marketCap t'
                = (MemStorage.t_currentSupply t' * Routes.newPrice body)%js
             /\ MemStorage.t_id t' = MemStorage.t_id token
             /\ MemStorage.t_mintAddress t' = MemStorage.t_mintAddress token
             /\ (forall other, other <> MemStorage.t_id token ->
                   MemStorage.getToken (snd r) other = MemStorage.getToken st other)
       | _ => snd r = st
       end.
Proof.
  intros num N env st req Hkeyed r.
  destruct (tradeHandler_cases env st req)
    as [[Hsame Herror]|(token & result & Hfind & Hrun)].
  - fold r in Hsame, Herror. split; [rewrite Hsame; exact Hkeyed|].
    destruct (fst r) as [| | | |body]; try exact Hsame.
    exfalso. exact (Herror body eq_refl).
  - subst r. rewrite Hrun.
    pose proof (found_token_stored _ Hkeyed Hfind) as Hstored.
    destruct (@recordTrade_token _ _ env st req token result Hstored)
      as (body & st' & t' & -> & Hget & Hvolume & Hprice & Hflag & Hsupply & Hcap
          & Hzero & Hid & Hmint & Hothers & Hkeys).
    cbn [fst snd]. split.
    + destruct Hkeyed as [Hall Hnodup]. split; [|rewrite Hkeys; exact Hnodup].
      rewrite Forall_forall. intros [k stored] Hin. cbn.
      assert (Hk : In k (List.map fst (MemStorage.tokens st'))).
      { apply in_map_iff. exists (k, stored). split; [reflexivity|exact Hin]. }
      assert (Hnodup' : NoDup (List.map fst (MemStorage.tokens st')))
        by (rewrite Hkeys; exact Hnodup).
      pose proof (get_of_in Z.eqb _ _ _ Z.eqb_eq Hnodup' Hin) as Hlook.
      destruct (Z.eq_dec k (MemStorage.t_id token)) as [->|Hne].
      * unfold MemStorage.getToken in Hget. rewrite Hget in Hlook.
        injection Hlook as <-. exact Hid.
      * specialize (Hothers k Hne). unfold MemStorage.getToken in Hothers.
        rewrite Hlook in Hothers. symmetry in Hothers.
        apply (get_present Z.eqb Z.eqb_eq) in Hothers.
        rewrite Forall_forall in Hall. exact (Hall _ Hothers).
    + exists token, t'. split; [exact Hfind|]. split; [exact Hstored|].
      split; [exact Hget|]. split; [exact Hprice|]. split; [exact Hflag|].
      split.
      { intros Hgrad. destruct (Hzero Hgrad) as [Hnull Hstays].
        split; [|split].
        - rewrite Hflag. exact Hstays.
        - rewrite Hprice. exact Hnull.
        - rewrite Hcap, Hnull. reflexivity. }
      repeat (split; [assumption|]). exact Hothers.
Qed.

Lemma X20_token_after_trade_witness :
  StorageLookups.tokensKeyed
    (snd (Routes.tradeHandler (Sample.handlerUp 1748078502000)
            (@Sample.storage Q _ true) (Sample.order 1))).
Proof.
  apply (@X20_token_after_trade Q _ (Sample.handlerUp 1748078502000)
           (Sample.storage true) (Sample.order 1)).
  split.
  - constructor; [reflexivity|constructor].
  - constructor; [intros []|constructor].
Defined.

(** ** The pools of the launchpad under polling *)

Section PoolListFacts.
Context {num : Type} `{JsNumber num}.

Lemma set_keeps_view (K V X : Type) (eqb : K -> K -> bool) (view : V -> X)
      (k : K) (v v' : V) (m : JsMap.t K V) :
  JsMap.get eqb k m = Some v -> view v' = view v ->
  List.map view (JsMap.values (JsMap.set eqb k v' m)) = List.map view (JsMap.values m)
  /\ List.map fst (JsMap.set eqb k v' m) = List.map fst m.
Proof.
  intros Hget Hview. induction m as [|[k0 v0] m IH]; cbn in *; [discriminate|].
  destruct (eqb k0 k); cbn.
  - injection Hget as ->. rewrite Hview. split; reflexivity.
  - destruct (IH Hget) as [Hvalues Hkeys].
    unfold JsMap.values in Hvalues. rewrite Hvalues, Hkeys. split; reflexivity.
Qed.

End PoolListFacts.

(** X21.  Polling neither adds nor removes a pool, and never changes the
    id, the symbol or the fundraising goal of one: over any sequence of
    ticks and answers [getAllPools] lists the same pools in the same
    order, under the same keys; only the collected amount, the [migrated]
    flag and the migration transaction id of a pool can differ. *)
Theorem X21_polling_keeps_the_pools :
  forall (num : Type) (N : JsNumber num)
         (events : list (@RaydiumLaunchpadService.Event num))
         (w : @RaydiumLaunchpadService.World num),
    let identity (poolData : @RaydiumLaunchpadService.PoolData num) :=
      (RaydiumLaunchpadService.poolId poolData,
       RaydiumLaunchpadService.symbol poolData,
       RaydiumLaunchpadService.fundraisingGoal poolData) in
    let w' := RaydiumLaunchpadService.run w events in
    List.map identity (LaunchpadStatus.getAllPools w')
    = List.map identity (LaunchpadStatus.getAllPools w)
    /\ List.map fst (RaydiumLaunchpadService.poolStorage w')
       = List.map fst (RaydiumLaunchpadService.poolStorage w).
Proof.
  intros num N events w identity w'. subst w'. revert w.
  induction events as [|e events IH]; intros w; [split; reflexivity|].
  cbn [RaydiumLaunchpadService.run fold_left].
  change (fold_left RaydiumLaunchpadService.step events ?v)
    with (RaydiumLaunchpadService.run v events).
  destruct (IH (RaydiumLaunchpadService.step w e)) as [Hvalues Hkeys].
  rewrite Hvalues, Hkeys. clear IH Hvalues Hkeys.
  unfold LaunchpadStatus.getAllPools.
  destruct e as [p|call answer]; cbn [RaydiumLaunchpadService.step].
  - unfold RaydiumLaunchpadService.startCheck.
    destruct (existsb _ _); [|split; reflexivity].
    destruct (RaydiumLaunchpadService.live w p); split; reflexivity.
  - unfold RaydiumLaunchpadService.resume.
    destruct (nth_error _ _) as [[p|p|p|]|]; try (split; reflexivity).
    + destruct answer as [[lamports|]|flag|txId|]; try (split; reflexivity).
      destruct (JsMap.get String.eqb p (RaydiumLaunchpadService.poolStorage w))
        as [poolData|] eqn:Hget; [|split; reflexivity].
      cbn [RaydiumLaunchpadService.withCalls RaydiumLaunchpadService.poolStorage].
      eapply set_keeps_view; [exact Hget|reflexivity].
    + destruct answer as [lamports|[|]|txId|]; split; reflexivity.
    + destruct answer as [lamports|flag|[txId|]|]; try (split; reflexivity).
      destruct (JsMap.get String.eqb p (RaydiumLaunchpadService.poolStorage w))
        as [poolData|] eqn:Hget; [|split; reflexivity].
      cbn [RaydiumLaunchpadService.poolStorage].
      eapply set_keeps_view; [exact Hget|reflexivity].
Qed.
